(** * miriam-core: access-level bootstrap hook and append-log tools

    A shallow embedding of the TypeScript sources of the repository

      - [hooks/access-level-bootstrap/handler.ts]  (module [AccessLevelBootstrap])
      - [src/utils/fs.ts]                          (module [Fs])
      - [src/tools/task-executor.ts]               (module [TaskExecutor])
      - [src/tools/diary.ts]                       (module [Diary])
      - [src/tools/quick-capture.ts]               (module [QuickCapture])
      - [src/tools/dashboard-note.ts]              (module [DashboardNote])
      - [src/tools/research.ts]                    (module [Research])

    followed by the properties of these definitions.

    Conventions of the embedding.

    - A JavaScript string is a [string]: a sequence of code units below 256.
    - A promise that rejects and a [throw] are both the completion [Throw];
      a function that touches the disk is a computation over the file store
      [gmap string string] (path to content).  A missing file is the only
      input/output fault that is modelled: directory creation succeeds and
      leaves every file alone.
    - Console output is not part of the state.
    - What the platform provides and the sources only call ([node:path],
      [os.homedir], [JSON.parse], [JSON.stringify], [Array.prototype.sort],
      the clock, [randomUUID]) is a parameter: a field of [Host], an instance
      of [JsonCodec], or an argument of the function that reads it. *)

From Stdlib Require Import ZArith Ascii String.
From stdpp Require Import gmap strings list.

Local Open Scope Z_scope.

(** ** The parts of the JavaScript runtime the sources rely on *)

Module Js.

(** *** String methods *)

(** White space in the sense of [String.prototype.trim], among the code
    units below 256: TAB, LF, VT, FF, CR, SP and NBSP. *)
Definition isWhiteSpace (c : ascii) : bool :=
  match c with
  | "009" | "010" | "011" | "012" | "013" | " " | "160" => true
  | _ => false
  end%char.

Definition isEmpty (s : string) : bool :=
  match s with "" => true | _ => false end.

Fixpoint trimStart (s : string) : string :=
  match s with
  | "" => ""
  | String c r => if isWhiteSpace c then trimStart r else s
  end.

Fixpoint trimEnd (s : string) : string :=
  match s with
  | "" => ""
  | String c r =>
      let r' := trimEnd r in
      if isWhiteSpace c && isEmpty r' then "" else String c r'
  end.

(** [s.trim()] *)
Definition trim (s : string) : string := trimEnd (trimStart s).

(** A text made of white space only (the empty text included). *)
Fixpoint whitespaceOnly (s : string) : bool :=
  match s with
  | "" => true
  | String c r => isWhiteSpace c && whitespaceOnly r
  end.

(** [s.startsWith(x)] *)
Fixpoint startsWith (s x : string) : bool :=
  match x, s with
  | "", _ => true
  | String _ _, "" => false
  | String d x', String c s' => bool_decide (c = d) && startsWith s' x'
  end.

(** [s.includes(x)]: [x] occurs in [s] at some position. *)
Fixpoint includes (s x : string) : bool :=
  startsWith s x || match s with "" => false | String _ r => includes r x end.

(** [s.endsWith(x)]: some suffix of [s] is [x]. *)
Fixpoint endsWith (s x : string) : bool :=
  bool_decide (s = x) || match s with "" => false | String _ r => endsWith r x end.

(** [s.split(sep)] for a separator of one code unit.  The result is never
    the empty array: [split sep ""] is the array holding the empty string. *)
Fixpoint split (sep : ascii) (s : string) : list string :=
  match s with
  | "" => [""]
  | String c r =>
      if bool_decide (c = sep) then "" :: split sep r
      else match split sep r with
           | h :: t => String c h :: t
           | [] => [String c ""]
           end
  end.

(** [lines.join(sep)] *)
Definition join (sep : string) (l : list string) : string := String.concat sep l.

Definition toLowerChar (c : ascii) : ascii :=
  let n := nat_of_ascii c in
  if bool_decide (65 ≤ n ≤ 90)%nat then ascii_of_nat (n + 32) else c.

(** [s.toLowerCase()] on the code units below 128. *)
Fixpoint toLowerCase (s : string) : string :=
  match s with
  | "" => ""
  | String c r => String (toLowerChar c) (toLowerCase r)
  end.

(** The line feed, as a code unit and as a string. *)
Definition LF : ascii := "010"%char.
Definition nl : string := String LF "".

(** [a <= b] and [a >= b] on strings: by code units. *)
Definition str_le (a b : string) : bool := String.leb a b.
Definition str_ge (a b : string) : bool := String.leb b a.

(** [s.length] *)
Definition length (s : string) : Z := Z.of_nat (String.length s).

(** Truthiness of an optional string ([undefined] and the empty string are
    falsy). *)
Definition truthy (o : option string) : bool :=
  match o with Some s => negb (isEmpty s) | None => false end.

(** [a || b] on optional strings. *)
Definition orElse (a b : option string) : option string :=
  if truthy a then a else b.

(** *** Completions: returning or throwing *)

Inductive JsError :=
| Error (message : string)   (* [new Error(message)] *)
| TypeError                  (* a property read or a call on [undefined] or [null] *)
| SyntaxError                (* [JSON.parse] on malformed text *)
| SystemError (code : string). (* a failed system call, with its [code] *)

Inductive Completion (A : Type) :=
| Normal (a : A)
| Throw (e : JsError).
Global Arguments Normal {A} a.
Global Arguments Throw {A} e.

Definition isThrow {A} (c : Completion A) : bool :=
  match c with Throw _ => true | Normal _ => false end.

(** Computations over a mutable store [S] that may throw.  The store a
    throwing computation leaves behind is the store at the [throw]. *)
Definition Eff (S A : Type) : Type := S → Completion A * S.

Definition ret {S A} (a : A) : Eff S A := λ s, (Normal a, s).
Definition throw {S A} (e : JsError) : Eff S A := λ s, (Throw e, s).
Definition bind {S A B} (m : Eff S A) (k : A → Eff S B) : Eff S B :=
  λ s, match m s with
       | (Normal a, s') => k a s'
       | (Throw e, s') => (Throw e, s')
       end.
Definition get {S} : Eff S S := λ s, (Normal s, s).
Definition put {S} (s' : S) : Eff S unit := λ _, (Normal tt, s').
Definition modify {S} (f : S → S) : Eff S unit := λ s, (Normal tt, f s).
(** A pure computation that may throw, run inside [Eff]. *)
Definition lift {S A} (c : Completion A) : Eff S A := λ s, (c, s).
(** [try { m } catch (e) { h e }] *)
Definition tryCatch {S A} (m : Eff S A) (h : JsError → Eff S A) : Eff S A :=
  λ s, match m s with
       | (Normal a, s') => (Normal a, s')
       | (Throw e, s') => h e s'
       end.

Definition cbind {A B} (c : Completion A) (k : A → Completion B) : Completion B :=
  match c with Normal a => k a | Throw e => Throw e end.

(** [arr.filter(f)], [arr.map(f)] and [arr.some(f)] with a callback that may
    throw: the first throw aborts the traversal; [some] stops at the first
    element the callback accepts. *)
Fixpoint filterC {A} (f : A → Completion bool) (l : list A) : Completion (list A) :=
  match l with
  | [] => Normal []
  | x :: r =>
      cbind (f x) (λ b, cbind (filterC f r) (λ r', Normal (if b then x :: r' else r')))
  end.

Fixpoint mapC {A B} (f : A → Completion B) (l : list A) : Completion (list B) :=
  match l with
  | [] => Normal []
  | x :: r => cbind (f x) (λ y, cbind (mapC f r) (λ r', Normal (y :: r')))
  end.

Fixpoint someC {A} (f : A → Completion bool) (l : list A) : Completion bool :=
  match l with
  | [] => Normal false
  | x :: r => cbind (f x) (λ b, if b then Normal true else someC f r)
  end.

(** A line that is not blank: its [trim] is truthy. *)
Definition nonBlank (line : string) : bool := negb (isEmpty (trim line)).

(** The text whose lines are [ls], each ended by a line feed. *)
Fixpoint unlines (ls : list string) : string :=
  match ls with
  | [] => ""
  | l :: r => l +:+ nl +:+ unlines r
  end.

(** A text that holds the code unit [c]. *)
Fixpoint hasChar (c : ascii) (s : string) : bool :=
  match s with
  | "" => false
  | String a r => bool_decide (a = c) || hasChar c r
  end.

(** [iso.split("T")[0]]: the date of an ISO timestamp. *)
Definition isoDate (iso : string) : string :=
  match split "T" iso with
  | d :: _ => d
  | [] => ""
  end.

(** [arr.slice(0, n)] *)
Definition slice0 {A} (n : Z) (l : list A) : list A :=
  if n <? 0 then take (Z.to_nat (Z.of_nat (List.length l) + n)) l
  else take (Z.to_nat n) l.

(** A [Map] with string keys: the entries in insertion order.  [set] on a
    key that is present replaces the value and keeps the entry's place. *)
Fixpoint mapSet {V} (k : string) (v : V) (m : list (string * V)) : list (string * V) :=
  match m with
  | [] => [(k, v)]
  | (k', v') :: r =>
      if bool_decide (k' = k) then (k', v) :: r else (k', v') :: mapSet k v r
  end.

Fixpoint mapGet {V} (k : string) (m : list (string * V)) : option V :=
  match m with
  | [] => None
  | (k', v') :: r => if bool_decide (k' = k) then Some v' else mapGet k r
  end.

(** [Array.from(map.values())] *)
Definition mapValues {V} (m : list (string * V)) : list V := m.*2.

End Js.

Notation "x <- m ;; k" := (Js.bind m (λ x, k))
  (at level 100, m at next level, right associativity, only parsing).
Notation "m ;;; k" := (Js.bind m (λ _, k))
  (at level 100, right associativity, only parsing).

(** What the platform provides. *)
Record Host := {
  (** [join(...segments)] of [node:path] *)
  path_join : list string → string;
  (** [dirname(path)] of [node:path] *)
  path_dirname : string → string;
  (** [homedir()] of [node:os] *)
  os_homedir : string;
  (** [process.env.HOME] *)
  env_HOME : string;
  (** [String(v)] for a member [v] of [Object.prototype], by its name *)
  builtin_toString : string → string;
  (** [err.message] of an error the runtime itself raised *)
  engine_message : Js.JsError → string;
}.

(** [error.message] *)
Definition message (host : Host) (e : Js.JsError) : string :=
  match e with
  | Js.Error m => m
  | _ => engine_message host e
  end.

(** [JSON.stringify] and [JSON.parse] at a record type.  [parse] is [None]
    where [JSON.parse] throws its [SyntaxError]; a value that parses is taken
    to have the interface the call site declares for it.  [stringify_pretty]
    is [JSON.stringify(v, null, 2)]. *)
Class JsonCodec (A : Type) := {
  stringify : A → string;
  stringify_pretty : A → string;
  parse : string → option A;
}.

(** ** hooks/access-level-bootstrap/handler.ts *)

Module AccessLevelBootstrap.

(** [type AccessLevel], the members of [ACCESS_LEVELS]. *)
Inductive AccessLevel := public | household | trusted | family | private.

Global Instance AccessLevel_eq_dec : EqDecision AccessLevel.
Proof. solve_decision. Defined.

(** Access level hierarchy (higher index = more access). *)
Definition ACCESS_LEVELS : list AccessLevel :=
  [public; household; trusted; family; private].

(** Known user mappings: the own properties of the object literal. *)
Definition USER_ACCESS_MAP : gmap string AccessLevel :=
  {[ "192802611" := private ]}.

(** [USER_ACCESS_MAP] is an object literal, so a property read on it also
    finds what the object inherits from [Object.prototype].  These are the
    names [Object.prototype] defines; the value behind each is a function,
    or for [__proto__] the prototype object itself, and so is truthy. *)
Definition Object_prototype_members : list string :=
  [ "constructor"; "hasOwnProperty"; "isPrototypeOf"; "propertyIsEnumerable";
    "toLocaleString"; "toString"; "valueOf"; "__proto__";
    "__defineGetter__"; "__defineSetter__"; "__lookupGetter__"; "__lookupSetter__" ].

(** What a variable declared [AccessLevel] holds at run time: one of the
    five level strings, or a member inherited from [Object.prototype] that
    came out of a read of [USER_ACCESS_MAP]. *)
Inductive LevelValue :=
| Level (l : AccessLevel)
| Inherited (member : string).

Global Instance LevelValue_eq_dec : EqDecision LevelValue.
Proof. solve_decision. Defined.

(** [USER_ACCESS_MAP[id]]; [None] is [undefined]. *)
Definition USER_ACCESS_MAP_read (id : string) : option LevelValue :=
  match USER_ACCESS_MAP !! id with
  | Some l => Some (Level l)
  | None =>
      if bool_decide (id ∈ Object_prototype_members) then Some (Inherited id)
      else None
  end.

(** Every value a read of [USER_ACCESS_MAP] can give is truthy (a non-empty
    string, a function or an object), so [id && USER_ACCESS_MAP[id]] holds
    exactly when [id] is a non-empty string and the read is defined. *)
Definition knownUser (type id : option string) : option LevelValue :=
  if bool_decide (type = Some "dm") && Js.truthy id
  then id ≫= USER_ACCESS_MAP_read
  else None.

(** Derive access level from session key.
    Format: agent:main:channel:type:id[:extra] *)
Definition deriveAccessLevel (sessionKey : string) : LevelValue :=
  (* Main session = private *)
  if bool_decide (sessionKey = "agent:main:main") then Level private
  else
    let parts := Js.split ":" sessionKey in
    if bool_decide (List.length parts < 4)%nat then Level public
    else
      let type := parts !! 3%nat in
      let id := parts !! 4%nat in
      match knownUser type id with
      | Some v => v
      | None =>
          (* Group chats default to trusted (not private) *)
          if bool_decide (type = Some "group") then Level trusted
          (* DMs from unknown users *)
          else if bool_decide (type = Some "dm") then Level public
          (* Default to public (safest) *)
          else Level public
      end.

(** [ACCESS_LEVELS.indexOf(v)]: the first index holding [v], or -1. *)
Fixpoint indexOfFrom (i : Z) (l : list AccessLevel) (v : LevelValue) : Z :=
  match l with
  | [] => -1
  | y :: r => if bool_decide (v = Level y) then i else indexOfFrom (i + 1) r v
  end.

Definition indexOf (l : list AccessLevel) (v : LevelValue) : Z := indexOfFrom 0 l v.

(** Check if an access level can access content at a target level. *)
Definition canAccess (currentLevel targetLevel : LevelValue) : bool :=
  let currentIndex := indexOf ACCESS_LEVELS currentLevel in
  let targetIndex := indexOf ACCESS_LEVELS targetLevel in
  currentIndex >=? targetIndex.

(** The rank of a level in the fixed ordering
    public < household < trusted < family < private. *)
Definition rank (l : AccessLevel) : nat :=
  match l with
  | public => 0
  | household => 1
  | trusted => 2
  | family => 3
  | private => 4
  end.

(** The resolver as the specification words it: the rules in priority
    order, over the own keys of the lookup table. *)
Definition resolveByRules (sessionKey : string) : AccessLevel :=
  if bool_decide (sessionKey = "agent:main:main") then private
  else
    let parts := Js.split ":" sessionKey in
    if bool_decide (List.length parts < 4)%nat then public
    else
      let type := parts !! 3%nat in
      let id := parts !! 4%nat in
      match (if bool_decide (type = Some "dm") then id ≫= (USER_ACCESS_MAP !!.) else None) with
      | Some l => l
      | None =>
          if bool_decide (type = Some "group") then trusted
          else if bool_decide (type = Some "dm") then public
          else public
      end.

(** An element of [context.bootstrapFiles]: a path string, an object with
    a [path] (absent when the object has no such property), or [null]. *)
Inductive BootstrapFile :=
| FileStr (path : string)
| FileObj (path : option string) (role : string)
| FileNull.

Global Instance BootstrapFile_eq_dec : EqDecision BootstrapFile.
Proof. solve_decision. Defined.

Record HookContext := {
  ctx_sessionKey : option string;
  ctx_workspaceDir : option string;
  ctx_bootstrapFiles : option (list BootstrapFile);
}.

Record HookEvent := {
  ev_type : string;
  ev_action : string;
  ev_sessionKey : option string;
  ev_context : HookContext;
}.

(** [typeof file === "string" ? file : file.path]; [None] is [undefined],
    and reading [path] off [null] throws. *)
Definition filePath (file : BootstrapFile) : Js.Completion (option string) :=
  match file with
  | FileStr p => Js.Normal (Some p)
  | FileObj p _ => Js.Normal p
  | FileNull => Js.Throw Js.TypeError
  end.

(** A method call on a path: it throws on [undefined]. *)
Definition onString {A} (p : option string) (k : string → A) : Js.Completion A :=
  match p with
  | Some s => Js.Normal (k s)
  | None => Js.Throw Js.TypeError
  end.

(** [String(accessLevel)], as the template literal computes it. *)
Definition levelString (host : Host) (v : LevelValue) : string :=
  match v with
  | Level public => "public"
  | Level household => "household"
  | Level trusted => "trusted"
  | Level family => "family"
  | Level private => "private"
  | Inherited m => builtin_toString host m
  end.

(** The callback of [context.bootstrapFiles.filter], once [path] is known
    to be a string. *)
Definition keepPath (accessLevel : LevelValue) (path : string) : bool :=
  (* Always exclude MEMORY.md for non-private sessions *)
  if Js.endsWith path "MEMORY.md" || Js.includes path "memory/private/MEMORY.md"
  then false
  (* Exclude files from higher access levels *)
  else if Js.includes path "memory/private/"
          && bool_decide (accessLevel ≠ Level private)
  then false
  else if Js.includes path "memory/family/"
          && negb (canAccess accessLevel (Level family))
  then false
  else true.

(** The callback of [context.bootstrapFiles.filter]. *)
Definition keepFile (accessLevel : LevelValue) (file : BootstrapFile)
  : Js.Completion bool :=
  Js.cbind (filePath file) (λ path, onString path (keepPath accessLevel)).

(** The callback of [existingPaths.some]. *)
Definition pathIncludes (x : string) (p : option string) : Js.Completion bool :=
  onString p (λ p, Js.includes p x).

(** [event.sessionKey || context.sessionKey || ""] *)
Definition sessionKeyOf (event : HookEvent) : string :=
  default ""
    (Js.orElse (Js.orElse (ev_sessionKey event) (ctx_sessionKey (ev_context event)))
               (Some "")).

Section Handler.
Variable host : Host.
(** [new Date().toISOString()] and
    [new Date(Date.now() - 86400000).toISOString()] *)
Variables now dayAgo : string.

(** [join(dailyDir, `${date}-daily.md`)] with [dailyDir] the directory
    [memory/${accessLevel}]. *)
Definition dailyPath (accessLevel : LevelValue) (iso : string) : string :=
  let dailyDir := "memory/" +:+ levelString host accessLevel in
  path_join host [dailyDir; Js.isoDate iso +:+ "-daily.md"].

(** The entry pushed for a daily file. *)
Definition dailyEntry (workspaceDir daily : string) : BootstrapFile :=
  FileObj (Some (path_join host [workspaceDir; daily])) "memory".

(** The body of the [try] block; the store is [context.bootstrapFiles]. *)
Definition tryBlock (sessionKey workspaceDir : string)
  : Js.Eff (list BootstrapFile) unit :=
  (* Determine access level from session key *)
  let accessLevel := deriveAccessLevel sessionKey in
  (* Filter bootstrap files based on access level *)
  (if bool_decide (accessLevel ≠ Level private) then
     files <- Js.get ;;
     kept <- Js.lift (Js.filterC (keepFile accessLevel) files) ;;
     Js.put kept
   else Js.ret tt) ;;;
  (* Add appropriate daily files for this access level *)
  let todayDaily := dailyPath accessLevel now in
  let yesterdayDaily := dailyPath accessLevel dayAgo in
  (* Add daily files if not already present *)
  files <- Js.get ;;
  existingPaths <- Js.lift (Js.mapC filePath files) ;;
  hasToday <- Js.lift (Js.someC (pathIncludes todayDaily) existingPaths) ;;
  (if negb hasToday then
     Js.modify (λ fs, fs ++ [dailyEntry workspaceDir todayDaily])
   else Js.ret tt) ;;;
  hasYesterday <- Js.lift (Js.someC (pathIncludes yesterdayDaily) existingPaths) ;;
  (if negb hasYesterday then
     Js.modify (λ fs, fs ++ [dailyEntry workspaceDir yesterdayDaily])
   else Js.ret tt).

(** The hook.  It returns nothing; its effect is on [event.context]. *)
Definition handler (event : HookEvent) : Js.Completion unit * HookContext :=
  let context := ev_context event in
  (* Only trigger on bootstrap *)
  if negb (bool_decide (ev_type event = "agent"))
     || negb (bool_decide (ev_action event = "bootstrap"))
  then (Js.Normal tt, context)
  else
    let sessionKey := sessionKeyOf event in
    match ctx_workspaceDir context, ctx_bootstrapFiles context with
    | Some workspaceDir, Some files =>
        if Js.isEmpty workspaceDir then (Js.Normal tt, context)
        else
          let '(c, files') :=
            Js.tryCatch (tryBlock sessionKey workspaceDir)
              (* Don't throw - use default behavior if hook fails *)
              (λ _, Js.ret tt) files in
          (c, {| ctx_sessionKey := ctx_sessionKey context;
                 ctx_workspaceDir := ctx_workspaceDir context;
                 ctx_bootstrapFiles := Some files' |})
    | _, _ => (Js.Normal tt, context)
    end.

End Handler.

(** *** Vocabulary for the properties of the hook *)

(** An entry whose path is a string, as the type of [bootstrapFiles]
    promises, and that path. *)
Definition wellTyped (file : BootstrapFile) : bool :=
  match file with
  | FileStr _ | FileObj (Some _) _ => true
  | FileObj None _ | FileNull => false
  end.

Definition pathOf (file : BootstrapFile) : string :=
  match file with
  | FileStr p | FileObj (Some p) _ => p
  | FileObj None _ | FileNull => ""
  end.

(** The candidates a level keeps. *)
Definition retained (accessLevel : LevelValue) (files : list BootstrapFile)
  : list BootstrapFile :=
  if bool_decide (accessLevel ≠ Level private)
  then List.filter (λ file, keepPath accessLevel (pathOf file)) files
  else files.

(** The daily file of a date, unless a path of [existing] includes its
    relative path. *)
Definition dailyIfAbsent (host : Host) (workspaceDir : string)
    (accessLevel : LevelValue) (iso : string) (existing : list BootstrapFile)
  : list BootstrapFile :=
  if existsb (λ file, Js.includes (pathOf file) (dailyPath host accessLevel iso)) existing
  then []
  else [dailyEntry host workspaceDir (dailyPath host accessLevel iso)].

(** The context and the event of a bootstrap with the given session key,
    workspace and candidate files. *)
Definition bootstrapContext (workspaceDir : string) (files : list BootstrapFile)
  : HookContext :=
  {| ctx_sessionKey := None;
     ctx_workspaceDir := Some workspaceDir;
     ctx_bootstrapFiles := Some files |}.

Definition bootstrapEvent (sessionKey workspaceDir : string)
    (files : list BootstrapFile) : HookEvent :=
  {| ev_type := "agent"; ev_action := "bootstrap";
     ev_sessionKey := Some sessionKey;
     ev_context := bootstrapContext workspaceDir files |}.

(** The hook reaches its [try] block on this event and the block throws. *)
Definition tryBlockThrows (host : Host) (now dayAgo : string) (event : HookEvent)
  : bool :=
  bool_decide (ev_type event = "agent") && bool_decide (ev_action event = "bootstrap")
  && match ctx_workspaceDir (ev_context event), ctx_bootstrapFiles (ev_context event) with
     | Some workspaceDir, Some files =>
         negb (Js.isEmpty workspaceDir)
         && Js.isThrow (tryBlock host now dayAgo (sessionKeyOf event) workspaceDir files).1
     | _, _ => false
     end.

End AccessLevelBootstrap.

(** ** src/utils/fs.ts, over a model of [node:fs/promises] *)

Module Fs.

(** The disk: the files that exist, with their contents, and every earlier
    state of the store, most recent first.  The history holds each state
    another process reading the disk can have seen, those in the middle of a
    write included: only [rename] replaces a file in one step, while
    [writeFile], [appendFile] and [copyFile] first truncate or extend the
    target and then fill it piece by piece. *)
Record Disk := {
  files : gmap string string;
  history : list (gmap string string);
}.

Definition IO (A : Type) : Type := Js.Eff Disk A.

(** The proper prefixes of a text, shortest first. *)
Fixpoint prefixes (s : string) : list string :=
  match s with
  | "" => []
  | String c r => "" :: (String c <$> prefixes r)
  end.

(** One atomic change of the store. *)
Definition step (f : gmap string string → gmap string string) (d : Disk) : Disk :=
  {| files := f (files d); history := files d :: history d |}.

(** A file written piece by piece: it holds [base] followed by each proper
    prefix of [content] in turn, then [base] followed by [content]. *)
Definition fill (path base content : string) (d : Disk) : Disk :=
  {| files := <[path := base +:+ content]> (files d);
     history :=
       reverse ((λ p, <[path := base +:+ p]> (files d)) <$> prefixes content)
       ++ files d :: history d |}.

Definition ENOENT {A} : IO A := Js.throw (Js.SystemError "ENOENT").

(** [readFile(path, "utf-8")] *)
Definition readFile (path : string) : IO string :=
  λ d, match files d !! path with
       | Some content => (Js.Normal content, d)
       | None => ENOENT d
       end.

(** [writeFile(path, content, "utf-8")], where the directory of the path
    exists; where it does not, the call of the code rejects with ENOENT. *)
Definition writeFile (path content : string) : IO unit :=
  λ d, (Js.Normal tt, fill path "" content d).

(** [appendFile(path, content, "utf-8")]: creates the file if needed.  As
    for [writeFile], the directory of the path exists. *)
Definition appendFile (path content : string) : IO unit :=
  λ d, (Js.Normal tt, fill path (default "" (files d !! path)) content d).

(** [copyFile(src, dest)] *)
Definition copyFile (src dest : string) : IO unit :=
  λ d, match files d !! src with
       | Some content => (Js.Normal tt, fill dest "" content d)
       | None => ENOENT d
       end.

(** [rename(from, to)] *)
Definition rename (from to : string) : IO unit :=
  λ d, match files d !! from with
       | Some content => (Js.Normal tt, step (λ fs, <[to := content]> (delete from fs)) d)
       | None => ENOENT d
       end.

(** [stat(path)], for its success or failure only. *)
Definition stat (path : string) : IO unit :=
  λ d, match files d !! path with
       | Some _ => (Js.Normal tt, d)
       | None => ENOENT d
       end.

(** [mkdir(dir, { recursive: true })].  The disk of the model holds files,
    not directories: making a directory changes no file, so what is proved
    of a computation that calls [mkdir] is proved of the files. *)
Definition mkdir (dir : string) : IO unit := Js.ret tt.

Record WriteOptions := {
  backup : option bool;
  createDirs : option bool;
}.

Definition noOptions : WriteOptions := {| backup := None; createDirs := None |}.

(** Read a file, returning null if it doesn't exist. *)
Definition safeReadFile (path : string) : IO (option string) :=
  Js.tryCatch (content <- readFile path ;; Js.ret (Some content))
    (λ err, match err with
            | Js.SystemError "ENOENT" => Js.ret None
            | _ => Js.throw err
            end).

(** Read and parse a JSON file, returning null if missing or invalid. *)
Definition readJSON {T} `{JsonCodec T} (path : string) : IO (option T) :=
  content <- safeReadFile path ;;
  match content with
  | None => Js.ret None
  | Some content =>
      match parse content with
      | Some v => Js.ret (Some v)
      | None => Js.throw (Js.Error ("Invalid JSON in " +:+ path))
      end
  end.

(** Check if a file exists. *)
Definition fileExists (path : string) : IO bool :=
  Js.tryCatch (stat path ;;; Js.ret true) (λ _, Js.ret false).

(** [s.replace(/[:.]/g, "-")] *)
Fixpoint dashColonsAndDots (s : string) : string :=
  match s with
  | "" => ""
  | String c r =>
      String (if bool_decide (c = ":"%char) || bool_decide (c = "."%char)
              then "-"%char else c)
             (dashColonsAndDots r)
  end.

(** [path.split("/").pop()!] *)
Definition lastSegment (path : string) : string :=
  default "" (last (Js.split "/" path)).

(** A computation that only appends: whatever it does, each file that was
    on the disk still starts with the content it had. *)
Definition appendOnly {A} (m : IO A) : Prop :=
  ∀ d path content,
    files d !! path = Some content →
    ∃ suffix, files (m d).2 !! path = Some (content +:+ suffix).

(** A computation that leaves the disk as it is. *)
Definition readOnly {A} (m : IO A) : Prop := ∀ d, (m d).2 = d.

Section WithHost.
Variable host : Host.
(** [new Date().toISOString()] at the time of the call. *)
Variable now : string.

(** The directory of the backups of a file, and the path of its backup. *)
Definition backupDirOf (path : string) : string :=
  path_join host [path_dirname host path; ".backups"].

Definition backupPathOf (path : string) : string :=
  let timestamp := dashColonsAndDots now in
  let basename := lastSegment path in
  path_join host [backupDirOf path; basename +:+ "." +:+ timestamp].

(** Create a timestamped backup of a file.
    Returns the backup path, or null if the original doesn't exist. *)
Definition backupFile (path : string) : IO (option string) :=
  exists_ <- Js.tryCatch (stat path ;;; Js.ret true) (λ _, Js.ret false) ;;
  if negb exists_ then Js.ret None (* Original doesn't exist, nothing to back up *)
  else
    mkdir (backupDirOf path) ;;;
    let backupPath := backupPathOf path in
    copyFile path backupPath ;;;
    Js.ret (Some backupPath).

(** Atomic write: writes to a temp file then renames.
    Optionally creates a backup of the original first. *)
Definition atomicWrite (path content : string) (options : WriteOptions) : IO unit :=
  let backup := default false (backup options) in
  let createDirs := default true (createDirs options) in
  (if createDirs then mkdir (path_dirname host path) else Js.ret tt) ;;;
  (if backup then backupFile path ;;; Js.ret tt else Js.ret tt) ;;;
  let tmpPath := path +:+ ".tmp" in
  writeFile tmpPath content ;;;
  (* Rename is atomic on most filesystems *)
  rename tmpPath path.

(** Write JSON atomically (write to .tmp, then rename). *)
Definition writeJSON {T} `{JsonCodec T} (path : string) (data : T)
    (options : WriteOptions) : IO unit :=
  let content := stringify_pretty data +:+ Js.nl in
  atomicWrite path content options.

(** Append content to a file, creating it if needed. *)
Definition appendToFile (path content : string) (options : WriteOptions) : IO unit :=
  let createDirs := default true (createDirs options) in
  (if createDirs then mkdir (path_dirname host path) else Js.ret tt) ;;;
  appendFile path content.

End WithHost.

End Fs.

(** ** src/tools/task-executor.ts *)

Module TaskExecutor.

Record Task := {
  id : string;
  created : string;
  task : string;
  status : string;
  priority : option string;
  context : option string;
  command : option string;
  dueDate : option string;
  completedAt : option string;
}.

Global Instance Task_eq_dec : EqDecision Task.
Proof. solve_decision. Defined.

Record TaskExecutorParams := {
  action : string;
  taskId : option string;
  newStatus : option string;
  filter : option string;
  workspaceRoot : option string;
}.

Record TaskExecutorResult := {
  success : bool;
  tasks : option (list Task);
  executed : option Z;
  error : option string;
}.

(** The map the loop of [getLatestTasks] builds. *)
Definition replay (tasks : list Task) : list (string * Task) :=
  fold_left (λ taskMap task,
               Js.mapSet (id task) task taskMap (* Later entries overwrite earlier ones *))
            tasks [].

(** Get latest version of each task (by id).
    Tasks can have multiple entries in JSONL (status updates). *)
Definition getLatestTasks (tasks : list Task) : list Task :=
  let taskMap := replay tasks in
  Js.mapValues taskMap.

(** Filter tasks by status. *)
Definition filterByStatus (tasks : list Task) (filter : option string) : list Task :=
  if negb (Js.truthy filter) || bool_decide (filter = Some "all") then tasks
  else List.filter (λ task, bool_decide (Some (status task) = filter)) tasks.

(** Check if task is due (today or earlier). *)
Definition isDue (now : string) (task : Task) : bool :=
  match dueDate task with
  | Some due =>
      if Js.isEmpty due then true
      else Js.str_le due (Js.isoDate now)
  | None => true (* No due date = execute anytime *)
  end.

Section WithHost.
Variable host : Host.
Context `{JsonCodec Task}.
(** [execAsync(command, { timeout, maxBuffer })]: the output of the command,
    or the failure of the child process. *)
Variable execAsync : string → Fs.IO string.
(** [new Date().toISOString()] at the time of the call. *)
Variable now : string.

(** The lines of a JSONL text as [readTasks] takes them. *)
Definition taskLines (content : string) : list string :=
  List.filter (λ line, Js.length (Js.trim line) >? 0)
              (Js.split Js.LF (Js.trim content)).

(** Read all tasks from JSONL file. *)
Definition readTasks (tasksPath : string) : Fs.IO (list Task) :=
  Js.tryCatch
    (content <- Fs.readFile tasksPath ;;
     let lines := taskLines content in
     let tasks :=
       fold_left (λ tasks line,
                    match parse line with
                    | Some task => tasks ++ [task]
                    | None => tasks (* Skip invalid JSON lines *)
                    end) lines [] in
     Js.ret tasks)
    (λ error,
       match error with
       | Js.SystemError "ENOENT" => Js.ret [] (* File doesn't exist yet *)
       | _ => Js.throw error
       end).

(** Execute a single task: whether it succeeded. *)
Definition executeTask (task : Task) : Fs.IO bool :=
  if negb (Js.truthy (command task)) then Js.ret true
  else
    Js.tryCatch (execAsync (default "" (command task)) ;;; Js.ret true)
      (λ _, Js.ret false).

(** The updated version of a task: [{ ...task, status: newStatus }], with
    [completedAt] set when the new status is "completed". *)
Definition withStatus (task : Task) (newStatus : string) : Task :=
  {| id := id task; created := created task; task := TaskExecutor.task task;
     status := newStatus;
     priority := priority task; context := context task;
     command := command task; dueDate := dueDate task;
     completedAt :=
       if bool_decide (newStatus = "completed") then Some now
       else completedAt task |}.

(** Update task status by appending new line to JSONL. *)
Definition updateTaskStatus (tasksPath taskId newStatus : string)
    (tasks : list Task) : Fs.IO unit :=
  (* Find the task *)
  match List.find (λ t, bool_decide (id t = taskId)) tasks with
  | None => Js.throw (Js.Error ("Task not found: " +:+ taskId))
  | Some task =>
      (* Create updated version *)
      let updated := withStatus task newStatus in
      (* Append new line *)
      let jsonLine := stringify updated +:+ Js.nl in
      Fs.appendFile tasksPath jsonLine
  end.

(** The loop of the [execute] action: the number of tasks executed. *)
Fixpoint executeAll (tasksPath : string) (latestTasks pendingTasks : list Task)
    (executed : Z) : Fs.IO Z :=
  match pendingTasks with
  | [] => Js.ret executed
  | task :: rest =>
      ok <- executeTask task ;;
      if ok then
        (* Mark as completed *)
        updateTaskStatus tasksPath (id task) "completed" latestTasks ;;;
        executeAll tasksPath latestTasks rest (executed + 1)
      else executeAll tasksPath latestTasks rest executed
  end.

Definition failure (msg : string) : TaskExecutorResult :=
  {| success := false; tasks := None; executed := None; error := Some msg |}.

(** Main task executor function. *)
Definition taskExecutor (params : TaskExecutorParams) : Fs.IO TaskExecutorResult :=
  let workspaceRoot :=
    if Js.truthy (workspaceRoot params) then default "" (workspaceRoot params)
    else path_join host [os_homedir host; ".openclaw"; "workspace"] in
  let memoryDir := path_join host [workspaceRoot; "memory"] in
  let tasksPath := path_join host [memoryDir; "tasks.jsonl"] in
  Js.tryCatch
    ((* Ensure memory directory exists *)
     Fs.mkdir memoryDir ;;;
     (* Read all tasks *)
     allTasks <- readTasks tasksPath ;;
     let latestTasks := getLatestTasks allTasks in
     if bool_decide (action params = "list") then
       let filtered := filterByStatus latestTasks (filter params) in
       Js.ret {| success := true; tasks := Some filtered;
                 executed := None; error := None |}
     else if bool_decide (action params = "status") then
       if negb (Js.truthy (taskId params)) || negb (Js.truthy (newStatus params))
       then Js.ret (failure "taskId and newStatus required for status action")
       else
         updateTaskStatus tasksPath (default "" (taskId params))
           (default "" (newStatus params)) latestTasks ;;;
         Js.ret {| success := true; tasks := None; executed := None; error := None |}
     else if bool_decide (action params = "execute") then
       let pendingTasks :=
         List.filter (λ task, bool_decide (status task = "pending") && isDue now task)
                     latestTasks in
       executed <- executeAll tasksPath latestTasks pendingTasks 0 ;;
       Js.ret {| success := true; tasks := None;
                 executed := Some executed; error := None |}
     else Js.ret (failure ("Unknown action: " +:+ action params)))
    (λ error, Js.ret (failure ("Task executor failed: " +:+ message host error))).

End WithHost.

End TaskExecutor.

(** ** src/tools/diary.ts *)

Module Diary.

Record DiaryEntry := {
  id : string;
  timestamp : string;
  date : string;
  mood : option string;
  energy : option string;
  reflections : string;
  gratitude : option (list string);
  challenges : option (list string);
  learnings : option (list string);
  connections : option (list string);
  tags : option (list string);
  private_ : bool;
}.

Record DiaryWriteParams := {
  w_reflections : string;
  w_mood : option string;
  w_energy : option string;
  w_gratitude : option (list string);
  w_challenges : option (list string);
  w_learnings : option (list string);
  w_connections : option (list string);
  w_tags : option (list string);
}.

Record DiaryReadParams := {
  limit : option Z;
  after : option string;
  before : option string;
  r_mood : option string;
  tag : option string;
}.

Record DiaryWriteResult := { success : bool; entry : DiaryEntry }.
Record DiaryReadResult := { entries : list DiaryEntry; total : Z }.

Section WithHost.
Variable host : Host.
Context `{JsonCodec DiaryEntry}.
(** [Array.prototype.sort] with a comparator whose result [None] is [NaN]. *)
Variable sort :
  (DiaryEntry → DiaryEntry → option Z) → list DiaryEntry → list DiaryEntry.
(** [new Date(s).getTime()]; [None] is [NaN]. *)
Variable getTime : string → option Z.

Definition DIARY_PATH : string :=
  env_HOME host +:+ "/.openclaw/workspace/memory/diary.jsonl".

(** Write a diary entry.  [now] is [new Date().toISOString()] and [uuid] is
    [randomUUID()].  The code never makes the directory of [DIARY_PATH]:
    the append is that of a disk where it exists, and a result [Normal] is
    what the code returns when its append succeeds. *)
Definition diaryWrite (now uuid : string) (params : DiaryWriteParams)
  : Fs.IO DiaryWriteResult :=
  (* Validate *)
  if Js.isEmpty (w_reflections params)
     || (Js.length (Js.trim (w_reflections params)) =? 0)
  then Js.throw (Js.Error "Reflections cannot be empty")
  else if Js.length (w_reflections params) <? 50
  then Js.throw (Js.Error
    "Reflections should be at least 50 characters (be genuine, take your time)")
  else
    (* Create entry *)
    let entry :=
      {| id := uuid;
         timestamp := now;
         date := Js.isoDate now;
         mood := w_mood params;
         energy := w_energy params;
         reflections := Js.trim (w_reflections params);
         gratitude := w_gratitude params;
         challenges := w_challenges params;
         learnings := w_learnings params;
         connections := w_connections params;
         tags := w_tags params;
         private_ := true |} in
    (* Append to JSONL *)
    Fs.appendFile DIARY_PATH (stringify entry +:+ Js.nl) ;;;
    Js.ret {| success := true; entry := entry |}.

(** [lines.map(line => JSON.parse(line))] *)
Definition parseLine (line : string) : Js.Completion DiaryEntry :=
  match parse line with
  | Some e => Js.Normal e
  | None => Js.Throw Js.SyntaxError
  end.

(** The comparator of the sort: newest first. *)
Definition newestFirst (a b : DiaryEntry) : option Z :=
  match getTime (timestamp b), getTime (timestamp a) with
  | Some tb, Some ta => Some (tb - ta)
  | _, _ => None
  end.

(** The lines of the diary as [diaryRead] takes them. *)
Definition diaryLines (content : string) : list string :=
  List.filter (λ l, negb (Js.isEmpty l)) (Js.split Js.LF (Js.trim content)).

(** Read diary entries. *)
Definition diaryRead (params : DiaryReadParams) : Fs.IO DiaryReadResult :=
  present <- (λ d, (Js.Normal (bool_decide (is_Some (Fs.files d !! DIARY_PATH))), d)) ;;
  if negb present then Js.ret {| entries := []; total := 0 |}
  else
    content <- Fs.readFile DIARY_PATH ;;
    let lines := diaryLines content in
    entries <- Js.lift (Js.mapC parseLine lines) ;;
    (* Apply filters *)
    let entries :=
      if Js.truthy (after params)
      then List.filter (λ e, Js.str_ge (date e) (default "" (after params))) entries
      else entries in
    let entries :=
      if Js.truthy (before params)
      then List.filter (λ e, Js.str_le (date e) (default "" (before params))) entries
      else entries in
    let entries :=
      if Js.truthy (r_mood params)
      then List.filter (λ e, bool_decide (mood e = r_mood params)) entries
      else entries in
    let entries :=
      if Js.truthy (tag params)
      then List.filter
             (λ e, match tags e with
                   | Some ts => bool_decide (default "" (tag params) ∈ ts)
                   | None => false
                   end) entries
      else entries in
    (* Sort by timestamp descending (newest first) *)
    let entries := sort newestFirst entries in
    (* Apply limit *)
    let total := Z.of_nat (List.length entries) in
    let entries :=
      match limit params with
      | Some n => if n =? 0 then entries else Js.slice0 n entries
      | None => entries
      end in
    Js.ret {| entries := entries; total := total |}.

(** Get today's diary entry (if exists). *)
Definition diaryToday (now : string) : Fs.IO (option DiaryEntry) :=
  let today := Js.isoDate now in
  result <- diaryRead {| limit := Some 1; after := Some today; before := None;
                         r_mood := None; tag := None |} ;;
  let entries := entries result in
  Js.ret (if Z.of_nat (List.length entries) >? 0 then head entries else None).

End WithHost.

End Diary.

(** ** src/tools/quick-capture.ts *)

Module QuickCapture.

(** [type TaskContext]: a string or an object. *)
Inductive TaskContext :=
| CtxString (s : string)
| CtxObject (fields : list (string * string)).

Record QuickCaptureParams := {
  content : string;
  type : string;
  priority : option string;
  context : option TaskContext;
  command : option string;
  dueDate : option string;
  workspaceRoot : option string;
}.

Record QuickCaptureResult := {
  success : bool;
  taskId : option string;
  filePath : option string;
  error : option string;
}.

Record Task := {
  id : string;
  created : string;
  task : string;
  status : string;
  t_priority : string;
  t_context : option TaskContext;
  t_command : option string;
  t_dueDate : option string;
}.

Definition VALID_TYPES : list string := ["task"; "uncertainty"; "thread"; "note"].
Definition VALID_PRIORITIES : list string := ["low"; "medium"; "high"].

(** Validate capture parameters. *)
Definition validateParams (params : QuickCaptureParams) : option string :=
  (* Validate content *)
  if Js.isEmpty (content params) || (Js.length (Js.trim (content params)) =? 0)
  then Some "Content cannot be empty"
  (* Validate type *)
  else if negb (bool_decide (type params ∈ VALID_TYPES))
  then Some ("Invalid type: " +:+ type params +:+ ". Must be one of: "
             +:+ Js.join ", " VALID_TYPES)
  (* Validate priority (if provided) *)
  else if Js.truthy (priority params)
          && negb (bool_decide (default "" (priority params) ∈ VALID_PRIORITIES))
  then Some ("Invalid priority: " +:+ default "" (priority params)
             +:+ ". Must be one of: " +:+ Js.join ", " VALID_PRIORITIES)
  else None.

Definition failure (msg : string) : QuickCaptureResult :=
  {| success := false; taskId := None; filePath := None; error := Some msg |}.

Definition contextTruthy (c : option TaskContext) : bool :=
  match c with
  | Some (CtxString s) => negb (Js.isEmpty s)
  | Some (CtxObject _) => true
  | None => false
  end.

Section WithHost.
Variable host : Host.
Context `{JsonCodec Task}.
(** [new Date().toISOString()] now and a day from now, and [randomUUID()]. *)
Variables now dayAhead uuid : string.

(** Convert natural language date to YYYY-MM-DD. *)
Definition parseDate (dateStr : string) : string :=
  let lower := Js.trim (Js.toLowerCase dateStr) in
  if bool_decide (lower = "tomorrow") then Js.isoDate dayAhead
  else if bool_decide (lower = "today") then Js.isoDate now
  (* Assume it's already in YYYY-MM-DD format *)
  else dateStr.

(** Capture a task to tasks.jsonl. *)
Definition captureTask (params : QuickCaptureParams) (memoryDir : string)
  : Fs.IO QuickCaptureResult :=
  let taskId := uuid in
  let task :=
    {| id := taskId;
       created := now;
       task := Js.trim (content params);
       status := "pending";
       t_priority := if Js.truthy (priority params)
                     then default "" (priority params) else "medium";
       t_context := if contextTruthy (context params) then context params else None;
       t_command := if Js.truthy (command params) then command params else None;
       t_dueDate := if Js.truthy (dueDate params)
                    then Some (parseDate (default "" (dueDate params))) else None |} in
  let jsonLine := stringify task +:+ Js.nl in
  let tasksPath := path_join host [memoryDir; "tasks.jsonl"] in
  Js.tryCatch
    (Fs.appendFile tasksPath jsonLine ;;;
     Js.ret {| success := true; taskId := Some taskId;
               filePath := Some tasksPath; error := None |})
    (λ error, Js.ret (failure ("Failed to write task: " +:+ message host error))).

(** The body shared by [captureUncertainty] and [captureNote]: append a list
    item to today's daily file, under [heading]. *)
Definition captureInDaily (heading failed : string) (params : QuickCaptureParams)
    (memoryDir : string) : Fs.IO QuickCaptureResult :=
  let today := Js.isoDate now in
  let dailyPath := path_join host [memoryDir; "private"; today +:+ "-daily.md"] in
  Js.tryCatch
    ((* Ensure directory exists *)
     Fs.mkdir (path_join host [memoryDir; "private"]) ;;;
     (* Read existing content or create new *)
     content <- Js.tryCatch (Fs.readFile dailyPath)
                  (λ _, Js.ret ("# " +:+ today +:+ " - Daily Log" +:+ Js.nl +:+ Js.nl)) ;;
     (* Add the section if it doesn't exist *)
     let content :=
       if negb (Js.includes content heading)
       then content +:+ Js.nl +:+ heading +:+ Js.nl +:+ Js.nl
       else content in
     (* Append the item *)
     let content := content +:+ "- " +:+ Js.trim (QuickCapture.content params) +:+ Js.nl in
     Fs.writeFile dailyPath content ;;;
     Js.ret {| success := true; taskId := None;
               filePath := Some dailyPath; error := None |})
    (λ error, Js.ret (failure (failed +:+ message host error))).

(** Capture uncertainty to daily file. *)
Definition captureUncertainty : QuickCaptureParams → string → Fs.IO QuickCaptureResult :=
  captureInDaily "## Uncertain/Exploring" "Failed to write uncertainty: ".

(** Capture note to daily file. *)
Definition captureNote : QuickCaptureParams → string → Fs.IO QuickCaptureResult :=
  captureInDaily "## Notes" "Failed to write note: ".

(** Main quick capture function. *)
Definition quickCapture (params : QuickCaptureParams) : Fs.IO QuickCaptureResult :=
  (* Validate *)
  match validateParams params with
  | Some validationError => Js.ret (failure validationError)
  | None =>
      (* Determine workspace root *)
      let workspaceRoot :=
        if Js.truthy (workspaceRoot params) then default "" (workspaceRoot params)
        else path_join host [os_homedir host; ".openclaw"; "workspace"] in
      let memoryDir := path_join host [workspaceRoot; "memory"] in
      (* Ensure memory directory exists *)
      made <- Js.tryCatch (Fs.mkdir memoryDir ;;; Js.ret None)
                (λ error, Js.ret (Some (failure
                   ("Failed to create memory directory: " +:+ message host error)))) ;;
      match made with
      | Some failed => Js.ret failed
      | None =>
          (* Route based on type *)
          if bool_decide (type params = "task") then captureTask params memoryDir
          else if bool_decide (type params = "uncertainty")
          then captureUncertainty params memoryDir
          else if bool_decide (type params = "note") then captureNote params memoryDir
          else if bool_decide (type params = "thread")
          then Js.ret (failure
                 "Thread capture not yet implemented - use thread-marker tool")
          else Js.ret (failure ("Unknown type: " +:+ type params))
      end
  end.

End WithHost.

End QuickCapture.

(** ** src/tools/dashboard-note.ts *)

Module DashboardNote.

Record DashboardNote := {
  message : string;
  emoji : string;
  timestamp : string;
}.

Record ValidationResult := {
  valid : bool;
  error : option string;
}.

Definition MAX_MESSAGE_LENGTH : Z := 500.

(** Validate note content before writing.
    Checks for empty messages and length limits. *)
Definition validateNoteContent (message emoji : string) : ValidationResult :=
  let trimmed := Js.trim message in
  if Js.length trimmed =? 0
  then {| valid := false; error := Some "Message cannot be empty" |}
  else if Js.length trimmed >? MAX_MESSAGE_LENGTH
  then {| valid := false; error := Some "Message too long (max 500 characters)" |}
  else {| valid := true; error := None |}.

Section WithHost.
Variable host : Host.
Context `{JsonCodec DashboardNote}.
(** [new Date().toISOString()] at the time of the call. *)
Variable now : string.

(** Update the dashboard note with a new message.
    Validates content and writes atomically.
    Returns the written note. *)
Definition updateDashboardNote (noteFile message emoji : string)
  : Fs.IO DashboardNote :=
  (* Validate *)
  let validation := validateNoteContent message emoji in
  if negb (valid validation)
  then Js.throw (Js.Error (default "" (error validation)))
  else
    (* Create note *)
    let note :=
      {| message := Js.trim message; emoji := emoji; timestamp := now |} in
    (* Write atomically *)
    Fs.writeJSON host now noteFile note Fs.noOptions ;;;
    Js.ret note.

(** Read the current dashboard note.
    Returns null if the file doesn't exist. *)
Definition readCurrentNote (noteFile : string) : Fs.IO (option DashboardNote) :=
  Fs.readJSON noteFile.

End WithHost.

End DashboardNote.

(** ** src/tools/research.ts: the usage log *)

Module Research.

Record UsageLogEntry := {
  date : string;
  timestamp : string;
  provider : string;
  query : string;
}.

Section WithHost.
Variable host : Host.
Context `{JsonCodec UsageLogEntry}.
(** [new Date().toISOString()] at the time of the call. *)
Variable now : string.

(** The lines of the usage log as its readers take them:
    [content.split("\n").filter(line => line.trim())]. *)
Definition usageLines (content : string) : list string :=
  List.filter Js.nonBlank (Js.split Js.LF content).

(** Log usage to JSONL file.
    Appends a single line with date, timestamp, provider, and query. *)
Definition logUsage (logFile provider query : string) : Fs.IO unit :=
  let entry :=
    {| date := Js.isoDate now; timestamp := now;
       provider := provider; query := query |} in
  let line := stringify entry +:+ Js.nl in
  Fs.appendToFile host logFile line Fs.noOptions.

(** The callback of the filter in [resetDailyQuota]. *)
Definition notFromToday (todayStr line : string) : bool :=
  match parse line with
  | Some entry => negb (bool_decide (date entry = todayStr))
  | None => true (* Keep malformed lines *)
  end.

(** Reset daily quota by removing today's entries from log.
    (Typically not needed - quota resets automatically by date) *)
Definition resetDailyQuota (logFile : string) : Fs.IO unit :=
  present <- Fs.fileExists logFile ;;
  if negb present then Js.ret tt (* Nothing to reset *)
  else
    content <- Fs.safeReadFile logFile ;;
    if negb (Js.truthy content) then Js.ret tt
    else
      let content := default "" content in
      let todayStr := Js.isoDate now in
      let lines := usageLines content in
      (* Keep only entries NOT from today *)
      let filtered := List.filter (notFromToday todayStr) lines in
      let newContent :=
        Js.join Js.nl filtered
        +:+ (if Z.of_nat (List.length filtered) >? 0 then Js.nl else "") in
      Fs.atomicWrite host now logFile newContent Fs.noOptions.

(** Count of today's deep-research entries. *)
Definition countTodayUsage (logFile todayStr : string) : Fs.IO Z :=
  content <- Fs.safeReadFile logFile ;;
  if negb (Js.truthy content) then Js.ret 0
  else
    let lines := usageLines (default "" content) in
    Js.ret (fold_left
              (λ count line,
                 match parse line with
                 | Some entry =>
                     if bool_decide (date entry = todayStr)
                        && bool_decide (provider entry = "deep-research")
                     then count + 1 else count
                 | None => count (* Skip malformed lines *)
                 end) lines 0).

End WithHost.

(** [interface ResearchConfig], for a limit that is an integer. *)
Record ResearchConfig := {
  daily_deep_research_limit : Z;
  perplexity_fallback : bool;
}.

Record QuotaInfo := {
  limit : Z;
  used : Z;
  remaining : Z;
  canUseDeepResearch : bool;
}.

Record RouteDecision := {
  r_provider : string;
  reason : string;
}.

Record RouteOptions := {
  forceDeep : option bool;
  forcePerplexity : option bool;
}.

Definition DEFAULT_CONFIG : ResearchConfig :=
  {| daily_deep_research_limit := 15; perplexity_fallback := true |}.

Section WithConfig.
Context `{JsonCodec UsageLogEntry} `{JsonCodec ResearchConfig}.
(** [new Date().toISOString()] at the time of the call. *)
Variable now : string.

(** Check current quota status.
    Counts Deep Research usage from today only. *)
Definition checkQuota (configFile logFile : string) : Fs.IO QuotaInfo :=
  (* Read config (or use defaults) *)
  config <- Fs.readJSON configFile ;;
  let config := default DEFAULT_CONFIG config in
  let limit := daily_deep_research_limit config in
  (* Count today's deep-research usage *)
  let todayStr := Js.isoDate now in
  used <- countTodayUsage logFile todayStr ;;
  let remaining := Z.max 0 (limit - used) in
  let canUseDeepResearch := remaining >? 0 in
  Js.ret {| limit := limit; used := used; remaining := remaining;
            canUseDeepResearch := canUseDeepResearch |}.

(** Decide which research provider to use.
    Returns provider and reason. *)
Definition routeResearch (configFile logFile : string) (options : RouteOptions)
  : Fs.IO RouteDecision :=
  (* Handle forced routing *)
  if default false (forceDeep options)
  then Js.ret {| r_provider := "deep-research"; reason := "forced" |}
  else if default false (forcePerplexity options)
  then Js.ret {| r_provider := "perplexity"; reason := "forced" |}
  else
    (* Check quota *)
    quota <- checkQuota configFile logFile ;;
    if canUseDeepResearch quota
    then Js.ret {| r_provider := "deep-research"; reason := "under quota" |}
    else Js.ret {| r_provider := "perplexity"; reason := "quota exceeded" |}.

End WithConfig.

End Research.

(** ** src/tools/memory-update.ts *)

Module MemoryUpdate.

(** The code units that [.] of a regular expression does not match. *)
Definition isLineTerminator (c : ascii) : bool :=
  bool_decide (c = Js.LF) || bool_decide (c = "013"%char).

Fixpoint noLineTerminator (s : string) : bool :=
  match s with
  | "" => true
  | String c r => negb (isLineTerminator c) && noLineTerminator r
  end.

(** What follows the prefix [pre] in [s], and what precedes the suffix [suf]. *)
Fixpoint stripPrefix (pre s : string) : option string :=
  match pre, s with
  | "", _ => Some s
  | String _ _, "" => None
  | String d pre', String c s' =>
      if bool_decide (c = d) then stripPrefix pre' s' else None
  end.

Fixpoint stripSuffix (suf s : string) : option string :=
  if bool_decide (s = suf) then Some ""
  else match s with
       | "" => None
       | String c r => String c <$> stripSuffix suf r
       end.

(** [/^MEMORY\.md$/.test(path)] *)
Definition isRootMemory (path : string) : bool := bool_decide (path = "MEMORY.md").

(** [/^memory\/.*\.(md|json)$/.test(path)]: after "memory/", code units
    other than line terminators, then ".md" or ".json" at the end. *)
Definition isMemoryFile (path : string) : bool :=
  match stripPrefix "memory/" path with
  | None => false
  | Some rest =>
      existsb (λ suf, match stripSuffix suf rest with
                      | Some mid => noLineTerminator mid
                      | None => false
                      end)
              [".md"; ".json"]
  end.

(** Allowed memory file patterns. *)
Definition ALLOWED_PATTERNS : list (string → bool) := [isRootMemory; isMemoryFile].

(** Validate that a path is an allowed memory file.
    Rejects path traversal, non-markdown/json files, and files outside memory. *)
Definition validateMemoryPath (path : string) : bool :=
  (* Reject path traversal *)
  if Js.includes path ".." then false
  (* Reject absolute paths *)
  else if Js.startsWith path "/" then false
  (* Check against allowed patterns *)
  else existsb (λ pattern, pattern path) ALLOWED_PATTERNS.

Section WithHost.
Variable host : Host.
(** [new Date().toISOString()] at the time of the call. *)
Variable now : string.

(** Update a memory file with validation, backup, and safety checks. *)
Definition memoryUpdate (filePath operation content : string) : Fs.IO unit :=
  (* Validate content *)
  if Js.isEmpty content || (Js.length (Js.trim content) =? 0)
  then Js.throw (Js.Error "Content cannot be empty")
  else
    (* Ensure parent directory exists *)
    Fs.mkdir (path_dirname host filePath) ;;;
    if bool_decide (operation = "append") then
      (* Backup existing file before modification *)
      exists_ <- Fs.fileExists filePath ;;
      (if exists_ then Fs.backupFile host now filePath ;;; Js.ret tt else Js.ret tt) ;;;
      Fs.appendToFile host filePath content Fs.noOptions
    else if bool_decide (operation = "replace") then
      (* Backup existing file before replacement *)
      Fs.backupFile host now filePath ;;;
      Fs.atomicWrite host now filePath content Fs.noOptions
    else if bool_decide (operation = "create") then
      (* Reject if file already exists *)
      exists_ <- Fs.fileExists filePath ;;
      if exists_ then Js.throw (Js.Error ("File already exists: " +:+ filePath))
      else Fs.atomicWrite host now filePath content Fs.noOptions
    else Js.throw (Js.Error ("Unknown operation: " +:+ operation)).

End WithHost.

End MemoryUpdate.

(** ** src/tools/emotional-state.ts *)

Module EmotionalState.

Record CurrentState := {
  primary : string;
  secondary : string;
  background : string;
}.

Record WakeEntry := {
  timestamp : string;
  threads : option string;
  question_for_future_me : option string;
  context : option string;
  emotional_tone : option string;
}.

Record EmotionalState := {
  current_state : CurrentState;
  recent_wakes : list WakeEntry;
  decay_hours : Z;
  notes : option string;
}.

Record EmotionalStateUpdate := {
  u_primary : option string;
  u_secondary : option string;
  u_background : option string;
  u_threads : option string;
  u_question : option string;
}.

Definition MAX_RECENT_WAKES : Z := 10.

(** The state of the module and of the disk.  [DEFAULT_STATE] is a constant
    of the module, and its [current_state] is an object: every copy of
    [DEFAULT_STATE] made with the spread syntax refers to that one object,
    so that an assignment through a copy is an assignment to it.
    [default_current_state] is the content of that object. *)
Record World := {
  disk : Fs.Disk;
  default_current_state : CurrentState;
}.

(** The content of the object when the module is loaded. *)
Definition initial_current_state : CurrentState :=
  {| primary := "curious engagement";
     secondary := "steady focus";
     background := "neutral baseline" |}.

(** What a [current_state] property refers to: the object of
    [DEFAULT_STATE], or an object of its own, as [JSON.parse] makes. *)
Inductive Ref :=
| TheDefault
| Fresh (value : CurrentState).

Definition deref (r : Ref) : Js.Eff World CurrentState :=
  match r with
  | TheDefault => w <- Js.get ;; Js.ret (default_current_state w)
  | Fresh value => Js.ret value
  end.

(** [r.field = v] *)
Definition assign (r : Ref) (f : CurrentState → CurrentState) : Js.Eff World Ref :=
  match r with
  | TheDefault =>
      Js.modify (λ w, {| disk := disk w;
                         default_current_state := f (default_current_state w) |}) ;;;
      Js.ret TheDefault
  | Fresh value => Js.ret (Fresh (f value))
  end.

(** A call of the file utilities. *)
Definition onDisk {A} (m : Fs.IO A) : Js.Eff World A :=
  λ w, let '(c, d) := m (disk w) in
       (c, {| disk := d; default_current_state := default_current_state w |}).

(** [DEFAULT_STATE], when its [current_state] holds [c]. *)
Definition DEFAULT_STATE_of (c : CurrentState) : EmotionalState :=
  {| current_state := c;
     recent_wakes := [];
     decay_hours := 24;
     notes := Some ("Lightweight emotional context across wakes. "
                    +:+ "Non-prescriptive - I choose whether to pick up these threads.") |}.

(** [DEFAULT_STATE], read now. *)
Definition DEFAULT_STATE : Js.Eff World EmotionalState :=
  w <- Js.get ;;
  Js.ret (DEFAULT_STATE_of (default_current_state w)).

Section WithHost.
Variable host : Host.
Context `{JsonCodec EmotionalState}.
(** [new Date().toISOString()] at the time of the call. *)
Variable now : string.

(** Initialize emotional state file with defaults if it doesn't exist.
    Returns the current state (existing or newly created). *)
Definition initEmotionalState (stateFile : string) : Js.Eff World EmotionalState :=
  existing <- onDisk (Fs.readJSON stateFile) ;;
  match existing with
  | Some existing => Js.ret existing
  | None =>
      defaults <- DEFAULT_STATE ;;
      onDisk (Fs.writeJSON host now stateFile defaults Fs.noOptions) ;;;
      DEFAULT_STATE
  end.

(** Read the current emotional state.
    Returns null if the file doesn't exist. *)
Definition readEmotionalState (stateFile : string)
  : Js.Eff World (option EmotionalState) :=
  onDisk (Fs.readJSON stateFile).

(** Update emotional state with new values.
    Creates the file with defaults if it doesn't exist.
    Only adds a wake entry if threads or question is provided.
    The result is the content of [state] when the function returns. *)
Definition updateEmotionalState (stateFile : string) (update : EmotionalStateUpdate)
  : Js.Eff World EmotionalState :=
  (* Read or initialize *)
  state <- onDisk (Fs.readJSON stateFile) ;;
  defaults <- DEFAULT_STATE ;;
  let '(current, recent, decay, note) :=
    match state with
    | Some state =>
        (Fresh (current_state state), recent_wakes state, decay_hours state,
         notes state)
    | None => (TheDefault, [], decay_hours defaults, notes defaults)
    end in
  (* Update current state (only provided fields) *)
  current <- match u_primary update with
             | Some v => assign current (λ c, {| primary := v;
                                                 secondary := secondary c;
                                                 background := background c |})
             | None => Js.ret current
             end ;;
  current <- match u_secondary update with
             | Some v => assign current (λ c, {| primary := primary c;
                                                 secondary := v;
                                                 background := background c |})
             | None => Js.ret current
             end ;;
  current <- match u_background update with
             | Some v => assign current (λ c, {| primary := primary c;
                                                 secondary := secondary c;
                                                 background := v |})
             | None => Js.ret current
             end ;;
  (* Add wake entry only if threads or question provided *)
  let recent :=
    if Js.truthy (u_threads update) || Js.truthy (u_question update) then
      let wakeEntry :=
        {| timestamp := now;
           threads := if Js.truthy (u_threads update) then u_threads update else None;
           question_for_future_me :=
             if Js.truthy (u_question update) then u_question update else None;
           context := None;
           emotional_tone := None |} in
      (* Prepend (newest first) and cap at MAX_RECENT_WAKES *)
      Js.slice0 MAX_RECENT_WAKES (wakeEntry :: recent)
    else recent in
  (* Write atomically *)
  value <- deref current ;;
  let state := {| current_state := value; recent_wakes := recent;
                  decay_hours := decay; notes := note |} in
  onDisk (Fs.writeJSON host now stateFile state Fs.noOptions) ;;;
  Js.ret state.

End WithHost.

End EmotionalState.

(** ** src/tools/thread-marker.ts *)

Module ThreadMarker.

Record ThreadMarkerParams := {
  topic : string;
  question : string;
  when : option string;
  importance : option string;
  workspaceRoot : option string;
}.

Record ThreadMarkerResult := {
  success : bool;
  threadId : option string;
  error : option string;
}.

Record Thread := {
  id : string;
  timestamp : string;
  t_topic : string;
  t_question : string;
  revisit : option string;
  t_importance : string;
  status : string;
}.

Record ThreadsFile := {
  threads : list Thread;
}.

Definition VALID_IMPORTANCE : list string := ["low"; "medium"; "high"].

(** Validate parameters. *)
Definition validateParams (params : ThreadMarkerParams) : option string :=
  if Js.isEmpty (topic params) || (Js.length (Js.trim (topic params)) =? 0)
  then Some "Topic cannot be empty"
  else if Js.isEmpty (question params) || (Js.length (Js.trim (question params)) =? 0)
  then Some "Question cannot be empty"
  else if Js.truthy (importance params)
          && negb (bool_decide (default "" (importance params) ∈ VALID_IMPORTANCE))
  then Some ("Invalid importance: " +:+ default "" (importance params)
             +:+ ". Must be one of: " +:+ Js.join ", " VALID_IMPORTANCE)
  else None.

Definition failure (msg : string) : ThreadMarkerResult :=
  {| success := false; threadId := None; error := Some msg |}.

Section WithHost.
Variable host : Host.
(** [JSON.parse] of the threads file: [Some None] is a value without an
    array of threads, as [null], [{}] or an object whose member [threads]
    is no array. *)
Context `{JsonCodec (option ThreadsFile)}.
(** [new Date().toISOString()] now, a day from now and seven days from now,
    and [randomUUID()]. *)
Variables now dayAhead weekAhead uuid : string.

(** Parse natural language date to YYYY-MM-DD. *)
Definition parseWhen (when : option string) : option string :=
  if negb (Js.truthy when) then None
  else
    let when := default "" when in
    let lower := Js.trim (Js.toLowerCase when) in
    if bool_decide (lower = "tomorrow") then Some (Js.isoDate dayAhead)
    else if bool_decide (lower = "next week") then Some (Js.isoDate weekAhead)
    else if bool_decide (lower = "today") then Some (Js.isoDate now)
    (* Assume it's already YYYY-MM-DD *)
    else Some when.

(** Read existing threads file or create empty structure.  What parses is
    returned as it is, with or without an array of threads. *)
Definition readThreadsFile (threadsPath : string) : Fs.IO (option ThreadsFile) :=
  Js.tryCatch
    (content <- Fs.readFile threadsPath ;;
     match parse content with
     | Some data => Js.ret data
     | None => Js.throw Js.SyntaxError
     end)
    (λ _, (* File doesn't exist yet *) Js.ret (Some {| threads := [] |})).

(** Write threads file. *)
Definition writeThreadsFile (threadsPath : string) (data : ThreadsFile) : Fs.IO unit :=
  let json := stringify_pretty (Some data) in
  Fs.writeFile threadsPath json.

(** Main thread marker function. *)
Definition threadMarker (params : ThreadMarkerParams) : Fs.IO ThreadMarkerResult :=
  (* Validate *)
  match validateParams params with
  | Some validationError => Js.ret (failure validationError)
  | None =>
      (* Determine workspace root *)
      let workspaceRoot :=
        if Js.truthy (workspaceRoot params) then default "" (workspaceRoot params)
        else path_join host [os_homedir host; ".openclaw"; "workspace"] in
      let memoryDir := path_join host [workspaceRoot; "memory"] in
      let threadsPath := path_join host [memoryDir; "threads.json"] in
      Js.tryCatch
        ((* Ensure memory directory exists *)
         Fs.mkdir memoryDir ;;;
         (* Read existing threads *)
         threadsData <- readThreadsFile threadsPath ;;
         (* Create new thread *)
         let threadId := uuid in
         let revisit := parseWhen (when params) in
         let thread :=
           {| id := threadId;
              timestamp := now;
              t_topic := Js.trim (topic params);
              t_question := Js.trim (question params);
              t_importance := if Js.truthy (importance params)
                              then default "" (importance params) else "medium";
              status := "open";
              revisit := if Js.truthy revisit then revisit else None |} in
         (* Append thread: [threadsData.threads.push(thread)] *)
         match threadsData with
         | None => Js.throw Js.TypeError
         | Some threadsData =>
             let threadsData := {| threads := threads threadsData ++ [thread] |} in
             (* Write back *)
             writeThreadsFile threadsPath threadsData ;;;
             Js.ret {| success := true; threadId := Some threadId; error := None |}
         end)
        (λ error, Js.ret (failure ("Failed to mark thread: " +:+ message host error)))
  end.

End WithHost.

End ThreadMarker.

(** ** hooks/knowledge-extraction/handler.ts *)

Module KnowledgeExtraction.

(** A message of the transcript, as far as the hook reads it. *)
Record Message := {
  role : option string;
  content : option string;
}.

Record HookContext := {
  workspaceDir : option string;
  sessionFile : option string;
}.

Record HookEvent := {
  type : string;
  action : string;
  context : HookContext;
}.

(** [arr.slice(-n)] for [n] above zero: the last [n] elements. *)
Definition sliceLast {A} (n : nat) (l : list A) : list A :=
  drop (List.length l - n) l.

(** Extract significant topics from messages.
    Simple heuristic-based extraction. *)
Definition extractTopics (messages : list Message) : list string :=
  (* Look for patterns in the conversation *)
  let fullText := Js.join " " ((λ m, default "" (Js.orElse (content m) (Some ""))) <$> messages) in
  (* Check for decisions/commitments *)
  (if Js.includes fullText "decided to" || Js.includes fullText "will do"
      || Js.includes fullText "committed to"
   then ["- Decisions/commitments made in this session"] else [])
  (* Check for technical work *)
  ++ (if Js.includes fullText "test"
         && (Js.includes fullText "passing" || Js.includes fullText "failed")
      then ["- Technical work with test results"] else [])
  (* Check for file modifications *)
  ++ (if Js.includes fullText "Created" || Js.includes fullText "Updated"
         || Js.includes fullText "Wrote"
      then ["- File modifications made"] else [])
  (* Check for research *)
  ++ (if Js.includes fullText "research" || Js.includes fullText "Deep Research"
         || Js.includes fullText "Perplexity"
      then ["- Research conducted"] else [])
  (* Check for emotional/relational content *)
  ++ (if Js.includes fullText "thank" || Js.includes fullText "appreciate"
         || Js.includes fullText "buenas noches"
      then ["- Meaningful exchange"] else []).

Section WithHost.
Variable host : Host.
(** [JSON.parse] of a line of the transcript: [Some None] is [null], and a
    value that is no object is a message without a role. *)
Context `{JsonCodec (option Message)}.
(** [new Date().toISOString()], and the time of day that
    [toLocaleTimeString] prints for Toronto. *)
Variables now localTime : string.

(** The messages the hook takes from a transcript. *)
Definition messagesOf (transcript : string) : list Message :=
  (* Parse JSONL and get last 50 messages *)
  let lines := sliceLast 100 (Js.split Js.LF (Js.trim transcript)) in
  let parsed := (λ line, default None (parse line)) <$> lines in
  let messages := omap (λ m, m) parsed (* m !== null *) in
  let messages :=
    List.filter (λ m, bool_decide (role m = Some "user")
                      || bool_decide (role m = Some "assistant")) messages in
  sliceLast 50 messages.

Definition handler (event : HookEvent) : Fs.IO unit :=
  (* Only trigger on 'new' command *)
  if negb (bool_decide (type event = "command"))
     || negb (bool_decide (action event = "new"))
  then Js.ret tt
  else
    let context := context event in
    if negb (Js.truthy (workspaceDir context)) then Js.ret tt
    else
      let workspaceDir := default "" (workspaceDir context) in
      Js.tryCatch
        ((* Read session file if available *)
         if negb (Js.truthy (sessionFile context)) then Js.ret tt
         else
           let sessionFile := default "" (sessionFile context) in
           (* Read last N lines of session transcript *)
           transcript <- Js.tryCatch (Fs.readFile sessionFile) (λ _, Js.ret "") ;;
           if Js.isEmpty transcript then Js.ret tt
           else
             let messages := messagesOf transcript in
             if Z.of_nat (List.length messages) <? 5 then Js.ret tt
             else
               (* Build summary of conversation topics *)
               let topics := extractTopics messages in
               if Z.of_nat (List.length topics) =? 0 then Js.ret tt
               else
                 (* Append to daily log *)
                 let today := Js.isoDate now in
                 let dailyFile :=
                   path_join host [workspaceDir; "memory"; "private";
                                   today +:+ "-daily.md"] in
                 Fs.mkdir (path_dirname host dailyFile) ;;;
                 let timestamp := localTime in
                 let entry :=
                   Js.nl +:+ "### " +:+ timestamp +:+ " - Session End (Auto-extracted)"
                   +:+ Js.nl +:+ Js.nl +:+ Js.join Js.nl topics +:+ Js.nl in
                 Fs.appendFile dailyFile entry)
        (λ _, (* Don't throw - let other handlers run *) Js.ret tt).

End WithHost.

End KnowledgeExtraction.

(** ** Vocabulary for the lines of a log *)

Module Lines.

(** A line as the tools write it: not empty, without white space at either
    end, and without a line feed.  The output of [JSON.stringify] on an
    object is such a line. *)
Definition recordLine (l : string) : bool :=
  negb (Js.isEmpty l)
  && bool_decide (Js.trimStart l = l)
  && bool_decide (Js.trimEnd l = l)
  && negb (Js.hasChar Js.LF l).

End Lines.

(** ** Vocabulary for the knowledge extraction *)

Module Extraction.
Import KnowledgeExtraction.

(** The five topics, in the order [extractTopics] looks for them. *)
Definition ALL_TOPICS : list string :=
  ["- Decisions/commitments made in this session";
   "- Technical work with test results";
   "- File modifications made";
   "- Research conducted";
   "- Meaningful exchange"].

(** The daily file of an event, and the entry of a list of topics. *)
Definition dailyFileOf (host : Host) (now : string) (event : HookEvent) : string :=
  path_join host [default "" (workspaceDir (context event)); "memory"; "private";
                  Js.isoDate now +:+ "-daily.md"].

Definition entryOf (localTime : string) (topics : list string) : string :=
  Js.nl +:+ "### " +:+ localTime +:+ " - Session End (Auto-extracted)"
  +:+ Js.nl +:+ Js.nl +:+ Js.join Js.nl topics +:+ Js.nl.

(** The transcript of an event on a disk: empty when there is no session
    file or it cannot be read. *)
Definition transcriptOf (event : HookEvent) (d : Fs.Disk) : string :=
  if Js.truthy (sessionFile (context event))
  then default "" (Fs.files d !! default "" (sessionFile (context event)))
  else "".

(** The event of a /new command. *)
Definition newCommand (workspaceDir sessionFile : string) : HookEvent :=
  {| type := "command"; action := "new";
     context := {| workspaceDir := Some workspaceDir;
                   sessionFile := Some sessionFile |} |}.

End Extraction.

(** ** Vocabulary for the thread marker *)

Module Threads.
Import ThreadMarker.

(** The threads file of a request, as [threadMarker] computes it. *)
Definition threadsPathOf (host : Host) (params : ThreadMarkerParams) : string :=
  let workspaceRoot :=
    if Js.truthy (workspaceRoot params) then default "" (workspaceRoot params)
    else path_join host [os_homedir host; ".openclaw"; "workspace"] in
  path_join host [path_join host [workspaceRoot; "memory"]; "threads.json"].

(** Parameters that pass the validation. *)
Definition accepted (params : ThreadMarkerParams) : Prop :=
  Js.whitespaceOnly (topic params) = false
  ∧ Js.whitespaceOnly (question params) = false
  ∧ (Js.truthy (importance params) = true →
     default "" (importance params) ∈ VALID_IMPORTANCE).

(** A threads file that parses to a value without an array of threads. *)
Definition noThreadList `{JsonCodec (option ThreadsFile)} (d : Fs.Disk)
    (threadsPath : string) : Prop :=
  Fs.files d !! threadsPath ≫= parse = Some None.

(** The threads a disk holds at a path: those of the file when it parses
    to a list of threads, none when it is missing or does not parse. *)
Definition threadsOn `{JsonCodec (option ThreadsFile)} (d : Fs.Disk)
    (threadsPath : string) : list Thread :=
  match Fs.files d !! threadsPath ≫= parse with
  | Some (Some data) => threads data
  | _ => []
  end.

(** The text [threadMarker] writes for a list of threads. *)
Definition printed `{JsonCodec (option ThreadsFile)} (l : list Thread) : string :=
  stringify_pretty (Some {| threads := l |}).

(** The answer to a request on a file without an array of threads. *)
Definition unmarked (host : Host) : ThreadMarkerResult :=
  failure ("Failed to mark thread: " +:+ message host Js.TypeError).

Definition marked (threadId : string) : ThreadMarkerResult :=
  {| success := true; threadId := Some threadId; error := None |}.

End Threads.

(** ** Vocabulary for the emotional state *)

Module Feelings.
Import EmotionalState.

(** The fields an update provides, put over a current state. *)
Definition applied (update : EmotionalStateUpdate) (c : CurrentState) : CurrentState :=
  {| primary := default (primary c) (u_primary update);
     secondary := default (secondary c) (u_secondary update);
     background := default (background c) (u_background update) |}.

(** An update that brings a wake entry. *)
Definition addsWake (update : EmotionalStateUpdate) : bool :=
  Js.truthy (u_threads update) || Js.truthy (u_question update).

(** The wakes after an update at the time [now]: the new entry first, then
    the nine newest of the old ones. *)
Definition wakesAfter (now : string) (update : EmotionalStateUpdate)
    (old : list WakeEntry) : list WakeEntry :=
  if addsWake update
  then {| timestamp := now;
          threads := if Js.truthy (u_threads update) then u_threads update else None;
          question_for_future_me :=
            if Js.truthy (u_question update) then u_question update else None;
          context := None; emotional_tone := None |} :: take 9 old
  else old.

(** The state a file holds, when it holds one. *)
Definition stored `{JsonCodec EmotionalState} (w : World) (stateFile : string)
  : option EmotionalState :=
  Fs.files (disk w) !! stateFile ≫= parse.

(** The module as loaded, over a disk. *)
Definition loaded (d : Fs.Disk) : World :=
  {| disk := d; default_current_state := initial_current_state |}.

End Feelings.

(** ** Vocabulary for the usage log *)

Module Usage.
Import Research.

(** The entries the lines of a usage log parse to, and the number of them
    that are Deep Research uses of a day. *)
Definition entriesOf `{JsonCodec UsageLogEntry} (content : string)
  : list UsageLogEntry :=
  omap parse (usageLines content).

Definition isDeepOn (todayStr : string) (entry : UsageLogEntry) : bool :=
  bool_decide (date entry = todayStr) && bool_decide (provider entry = "deep-research").

Definition deepUses `{JsonCodec UsageLogEntry} (todayStr : string) (d : Fs.Disk)
    (logFile : string) : Z :=
  Z.of_nat (List.length
              (List.filter (isDeepOn todayStr)
                           (entriesOf (default "" (Fs.files d !! logFile))))).

(** The limit in force: that of the configuration, or 15 without one. *)
Definition limitOn `{JsonCodec ResearchConfig} (d : Fs.Disk) (configFile : string)
  : option Z :=
  match Fs.files d !! configFile with
  | None => Some 15
  | Some content => daily_deep_research_limit <$> parse content
  end.

(** The entry [logUsage] writes. *)
Definition entryOf (now provider query : string) : UsageLogEntry :=
  {| date := Js.isoDate now; timestamp := now; provider := provider; query := query |}.

Definition unforced : RouteOptions := {| forceDeep := None; forcePerplexity := None |}.

End Usage.

(** ** Vocabulary for the captures *)

Module Captures.
Import QuickCapture.

(** The memory directory of a capture, and the two files it may write, as
    [quickCapture] computes them. *)
Definition memoryDirOf (host : Host) (params : QuickCaptureParams) : string :=
  let workspaceRoot :=
    if Js.truthy (workspaceRoot params) then default "" (workspaceRoot params)
    else path_join host [os_homedir host; ".openclaw"; "workspace"] in
  path_join host [workspaceRoot; "memory"].

Definition tasksPathOf (host : Host) (params : QuickCaptureParams) : string :=
  path_join host [memoryDirOf host params; "tasks.jsonl"].

Definition dailyPathOf (host : Host) (now : string) (params : QuickCaptureParams)
  : string :=
  path_join host [memoryDirOf host params; "private"; Js.isoDate now +:+ "-daily.md"].

(** Parameters that pass the validation. *)
Definition accepted (params : QuickCaptureParams) : Prop :=
  Js.whitespaceOnly (content params) = false
  ∧ type params ∈ VALID_TYPES
  ∧ (Js.truthy (priority params) = true →
     default "" (priority params) ∈ VALID_PRIORITIES).

(** The heading of the section a capture of a type goes under, the text
    that opens a section, the first lines of a new daily file, and the list
    item of a content. *)
Definition headingOf (type : string) : string :=
  if bool_decide (type = "uncertainty") then "## Uncertain/Exploring" else "## Notes".

Definition sectionOf (heading : string) : string :=
  Js.nl +:+ heading +:+ Js.nl +:+ Js.nl.

Definition dailyHeader (now : string) : string :=
  "# " +:+ Js.isoDate now +:+ " - Daily Log" +:+ Js.nl +:+ Js.nl.

Definition itemOf (content : string) : string :=
  "- " +:+ Js.trim content +:+ Js.nl.

(** The task [captureTask] makes of the parameters. *)
Definition capturedTask (now dayAhead uuid : string) (params : QuickCaptureParams)
  : Task :=
  {| id := uuid;
     created := now;
     task := Js.trim (content params);
     status := "pending";
     t_priority := if Js.truthy (priority params)
                   then default "" (priority params) else "medium";
     t_context := if contextTruthy (context params) then context params else None;
     t_command := if Js.truthy (command params) then command params else None;
     t_dueDate := if Js.truthy (dueDate params)
                  then Some (parseDate now dayAhead (default "" (dueDate params)))
                  else None |}.

(** The answers of a capture that wrote. *)
Definition wroteDaily (dailyPath : string) : QuickCaptureResult :=
  {| success := true; taskId := None; filePath := Some dailyPath; error := None |}.

Definition wroteTask (taskId tasksPath : string) : QuickCaptureResult :=
  {| success := true; taskId := Some taskId; filePath := Some tasksPath;
     error := None |}.

End Captures.

(** ** Vocabulary for the diary *)

Module DiaryFilters.
Import Diary.

(** An entry that passes every filter the parameters give. *)
Definition wanted (params : DiaryReadParams) (e : DiaryEntry) : bool :=
  (negb (Js.truthy (after params))
   || Js.str_ge (date e) (default "" (after params)))
  && (negb (Js.truthy (before params))
      || Js.str_le (date e) (default "" (before params)))
  && (negb (Js.truthy (r_mood params)) || bool_decide (mood e = r_mood params))
  && (negb (Js.truthy (tag params))
      || match tags e with
         | Some ts => bool_decide (default "" (tag params) ∈ ts)
         | None => false
         end).

(** The entries the lines of a diary parse to. *)
Definition entriesOf `{JsonCodec DiaryEntry} (content : string) : list DiaryEntry :=
  omap parse (diaryLines content).

(** A diary whose lines all parse. *)
Definition wellFormed `{JsonCodec DiaryEntry} (content : string) : Prop :=
  Forall (λ line, is_Some (parse (A:=DiaryEntry) line)) (diaryLines content).

End DiaryFilters.

(** ** Vocabulary for the requests to the task executor *)

Module Requests.
Import TaskExecutor.

(** The path of the task log of a request, as [taskExecutor] computes it. *)
Definition tasksPathOf (host : Host) (params : TaskExecutorParams) : string :=
  let workspaceRoot :=
    if Js.truthy (workspaceRoot params) then default "" (workspaceRoot params)
    else path_join host [os_homedir host; ".openclaw"; "workspace"] in
  path_join host [path_join host [workspaceRoot; "memory"]; "tasks.jsonl"].

(** The tasks the log of a disk parses to. *)
Definition tasksOn `{JsonCodec Task} (tasksPath : string) (d : Fs.Disk) : list Task :=
  match Fs.files d !! tasksPath with
  | Some content => omap parse (taskLines content)
  | None => []
  end.

(** A log whose lines all parse to tasks.  A line that is no JSON is not
    such a line, and neither is a line that parses to a value of another
    shape, as [null]. *)
Definition wellFormed `{JsonCodec Task} (tasksPath : string) (d : Fs.Disk) : Prop :=
  Forall (λ line, is_Some (parse (A:=Task) line))
         (taskLines (default "" (Fs.files d !! tasksPath))).

(** The requests: a status update, a listing, an execution, in the
    workspace of [root] (the default workspace when [root] is absent). *)
Definition statusOf (root : option string) (taskId newStatus : option string)
  : TaskExecutorParams :=
  {| action := "status"; taskId := taskId; newStatus := newStatus;
     filter := None; workspaceRoot := root |}.

Definition listOf (root : option string) (filter : option string)
  : TaskExecutorParams :=
  {| action := "list"; taskId := None; newStatus := None;
     filter := filter; workspaceRoot := root |}.

Definition executeOf (root : option string) : TaskExecutorParams :=
  {| action := "execute"; taskId := None; newStatus := None;
     filter := None; workspaceRoot := root |}.

(** The tasks the [execute] action runs: pending and due. *)
Definition pendingDue (now : string) (latestTasks : list Task) : list Task :=
  List.filter (λ task, bool_decide (status task = "pending") && isDue now task)
              latestTasks.

(** Commands that leave the disk alone and whose success depends on the
    command only; and whether [executeTask] succeeds on a task then. *)
Definition quiet (execAsync : string → Fs.IO string) (succeeds : string → bool) : Prop :=
  ∀ c d, (execAsync c d).2 = d ∧ Js.isThrow (execAsync c d).1 = negb (succeeds c).

Definition runs (succeeds : string → bool) (task : Task) : bool :=
  negb (Js.truthy (command task)) || succeeds (default "" (command task)).

(** The line that marks a task completed. *)
Definition completedLine `{JsonCodec Task} (now : string) (task : Task) : string :=
  stringify (withStatus now task "completed").

(** The answers of the executor. *)
Definition listed (tasks : list Task) : TaskExecutorResult :=
  {| success := true; tasks := Some tasks; executed := None; error := None |}.

Definition updated : TaskExecutorResult :=
  {| success := true; tasks := None; executed := None; error := None |}.

Definition ran (n : Z) : TaskExecutorResult :=
  {| success := true; tasks := None; executed := Some n; error := None |}.

End Requests.

(** ** A host and codecs for the examples *)

Module Samples.

(** A host whose paths are already normalised: [join] puts a slash between
    its segments and [dirname] drops the last one. *)
Definition posixHost : Host :=
  {| path_join := Js.join "/";
     path_dirname := λ p, Js.join "/" (removelast (Js.split "/" p));
     os_homedir := "/home/miriam";
     env_HOME := "/home/miriam";
     builtin_toString := λ m, "function " +:+ m +:+ "() { [native code] }";
     engine_message := λ _, "" |}.

(** Codecs for the examples.  A record is printed as a JSON object of
    string members; the texts that parse are those of the records of
    [known], and no other.  Such a codec agrees with [JSON.parse] on every
    text the examples give it: the printed records, and texts that are not
    JSON at all. *)
Definition quote (s : string) : string := String "034" (s +:+ String "034" "").

Definition jsonObject (members : list (string * string)) : string :=
  "{" +:+ Js.join "," ((λ kv, quote kv.1 +:+ ":" +:+ quote kv.2) <$> members) +:+ "}".

Definition tableCodec {A} (members : A → list (string * string)) (known : list A)
  : JsonCodec A :=
  {| stringify a := jsonObject (members a);
     stringify_pretty a := jsonObject (members a);
     parse s := List.find (λ a, bool_decide (jsonObject (members a) = s)) known |}.

Definition opt (o : option string) : string := default "" o.

Definition taskCodec (known : list TaskExecutor.Task) : JsonCodec TaskExecutor.Task :=
  tableCodec (λ t, [("id", TaskExecutor.id t); ("created", TaskExecutor.created t);
                    ("task", TaskExecutor.task t); ("status", TaskExecutor.status t)])
             known.

Definition diaryCodec (known : list Diary.DiaryEntry) : JsonCodec Diary.DiaryEntry :=
  tableCodec (λ e, [("id", Diary.id e); ("timestamp", Diary.timestamp e);
                    ("date", Diary.date e); ("reflections", Diary.reflections e)])
             known.

Definition captureCodec : JsonCodec QuickCapture.Task :=
  tableCodec (λ t, [("id", QuickCapture.id t); ("created", QuickCapture.created t);
                    ("task", QuickCapture.task t); ("status", QuickCapture.status t);
                    ("priority", QuickCapture.t_priority t)])
             [].

Definition noteCodec : JsonCodec DashboardNote.DashboardNote :=
  tableCodec (λ n, [("message", DashboardNote.message n);
                    ("emoji", DashboardNote.emoji n);
                    ("timestamp", DashboardNote.timestamp n)])
             [].

Definition usageCodec (known : list Research.UsageLogEntry)
  : JsonCodec Research.UsageLogEntry :=
  tableCodec (λ e, [("date", Research.date e); ("timestamp", Research.timestamp e);
                    ("provider", Research.provider e); ("query", Research.query e)])
             known.

(** A codec as [tableCodec], whose parser accepts white space around the
    text, as [JSON.parse] does. *)
Definition spacedCodec {A} (members : A → list (string * string)) (known : list A)
  : JsonCodec A :=
  {| stringify a := jsonObject (members a);
     stringify_pretty a := jsonObject (members a);
     parse s := List.find (λ a, bool_decide (jsonObject (members a) = Js.trim s)) known |}.

Definition noteMembers (n : DashboardNote.DashboardNote) : list (string * string) :=
  [("message", DashboardNote.message n); ("emoji", DashboardNote.emoji n);
   ("timestamp", DashboardNote.timestamp n)].

Definition helloNote : DashboardNote.DashboardNote :=
  {| DashboardNote.message := "Hello"; DashboardNote.emoji := "*";
     DashboardNote.timestamp := "2026-02-05T10:00:00.000Z" |}.

Definition helloCodec : JsonCodec DashboardNote.DashboardNote :=
  spacedCodec noteMembers [helloNote].

(** A diary entry, read parameters without filters, write parameters with
    the given reflections, and capture parameters for a task. *)
Definition sampleEntry : Diary.DiaryEntry :=
  {| Diary.id := "e1"; Diary.timestamp := "2026-02-05T10:00:00.000Z";
     Diary.date := "2026-02-05"; Diary.mood := None; Diary.energy := None;
     Diary.reflections := "A quiet day.";
     Diary.gratitude := None; Diary.challenges := None; Diary.learnings := None;
     Diary.connections := None; Diary.tags := None; Diary.private_ := true |}.

(** The codec that knows this entry, and the line of the entry. *)
Definition entryCodec : JsonCodec Diary.DiaryEntry := diaryCodec [sampleEntry].

Definition entryLine : string := @stringify _ entryCodec sampleEntry.

(** Reflections of fifty code units and more, the entry [diaryWrite] makes
    of them at ten o'clock, and the codec that knows it. *)
Definition longReflections : string :=
  "Today I watered the plants and read a long book in the sun.".

Definition longEntry : Diary.DiaryEntry :=
  {| Diary.id := "e2"; Diary.timestamp := "2026-02-05T10:00:00.000Z";
     Diary.date := "2026-02-05"; Diary.mood := None; Diary.energy := None;
     Diary.reflections := longReflections;
     Diary.gratitude := None; Diary.challenges := None; Diary.learnings := None;
     Diary.connections := None; Diary.tags := None; Diary.private_ := true |}.

Definition longCodec : JsonCodec Diary.DiaryEntry := diaryCodec [sampleEntry; longEntry].

(** An update that names a primary feeling and leaves a thread, the state
    it makes of the defaults at ten o'clock, the state the defaults make
    afterwards, and a codec that knows both. *)
Definition calmUpdate : EmotionalState.EmotionalStateUpdate :=
  {| EmotionalState.u_primary := Some "calm"; EmotionalState.u_secondary := None;
     EmotionalState.u_background := None;
     EmotionalState.u_threads := Some "the garden";
     EmotionalState.u_question := None |}.

Definition calmCurrent : EmotionalState.CurrentState :=
  {| EmotionalState.primary := "calm"; EmotionalState.secondary := "steady focus";
     EmotionalState.background := "neutral baseline" |}.

Definition gardenWake : EmotionalState.WakeEntry :=
  {| EmotionalState.timestamp := "2026-02-05T10:00:00.000Z";
     EmotionalState.threads := Some "the garden";
     EmotionalState.question_for_future_me := None;
     EmotionalState.context := None; EmotionalState.emotional_tone := None |}.

Definition calmState : EmotionalState.EmotionalState :=
  {| EmotionalState.current_state := calmCurrent;
     EmotionalState.recent_wakes := [gardenWake];
     EmotionalState.decay_hours := 24;
     EmotionalState.notes := None |}.

Definition quietUpdate : EmotionalState.EmotionalStateUpdate :=
  {| EmotionalState.u_primary := None; EmotionalState.u_secondary := None;
     EmotionalState.u_background := None; EmotionalState.u_threads := None;
     EmotionalState.u_question := None |}.

Definition stateCodec : JsonCodec EmotionalState.EmotionalState :=
  spacedCodec
    (λ st, [("primary", EmotionalState.primary (EmotionalState.current_state st));
            ("secondary", EmotionalState.secondary (EmotionalState.current_state st));
            ("background", EmotionalState.background (EmotionalState.current_state st));
            ("wakes", Js.join "," (EmotionalState.timestamp
                                     <$> EmotionalState.recent_wakes st))])
    [calmState].

(** A thread to revisit, the record [threadMarker] makes of it at ten
    o'clock, and a codec that knows the file of that one thread. *)
Definition gardenThread : ThreadMarker.ThreadMarkerParams :=
  {| ThreadMarker.topic := "Garden"; ThreadMarker.question := "What to plant?";
     ThreadMarker.when := None; ThreadMarker.importance := None;
     ThreadMarker.workspaceRoot := Some "/ws" |}.

Definition gardenMarked : ThreadMarker.Thread :=
  {| ThreadMarker.id := "th1"; ThreadMarker.timestamp := "2026-02-05T10:00:00.000Z";
     ThreadMarker.t_topic := "Garden"; ThreadMarker.t_question := "What to plant?";
     ThreadMarker.revisit := None; ThreadMarker.t_importance := "medium";
     ThreadMarker.status := "open" |}.

Definition threadsCodec : JsonCodec (option ThreadMarker.ThreadsFile) :=
  spacedCodec (λ f, match f with
                    | Some f => [("threads", Js.join "," (ThreadMarker.id
                                                           <$> ThreadMarker.threads f))]
                    | None => []
                    end)
              [Some {| ThreadMarker.threads := [gardenMarked] |}; None].

(** Five messages of a session that ends with thanks, the codec that
    knows their lines, and the transcript. *)
Definition thanks (n : string) : KnowledgeExtraction.Message :=
  {| KnowledgeExtraction.role := Some "user";
     KnowledgeExtraction.content := Some ("thank you " +:+ n) |}.

Definition sessionMessages : list KnowledgeExtraction.Message :=
  [thanks "1"; thanks "2"; thanks "3"; thanks "4"; thanks "5"].

Definition messageCodec : JsonCodec (option KnowledgeExtraction.Message) :=
  tableCodec (λ m, match m with
                   | Some m => [("role", opt (KnowledgeExtraction.role m));
                                ("content", opt (KnowledgeExtraction.content m))]
                   | None => []
                   end)
             (Some <$> sessionMessages).

Definition sessionTranscript : string :=
  Js.unlines (@stringify _ messageCodec <$> (Some <$> sessionMessages)).

Definition readAll : Diary.DiaryReadParams :=
  {| Diary.limit := None; Diary.after := None; Diary.before := None;
     Diary.r_mood := None; Diary.tag := None |}.

Definition reflecting (reflections : string) : Diary.DiaryWriteParams :=
  {| Diary.w_reflections := reflections; Diary.w_mood := None;
     Diary.w_energy := None; Diary.w_gratitude := None;
     Diary.w_challenges := None; Diary.w_learnings := None;
     Diary.w_connections := None; Diary.w_tags := None |}.

Definition capturing (content : string) : QuickCapture.QuickCaptureParams :=
  {| QuickCapture.content := content; QuickCapture.type := "task";
     QuickCapture.priority := None; QuickCapture.context := None;
     QuickCapture.command := None; QuickCapture.dueDate := None;
     QuickCapture.workspaceRoot := Some "/ws" |}.

(** A note of the same workspace. *)
Definition noting (content : string) : QuickCapture.QuickCaptureParams :=
  {| QuickCapture.content := content; QuickCapture.type := "note";
     QuickCapture.priority := None; QuickCapture.context := None;
     QuickCapture.command := None; QuickCapture.dueDate := None;
     QuickCapture.workspaceRoot := Some "/ws" |}.

(** The task the executor reads from the capture of "Buy milk" at ten
    o'clock, and a codec of the executor that knows it and prints the
    members [captureCodec] prints. *)

Definition boughtMilk : TaskExecutor.Task :=
  {| TaskExecutor.id := "t2"; TaskExecutor.created := "2026-02-05T10:00:00.000Z";
     TaskExecutor.task := "Buy milk"; TaskExecutor.status := "pending";
     TaskExecutor.priority := Some "medium"; TaskExecutor.context := None;
     TaskExecutor.command := None; TaskExecutor.dueDate := None;
     TaskExecutor.completedAt := None |}.

Definition interopCodec : JsonCodec TaskExecutor.Task :=
  tableCodec (λ t, [("id", TaskExecutor.id t); ("created", TaskExecutor.created t);
                    ("task", TaskExecutor.task t); ("status", TaskExecutor.status t);
                    ("priority", opt (TaskExecutor.priority t))])
             [boughtMilk].

(** Two records of the task t1, pending and then completed, the codec that
    knows them, and the log that holds their two lines. *)
Definition pendingT1 : TaskExecutor.Task :=
  {| TaskExecutor.id := "t1"; TaskExecutor.created := "2026-02-05T09:00:00.000Z";
     TaskExecutor.task := "Water the plants"; TaskExecutor.status := "pending";
     TaskExecutor.priority := None; TaskExecutor.context := None;
     TaskExecutor.command := None; TaskExecutor.dueDate := None;
     TaskExecutor.completedAt := None |}.

Definition completedT1 : TaskExecutor.Task :=
  {| TaskExecutor.id := "t1"; TaskExecutor.created := "2026-02-05T09:00:00.000Z";
     TaskExecutor.task := "Water the plants"; TaskExecutor.status := "completed";
     TaskExecutor.priority := None; TaskExecutor.context := None;
     TaskExecutor.command := None; TaskExecutor.dueDate := None;
     TaskExecutor.completedAt := None |}.

Definition t1Codec : JsonCodec TaskExecutor.Task := taskCodec [pendingT1; completedT1].

Definition t1Log : string :=
  @stringify _ t1Codec pendingT1 +:+ Js.nl +:+ @stringify _ t1Codec completedT1 +:+ Js.nl.

(** The record that completes t1 at ten o'clock, a codec that prints the
    time of completion too, and a shell whose commands all succeed. *)
Definition tenOClock : string := "2026-02-05T10:00:00.000Z".

Definition stampedT1 : TaskExecutor.Task :=
  TaskExecutor.withStatus tenOClock pendingT1 "completed".

Definition stampedCodec : JsonCodec TaskExecutor.Task :=
  tableCodec (λ t, [("id", TaskExecutor.id t); ("created", TaskExecutor.created t);
                    ("task", TaskExecutor.task t); ("status", TaskExecutor.status t);
                    ("completedAt", opt (TaskExecutor.completedAt t))])
             [pendingT1; stampedT1].

Definition silentShell : string → Fs.IO string := λ _, Js.ret "ok".

Definition listing (filter : option string) : TaskExecutor.TaskExecutorParams :=
  {| TaskExecutor.action := "list"; TaskExecutor.taskId := None;
     TaskExecutor.newStatus := None; TaskExecutor.filter := filter;
     TaskExecutor.workspaceRoot := Some "/ws" |}.

(** Two usage entries, of the 4th and of the 5th of February, and the codec
    that knows them. *)
Definition usageOfThe4th : Research.UsageLogEntry :=
  {| Research.date := "2026-02-04"; Research.timestamp := "2026-02-04T08:00:00.000Z";
     Research.provider := "deep-research"; Research.query := "old" |}.

Definition usageOfThe5th : Research.UsageLogEntry :=
  {| Research.date := "2026-02-05"; Research.timestamp := "2026-02-05T08:00:00.000Z";
     Research.provider := "deep-research"; Research.query := "new" |}.

Definition febCodec : JsonCodec Research.UsageLogEntry :=
  usageCodec [usageOfThe4th; usageOfThe5th].

(** A text of white space: two blanks, a line feed, a tab. *)
Definition blanks : string := String " " (String " " (String "010" (String "009" ""))).

(** An empty disk, and a disk that holds one file. *)
Definition emptyDisk : Fs.Disk := {| Fs.files := ∅; Fs.history := [] |}.

Definition diskWith (path content : string) : Fs.Disk :=
  {| Fs.files := {[ path := content ]}; Fs.history := [] |}.

End Samples.

(** * Properties *)

(** ** Strings *)

Module JsFacts.
Import Js.

Lemma app_nil_l (s : string) : "" +:+ s = s.
Proof. reflexivity. Qed.

Lemma app_cons (c : ascii) (s t : string) : String c s +:+ t = String c (s +:+ t).
Proof. reflexivity. Qed.

Lemma app_nil_r (s : string) : s +:+ "" = s.
Proof. induction s as [|c s IH]; [done|]. by rewrite app_cons, IH. Qed.

Lemma app_assoc (a b c : string) : (a +:+ b) +:+ c = a +:+ (b +:+ c).
Proof. induction a as [|x a IH]; [done|]. by rewrite !app_cons, IH. Qed.

Lemma app_length (a b : string) :
  String.length (a +:+ b) = (String.length a + String.length b)%nat.
Proof. induction a as [|x a IH]; [done|]. rewrite app_cons. simpl. by rewrite IH. Qed.

(** [startsWith], [includes] and [endsWith] decide the existence of a
    decomposition of the text. *)
Lemma startsWith_spec (s x : string) :
  startsWith s x = true ↔ ∃ r, s = x +:+ r.
Proof.
  revert s. induction x as [|d x IH]; intros s.
  - destruct s; simpl; (split; [eauto|done]).
  - destruct s as [|c s]; simpl.
    + split; [done|]. intros [r Hr]. rewrite app_cons in Hr. discriminate.
    + rewrite andb_true_iff, bool_decide_eq_true, IH. split.
      * intros [-> [r ->]]. exists r. by rewrite app_cons.
      * intros [r Hr]. rewrite app_cons in Hr. injection Hr as -> ->. eauto.
Qed.

Lemma includes_spec (s x : string) :
  includes s x = true ↔ ∃ l r, s = l +:+ x +:+ r.
Proof.
  induction s as [|c s IH].
  - cbn [includes]. rewrite orb_false_r, startsWith_spec. split.
    + intros [r Hr]. by exists "", r.
    + intros [l [r Hr]]. destruct l as [|a l]; [by exists r|].
      rewrite app_cons in Hr. discriminate.
  - cbn [includes]. rewrite orb_true_iff, IH, startsWith_spec. split.
    + intros [[r Hr]|[l [r Hr]]].
      * by exists "", r.
      * exists (String c l), r. by rewrite app_cons, Hr.
    + intros [l [r Hr]]. destruct l as [|a l].
      * left. by exists r.
      * right. rewrite app_cons in Hr. injection Hr as -> ->. eauto.
Qed.

Lemma endsWith_spec (s x : string) :
  endsWith s x = true ↔ ∃ l, s = l +:+ x.
Proof.
  induction s as [|c s IH].
  - cbn [endsWith]. rewrite orb_false_r, bool_decide_eq_true. split.
    + intros <-. by exists "".
    + intros [l Hl]. destruct l as [|a l]; [done|].
      rewrite app_cons in Hl. discriminate.
  - cbn [endsWith]. rewrite orb_true_iff, bool_decide_eq_true, IH. split.
    + intros [<-|[l ->]].
      * by exists "".
      * exists (String c l). by rewrite app_cons.
    + intros [l Hl]. destruct l as [|a l].
      * by left.
      * right. rewrite app_cons in Hl. injection Hl as -> ->. eauto.
Qed.

(** A text that includes [y] includes every suffix of [y]. *)
Lemma includes_suffix (s y x : string) :
  includes s y = true → endsWith y x = true → includes s x = true.
Proof.
  rewrite !includes_spec, endsWith_spec. intros [l [r ->]] [l' ->].
  exists (l +:+ l'), r. by rewrite !app_assoc.
Qed.

Lemma includes_false_suffix (s y x : string) :
  includes s x = false → endsWith y x = true → includes s y = false.
Proof.
  intros Hx Hy. destruct (includes s y) eqn:E; [|done].
  by rewrite (includes_suffix _ _ _ E Hy) in Hx.
Qed.

(** [trim] gives the empty text exactly on the texts of white space. *)
Lemma trimStart_whitespaceOnly (s : string) :
  whitespaceOnly s = true → trimStart s = "".
Proof.
  induction s as [|c s IH]; [done|]. simpl.
  intros [Hc Hs]%andb_true_iff. rewrite Hc. auto.
Qed.

Lemma trimEnd_empty (s : string) : trimEnd s = "" → whitespaceOnly s = true.
Proof.
  induction s as [|c s IH]; [done|]. simpl.
  destruct (isWhiteSpace c); simpl; [|done].
  destruct (trimEnd s) eqn:E; simpl; [auto|done].
Qed.

Lemma whitespaceOnly_trimStart (s : string) :
  whitespaceOnly (trimStart s) = true → whitespaceOnly s = true.
Proof.
  induction s as [|c s IH]; [done|]. simpl.
  destruct (isWhiteSpace c) eqn:E; simpl; [auto|]. by rewrite E.
Qed.

Lemma trim_empty (s : string) : trim s = "" ↔ whitespaceOnly s = true.
Proof.
  unfold trim. split.
  - intros H. by apply whitespaceOnly_trimStart, trimEnd_empty.
  - intros H. by rewrite trimStart_whitespaceOnly.
Qed.

End JsFacts.

(** ** The access-level resolver *)

Module ResolverFacts.
Import Js AccessLevelBootstrap.

(** [indexOf] over [ACCESS_LEVELS] is the rank of a level, and -1 on what is
    not a level. *)
Lemma indexOf_level (l : AccessLevel) :
  indexOf ACCESS_LEVELS (Level l) = Z.of_nat (rank l).
Proof. by destruct l. Qed.

Lemma indexOf_inherited (m : string) : indexOf ACCESS_LEVELS (Inherited m) = -1.
Proof. reflexivity. Qed.

(** C6. Over the ordering public < household < trusted < family < private,
    [canAccess level required] is true exactly when the rank of [level] is
    at least the rank of [required]; so [canAccess] is reflexive, and
    monotonic: what a level can access at [r1] it can access at every
    [r2] of rank at most that of [r1]. *)
Theorem canAccess_rank :
  (∀ level required : AccessLevel,
     canAccess (Level level) (Level required) = true
     ↔ (rank required ≤ rank level)%nat)
  ∧ (∀ l : AccessLevel, canAccess (Level l) (Level l) = true)
  ∧ (∀ l r1 r2 : AccessLevel,
       canAccess (Level l) (Level r1) = true →
       (rank r2 ≤ rank r1)%nat →
       canAccess (Level l) (Level r2) = true).
Proof.
  assert (Hiff : ∀ level required : AccessLevel,
             canAccess (Level level) (Level required) = true
             ↔ (rank required ≤ rank level)%nat).
  { intros level required. unfold canAccess.
    rewrite !indexOf_level, Z.geb_le. lia. }
  split; [exact Hiff|]. split.
  - intros l. by apply Hiff.
  - intros l r1 r2 H1 H2. apply Hiff. apply Hiff in H1. lia.
Qed.

(** A value that is not a level can access nothing that is a level. *)
Lemma canAccess_inherited (m : string) (l : AccessLevel) :
  canAccess (Inherited m) (Level l) = false.
Proof. by destruct l. Qed.

Lemma USER_ACCESS_MAP_lookup (i : string) (l : AccessLevel) :
  USER_ACCESS_MAP !! i = Some l ↔ i = "192802611" ∧ l = private.
Proof.
  unfold USER_ACCESS_MAP. rewrite lookup_singleton_Some.
  split; intros [? ?]; by subst.
Qed.

(** Where the id segment does not name a member of [Object.prototype], the
    code follows the rules of the specification. *)
Lemma deriveAccessLevel_rules (sessionKey : string) :
  (∀ i, split ":" sessionKey !! 4%nat = Some i → i ∉ Object_prototype_members) →
  deriveAccessLevel sessionKey = Level (resolveByRules sessionKey).
Proof.
  intros Hid. unfold deriveAccessLevel, resolveByRules.
  case_bool_decide; [done|]. case_bool_decide; [done|].
  unfold knownUser.
  destruct (bool_decide (split ":" sessionKey !! 3%nat = Some "dm")) eqn:Hdm;
    simpl; [|by repeat case_bool_decide].
  destruct (split ":" sessionKey !! 4%nat) as [i|] eqn:Hi; simpl;
    [|by repeat case_bool_decide].
  unfold USER_ACCESS_MAP_read.
  destruct (USER_ACCESS_MAP !! i) as [l|] eqn:Hl.
  - apply USER_ACCESS_MAP_lookup in Hl as [-> ->]. done.
  - rewrite (bool_decide_eq_false_2 (i ∈ _)) by auto.
    destruct (negb (isEmpty i)); by repeat case_bool_decide.
Qed.

(** So a key that is not the main session, whose id is neither in the
    table nor a member of [Object.prototype], resolves to [public], or to
    [trusted] when its type segment is "group". *)
Lemma deriveAccessLevel_unknown (sessionKey : string) :
  sessionKey ≠ "agent:main:main" →
  (∀ i, split ":" sessionKey !! 4%nat = Some i →
        (i ∉ Object_prototype_members) ∧ (USER_ACCESS_MAP !! i = None)) →
  deriveAccessLevel sessionKey =
    Level (if bool_decide ((4 ≤ List.length (split ":" sessionKey))%nat
                           ∧ split ":" sessionKey !! 3%nat = Some "group")
           then trusted else public).
Proof.
  intros Hmain Hid. rewrite deriveAccessLevel_rules by (intros i Hi; by apply Hid).
  f_equal. unfold resolveByRules.
  rewrite (bool_decide_eq_false_2 (sessionKey = _)) by done.
  destruct (decide (List.length (split ":" sessionKey) < 4)%nat) as [Hlen|Hlen].
  { rewrite (bool_decide_eq_true_2 _ Hlen).
    rewrite bool_decide_eq_false_2; [done|]. intros [? _]. lia. }
  rewrite (bool_decide_eq_false_2 _ Hlen).
  assert (Htab : (if bool_decide (split ":" sessionKey !! 3%nat = Some "dm")
                  then split ":" sessionKey !! 4%nat ≫= (USER_ACCESS_MAP !!.)
                  else None) = None).
  { case_bool_decide; [|done].
    destruct (split ":" sessionKey !! 4%nat) as [i|] eqn:Hi; [|done].
    simpl. by apply Hid. }
  rewrite Htab.
  destruct (decide (split ":" sessionKey !! 3%nat = Some "group")) as [Hg|Hg].
  - rewrite (bool_decide_eq_true_2 _ Hg).
    rewrite bool_decide_eq_true_2; [done|]. split; [lia|done].
  - rewrite (bool_decide_eq_false_2 _ Hg).
    rewrite (bool_decide_eq_false_2 (_ ∧ _)) by (intros [_ ?]; done).
    by case_bool_decide.
Qed.

(** For every session key whose id segment is not the name of a member of
    [Object.prototype], the resolver returns one of the five levels, the one
    the priority rules give: private for the main session, public for fewer
    than four segments, the level of the table for a "dm" key whose id is in
    the table, trusted for a "group" key, public otherwise.  So, when such a
    key is not the main session and its id is not in the table, the level is
    public, or trusted for a "group" key. *)
Theorem resolver_priority_rules (sessionKey : string) :
  (∀ i, split ":" sessionKey !! 4%nat = Some i → i ∉ Object_prototype_members) →
  deriveAccessLevel sessionKey = Level (resolveByRules sessionKey)
  ∧ (sessionKey ≠ "agent:main:main" →
     (∀ i, split ":" sessionKey !! 4%nat = Some i → USER_ACCESS_MAP !! i = None) →
     deriveAccessLevel sessionKey =
       Level (if bool_decide ((4 ≤ List.length (split ":" sessionKey))%nat
                              ∧ split ":" sessionKey !! 3%nat = Some "group")
              then trusted else public)).
Proof.
  intros Hid. split; [by apply deriveAccessLevel_rules|].
  intros Hmain Htab. apply deriveAccessLevel_unknown; [done|].
  intros i Hi. split; [by apply Hid|by apply Htab].
Qed.

(** The known user. *)
Lemma resolver_priority_rules_witness :
  deriveAccessLevel "agent:main:telegram:dm:192802611" = Level private.
Proof.
  refine (proj1 (resolver_priority_rules "agent:main:telegram:dm:192802611" _)).
  intros i [= <-]. vm_compute. intros H.
  repeat (apply elem_of_cons in H as [H|H]; [discriminate H|]).
  by apply elem_of_nil in H.
Defined.

(** C1. On the session key "agent:main:telegram:dm:constructor", which is
    not the main session and whose id is no key of the lookup table, the
    resolver returns the member [constructor] that the table inherits from
    [Object.prototype]: a value that is none of the five levels. *)
Theorem deriveAccessLevel_constructor :
  USER_ACCESS_MAP !! "constructor" = None
  ∧ deriveAccessLevel "agent:main:telegram:dm:constructor" = Inherited "constructor"
  ∧ (∀ l : AccessLevel,
       deriveAccessLevel "agent:main:telegram:dm:constructor" ≠ Level l)
  ∧ resolveByRules "agent:main:telegram:dm:constructor" = public.
Proof.
  assert (H : deriveAccessLevel "agent:main:telegram:dm:constructor"
              = Inherited "constructor") by (vm_compute; reflexivity).
  split; [vm_compute; reflexivity|]. split; [exact H|]. split.
  - intros l. rewrite H. discriminate.
  - vm_compute. reflexivity.
Qed.

End ResolverFacts.

(** ** The bootstrap hook *)

Module HookFacts.
Import Js AccessLevelBootstrap.

Ltac run_eff :=
  unfold Js.bind, Js.get, Js.put, Js.modify, Js.lift, Js.ret, Js.throw; simpl.

Lemma wellTyped_filePath (file : BootstrapFile) :
  wellTyped file = true → filePath file = Normal (Some (pathOf file)).
Proof. by destruct file as [p|[p|] r|]. Qed.

Lemma keepFile_typed (level : LevelValue) (file : BootstrapFile) :
  wellTyped file = true → keepFile level file = Normal (keepPath level (pathOf file)).
Proof. by destruct file as [p|[p|] r|]. Qed.

Lemma keepFile_normal (level : LevelValue) (file : BootstrapFile) (b : bool) :
  keepFile level file = Normal b → wellTyped file = true.
Proof. by destruct file as [p|[p|] r|]. Qed.

(** The filter returns only when every entry has a string for its path, and
    then it keeps the entries [keepPath] accepts. *)
Lemma filterC_keepFile_typed (level : LevelValue) (files : list BootstrapFile) :
  forallb wellTyped files = true →
  filterC (keepFile level) files
  = Normal (List.filter (λ file, keepPath level (pathOf file)) files).
Proof.
  induction files as [|f files IH]; [done|]. simpl.
  intros [Hf Hfs]%andb_true_iff.
  rewrite (keepFile_typed _ _ Hf), (IH Hfs). simpl.
  by destruct (keepPath level (pathOf f)).
Qed.

Lemma filterC_keepFile_normal (level : LevelValue) (files kept : list BootstrapFile) :
  filterC (keepFile level) files = Normal kept → forallb wellTyped files = true.
Proof.
  revert kept. induction files as [|f files IH]; intros kept; [done|]. simpl.
  destruct (keepFile level f) as [b|e] eqn:Hf; simpl; [|done].
  destruct (filterC (keepFile level) files) as [r|e] eqn:Hr; simpl; [|done].
  intros _. rewrite (keepFile_normal _ _ _ Hf). simpl. by apply (IH r).
Qed.

Lemma forallb_wellTyped_filter (P : BootstrapFile → bool) (files : list BootstrapFile) :
  forallb wellTyped files = true → forallb wellTyped (List.filter P files) = true.
Proof.
  induction files as [|f files IH]; [done|]. simpl.
  intros [Hf Hfs]%andb_true_iff. destruct (P f); simpl; [rewrite Hf|]; auto.
Qed.

Lemma mapC_filePath_typed (files : list BootstrapFile) :
  forallb wellTyped files = true →
  mapC filePath files = Normal (map (λ file, Some (pathOf file)) files).
Proof.
  induction files as [|f files IH]; [done|]. simpl.
  intros [Hf Hfs]%andb_true_iff.
  by rewrite (wellTyped_filePath _ Hf), (IH Hfs).
Qed.

Lemma someC_pathIncludes_typed (x : string) (files : list BootstrapFile) :
  someC (pathIncludes x) (map (λ file, Some (pathOf file)) files)
  = Normal (existsb (λ file, includes (pathOf file) x) files).
Proof.
  induction files as [|f files IH]; [done|]. simpl.
  destruct (includes (pathOf f) x); simpl; [done|]. apply IH.
Qed.

(** A scan that found nothing has met strings only, so no later scan of the
    same paths throws. *)
Lemma someC_false_total (x y : string) (paths : list (option string)) :
  someC (pathIncludes x) paths = Normal false →
  ∃ b, someC (pathIncludes y) paths = Normal b.
Proof.
  induction paths as [|[p|] paths IH]; simpl; [by eauto| |done].
  destruct (includes p x); simpl; [done|]. intros H.
  destruct (includes p y); simpl; eauto.
Qed.

Section WithHost.
Variable host : Host.
Variables now dayAgo : string.

(** On entries that all carry a string path the [try] block runs to its
    end: it keeps the candidates of the level, then adds the daily file of
    today and that of yesterday, each unless a kept path includes it. *)
Lemma tryBlock_typed (sessionKey workspaceDir : string) (files : list BootstrapFile) :
  forallb wellTyped files = true →
  tryBlock host now dayAgo sessionKey workspaceDir files
  = (Normal tt,
     let level := deriveAccessLevel sessionKey in
     let kept := retained level files in
     kept ++ dailyIfAbsent host workspaceDir level now kept
          ++ dailyIfAbsent host workspaceDir level dayAgo kept).
Proof.
  intros Hty. unfold tryBlock, retained, dailyIfAbsent.
  set (level := deriveAccessLevel sessionKey).
  assert (Hstep : ∀ kept, forallb wellTyped kept = true →
    (files0 <- Js.get ;;
     existingPaths <- Js.lift (mapC filePath files0) ;;
     hasToday <- Js.lift (someC (pathIncludes (dailyPath host level now)) existingPaths) ;;
     (if negb hasToday then
        Js.modify (λ fs, fs ++ [dailyEntry host workspaceDir (dailyPath host level now)])
      else Js.ret tt) ;;;
     hasYesterday <- Js.lift (someC (pathIncludes (dailyPath host level dayAgo)) existingPaths) ;;
     (if negb hasYesterday then
        Js.modify (λ fs, fs ++ [dailyEntry host workspaceDir (dailyPath host level dayAgo)])
      else Js.ret tt)) kept
    = (Normal tt,
       kept ++ (if existsb (λ file, includes (pathOf file) (dailyPath host level now)) kept
                then [] else [dailyEntry host workspaceDir (dailyPath host level now)])
            ++ (if existsb (λ file, includes (pathOf file) (dailyPath host level dayAgo)) kept
                then [] else [dailyEntry host workspaceDir (dailyPath host level dayAgo)]))).
  { intros kept Hk. run_eff.
    rewrite (mapC_filePath_typed _ Hk), !someC_pathIncludes_typed.
    destruct (existsb _ kept); simpl; destruct (existsb _ kept); simpl;
      by rewrite ?app_nil_r, <- ?app_assoc. }
  unfold Js.bind at 1.
  destruct (bool_decide (level ≠ Level private)) eqn:Hlvl.
  - run_eff. rewrite (filterC_keepFile_typed _ _ Hty).
    apply Hstep. by apply forallb_wellTyped_filter.
  - run_eff. by apply Hstep.
Qed.

(** Whenever the [try] block throws, [context.bootstrapFiles] is still the
    list the caller supplied. *)
Lemma tryBlock_throw_untouched (sessionKey workspaceDir : string)
    (files : list BootstrapFile) :
  isThrow (tryBlock host now dayAgo sessionKey workspaceDir files).1 = true →
  (tryBlock host now dayAgo sessionKey workspaceDir files).2 = files.
Proof.
  destruct (forallb wellTyped files) eqn:Hty.
  { by rewrite tryBlock_typed. }
  clear Hty. unfold tryBlock.
  set (level := deriveAccessLevel sessionKey).
  unfold Js.bind at 1.
  destruct (bool_decide (level ≠ Level private)) eqn:Hlvl.
  - run_eff.
    destruct (filterC (keepFile level) files) as [kept|e] eqn:Hf; simpl; [|done].
    pose proof (filterC_keepFile_normal _ _ _ Hf) as Hty.
    rewrite (filterC_keepFile_typed _ _ Hty) in Hf. injection Hf as <-.
    rewrite (mapC_filePath_typed _ (forallb_wellTyped_filter _ _ Hty)).
    rewrite !someC_pathIncludes_typed.
    destruct (existsb _ _); simpl; destruct (existsb _ _); simpl; done.
  - run_eff.
    destruct (mapC filePath files) as [paths|e]; simpl; [|done].
    destruct (someC (pathIncludes (dailyPath host level now)) paths)
      as [[|]|e] eqn:Ht; simpl; [| |done].
    + destruct (someC (pathIncludes (dailyPath host level dayAgo)) paths)
        as [[|]|e]; simpl; done.
    + destruct (someC_false_total _ (dailyPath host level dayAgo) _ Ht) as [b ->].
      simpl. by destruct b.
Qed.

(** The hook never throws. *)
Lemma handler_returns (event : HookEvent) :
  (handler host now dayAgo event).1 = Normal tt.
Proof.
  unfold handler.
  destruct (negb _ || negb _); [done|].
  destruct (ctx_workspaceDir (ev_context event)) as [ws|]; [|done].
  destruct (ctx_bootstrapFiles (ev_context event)) as [files|]; [|done].
  destruct (isEmpty ws); [done|].
  unfold tryCatch.
  destruct (tryBlock host now dayAgo (sessionKeyOf event) ws files) as [[[]|e] files'];
    done.
Qed.

Lemma handler_bootstrapEvent (sessionKey workspaceDir : string)
    (files : list BootstrapFile) :
  workspaceDir ≠ "" →
  handler host now dayAgo (bootstrapEvent sessionKey workspaceDir files)
  = (Normal tt,
     bootstrapContext workspaceDir
       (tryBlock host now dayAgo sessionKey workspaceDir files).2).
Proof.
  intros Hws. unfold handler, bootstrapEvent. simpl.
  assert (Hkey : sessionKeyOf
            {| ev_type := "agent"; ev_action := "bootstrap";
               ev_sessionKey := Some sessionKey;
               ev_context := bootstrapContext workspaceDir files |} = sessionKey).
  { unfold sessionKeyOf, orElse. simpl. by destruct sessionKey. }
  rewrite Hkey.
  destruct workspaceDir as [|c ws]; [done|]. simpl.
  unfold tryCatch.
  destruct (tryBlock host now dayAgo sessionKey (String c ws) files) as [[[]|e] files'];
    done.
Qed.

Lemma dailyIfAbsent_spec (workspaceDir : string) (level : LevelValue) (iso : string)
    (existing : list BootstrapFile) :
  (dailyIfAbsent host workspaceDir level iso existing
     = [dailyEntry host workspaceDir (dailyPath host level iso)]
   ∧ ∀ file, file ∈ existing → includes (pathOf file) (dailyPath host level iso) = false)
  ∨ (dailyIfAbsent host workspaceDir level iso existing = []
     ∧ ∃ file, file ∈ existing ∧ includes (pathOf file) (dailyPath host level iso) = true).
Proof.
  unfold dailyIfAbsent.
  destruct (existsb _ existing) eqn:E.
  - right. split; [done|]. apply existsb_exists in E as [f [Hin Hf]].
    exists f. by rewrite list_elem_of_In.
  - left. split; [done|]. intros f Hin%list_elem_of_In.
    destruct (includes (pathOf f) _) eqn:Hf; [|done].
    assert (existsb (λ file, includes (pathOf file) (dailyPath host level iso)) existing
            = true) as E' by (apply existsb_exists; eauto).
    congruence.
Qed.

(** C2. With the level resolved to trusted and the candidates
    memory/private/MEMORY.md, memory/family/notes.md and
    memory/public/info.md, the hook leaves memory/public/info.md followed by
    the daily files of today and of yesterday under memory/trusted.  In
    general, over candidates with string paths, the hook leaves the kept
    candidates followed by the daily file of today and that of yesterday,
    each added exactly when no kept path includes its relative path. *)
Theorem bootstrap_trusted_scenario (sessionKey workspaceDir : string) :
  (∀ dir d, endsWith (path_join host [dir; d +:+ "-daily.md"]) "-daily.md" = true) →
  workspaceDir ≠ "" →
  deriveAccessLevel sessionKey = Level trusted →
  handler host now dayAgo
    (bootstrapEvent sessionKey workspaceDir
       [FileStr "memory/private/MEMORY.md"; FileStr "memory/family/notes.md";
        FileStr "memory/public/info.md"])
  = (Normal tt,
     bootstrapContext workspaceDir
       [FileStr "memory/public/info.md";
        dailyEntry host workspaceDir
          (path_join host ["memory/trusted"; isoDate now +:+ "-daily.md"]);
        dailyEntry host workspaceDir
          (path_join host ["memory/trusted"; isoDate dayAgo +:+ "-daily.md"])])
  ∧ ∀ (key : string) (files : list BootstrapFile),
      forallb wellTyped files = true →
      let level := deriveAccessLevel key in
      let kept := retained level files in
      handler host now dayAgo (bootstrapEvent key workspaceDir files)
      = (Normal tt,
         bootstrapContext workspaceDir
           (kept ++ dailyIfAbsent host workspaceDir level now kept
                 ++ dailyIfAbsent host workspaceDir level dayAgo kept))
      ∧ ∀ iso,
          (dailyIfAbsent host workspaceDir level iso kept
             = [dailyEntry host workspaceDir (dailyPath host level iso)]
           ∧ ∀ file, file ∈ kept →
                     includes (pathOf file) (dailyPath host level iso) = false)
          ∨ (dailyIfAbsent host workspaceDir level iso kept = []
             ∧ ∃ file, file ∈ kept
                       ∧ includes (pathOf file) (dailyPath host level iso) = true).
Proof.
  intros Hjoin Hws Hlevel. split.
  - rewrite (handler_bootstrapEvent _ _ _ Hws), tryBlock_typed by done.
    cbv zeta. rewrite Hlevel.
    change (retained (Level trusted) _) with [FileStr "memory/public/info.md"].
    assert (Hno : ∀ iso,
      dailyIfAbsent host workspaceDir (Level trusted) iso [FileStr "memory/public/info.md"]
      = [dailyEntry host workspaceDir
           (path_join host ["memory/trusted"; isoDate iso +:+ "-daily.md"])]).
    { intros iso. unfold dailyIfAbsent.
      assert (existsb (λ file, includes (pathOf file) (dailyPath host (Level trusted) iso))
                [FileStr "memory/public/info.md"] = false) as ->; [|done].
      change (includes "memory/public/info.md" (dailyPath host (Level trusted) iso)
              || false = false).
      rewrite orb_false_r.
      apply (JsFacts.includes_false_suffix _ _ "-daily.md"); [done|apply Hjoin]. }
    by rewrite !Hno.
  - intros key files Hty level kept. split.
    + by rewrite (handler_bootstrapEvent _ _ _ Hws), tryBlock_typed.
    + intros iso. apply dailyIfAbsent_spec.
Qed.

(** C7. On every event for which the [try] block of the hook throws, during
    the resolution of the level, the filtering or the injection, the hook
    still returns normally, and the context it leaves is the one it was
    given: the caller goes on with the unfiltered list of bootstrap files. *)
Theorem handler_fail_open (event : HookEvent) :
  tryBlockThrows host now dayAgo event = true →
  handler host now dayAgo event = (Normal tt, ev_context event).
Proof.
  unfold tryBlockThrows, handler.
  destruct (bool_decide (ev_type event = "agent")); [|done].
  destruct (bool_decide (ev_action event = "bootstrap")); [|done]. simpl.
  destruct (ev_context event) as [k [ws|] [files|]] eqn:Hctx; simpl; try done.
  destruct (isEmpty ws); simpl; [done|].
  intros Hthrow. pose proof (tryBlock_throw_untouched _ _ _ Hthrow) as Hsame.
  unfold tryCatch.
  destruct (tryBlock host now dayAgo (sessionKeyOf event) ws files) as [[[]|e] files'];
    simpl in *; [done|]. by subst.
Qed.

Lemma keepPath_not_MEMORY_md (level : LevelValue) (path : string) :
  keepPath level path = true → endsWith path "MEMORY.md" = false.
Proof. unfold keepPath. by destruct (endsWith path "MEMORY.md"). Qed.

(** C10, as the code has it.  When the context has a workspace directory
    and every candidate is a string or has a string path, the hook leaves
    the candidates it keeps and the daily files; for a session whose level
    does not resolve to private, no candidate whose path ends with
    MEMORY.md is among those it keeps, whatever its directory; for a
    private session every candidate is kept.  The rule is stricter than
    the rule on directories: a family level, which can access
    memory/family/ and keeps memory/family/notes.md, still loses
    memory/family/MEMORY.md. *)
Theorem non_private_loses_MEMORY_md (sessionKey workspaceDir : string)
    (files : list BootstrapFile) :
  workspaceDir ≠ "" →
  forallb wellTyped files = true →
  let level := deriveAccessLevel sessionKey in
  handler host now dayAgo (bootstrapEvent sessionKey workspaceDir files)
  = (Normal tt,
     bootstrapContext workspaceDir
       (retained level files
          ++ dailyIfAbsent host workspaceDir level now (retained level files)
          ++ dailyIfAbsent host workspaceDir level dayAgo (retained level files)))
  ∧ (level ≠ Level private →
       ∀ file, file ∈ retained level files ↔
               file ∈ files ∧ keepPath level (pathOf file) = true)
  ∧ (level ≠ Level private →
       ∀ file, file ∈ files → endsWith (pathOf file) "MEMORY.md" = true →
               file ∉ retained level files)
  ∧ (level = Level private → retained level files = files)
  ∧ (canAccess (Level family) (Level family) = true
     ∧ keepPath (Level family) "memory/family/notes.md" = true
     ∧ keepPath (Level family) "memory/family/MEMORY.md" = false).
Proof.
  intros Hws Hty level.
  assert (Hkept : level ≠ Level private →
            ∀ file, file ∈ retained level files ↔
                    file ∈ files ∧ keepPath level (pathOf file) = true).
  { intros Hl file. unfold retained. rewrite bool_decide_eq_true_2 by done.
    by rewrite !list_elem_of_In, filter_In. }
  split; [by rewrite (handler_bootstrapEvent _ _ _ Hws), tryBlock_typed|].
  split; [exact Hkept|]. split; [|split].
  - intros Hl file Hin Hend [_ Hkeep]%Hkept; [|done].
    apply keepPath_not_MEMORY_md in Hkeep. congruence.
  - intros Hl. unfold retained. by rewrite bool_decide_eq_false_2 by (by intros ?).
  - by vm_compute.
Qed.

End WithHost.

Lemma posixHost_join_daily (dir d : string) :
  endsWith (path_join Samples.posixHost [dir; d +:+ "-daily.md"]) "-daily.md" = true.
Proof.
  apply JsFacts.endsWith_spec. exists (dir +:+ "/" +:+ d).
  simpl. unfold Js.join. simpl. by rewrite !JsFacts.app_assoc.
Qed.

(** A group session on a host with plain paths. *)
Lemma bootstrap_trusted_scenario_witness :
  handler Samples.posixHost "2026-02-05T10:00:00.000Z" "2026-02-04T10:00:00.000Z"
    (bootstrapEvent "agent:main:telegram:group:42" "/ws"
       [FileStr "memory/private/MEMORY.md"; FileStr "memory/family/notes.md";
        FileStr "memory/public/info.md"])
  = (Normal tt,
     bootstrapContext "/ws"
       [FileStr "memory/public/info.md";
        FileObj (Some "/ws/memory/trusted/2026-02-05-daily.md") "memory";
        FileObj (Some "/ws/memory/trusted/2026-02-04-daily.md") "memory"]).
Proof.
  refine (proj1 (bootstrap_trusted_scenario Samples.posixHost
                   "2026-02-05T10:00:00.000Z" "2026-02-04T10:00:00.000Z"
                   "agent:main:telegram:group:42" "/ws"
                   posixHost_join_daily _ _)).
  - discriminate.
  - vm_compute. reflexivity.
Defined.

(** An entry without a path makes the filter throw: the hook returns, and
    MEMORY.md is still in the list. *)
Lemma handler_fail_open_witness :
  handler Samples.posixHost "2026-02-05T10:00:00.000Z" "2026-02-04T10:00:00.000Z"
    (bootstrapEvent "agent:main:telegram:group:42" "/ws"
       [FileStr "MEMORY.md"; FileObj None "memory"])
  = (Normal tt, bootstrapContext "/ws" [FileStr "MEMORY.md"; FileObj None "memory"]).
Proof.
  refine (handler_fail_open Samples.posixHost
            "2026-02-05T10:00:00.000Z" "2026-02-04T10:00:00.000Z"
            (bootstrapEvent "agent:main:telegram:group:42" "/ws"
               [FileStr "MEMORY.md"; FileObj None "memory"]) _).
  vm_compute. reflexivity.
Defined.

(** A direct message from an unknown user. *)
Lemma non_private_loses_MEMORY_md_witness :
  FileStr "memory/family/MEMORY.md"
  ∉ retained (deriveAccessLevel "agent:main:telegram:dm:555")
      [FileStr "memory/family/MEMORY.md"; FileStr "memory/public/info.md"].
Proof.
  refine (proj1 (proj2 (proj2 (non_private_loses_MEMORY_md Samples.posixHost
            "2026-02-05T10:00:00.000Z" "2026-02-04T10:00:00.000Z"
            "agent:main:telegram:dm:555" "/ws"
            [FileStr "memory/family/MEMORY.md"; FileStr "memory/public/info.md"]
            _ _))) _ (FileStr "memory/family/MEMORY.md") _ _).
  - discriminate.
  - reflexivity.
  - vm_compute. discriminate.
  - apply list_elem_of_here.
  - vm_compute. reflexivity.
Defined.

(** A group session, whose level is trusted, keeps MEMORY.md twice: without
    a workspace directory the hook skips the filter, and with a candidate
    that has no path the filter throws and the list stays as it was
    supplied. *)
Lemma non_private_keeps_MEMORY_md :
  deriveAccessLevel "agent:main:telegram:group:42" = Level trusted
  ∧ handler Samples.posixHost "2026-02-05T10:00:00.000Z" "2026-02-04T10:00:00.000Z"
      (bootstrapEvent "agent:main:telegram:group:42" ""
         [FileStr "memory/family/MEMORY.md"])
    = (Normal tt, bootstrapContext "" [FileStr "memory/family/MEMORY.md"])
  ∧ handler Samples.posixHost "2026-02-05T10:00:00.000Z" "2026-02-04T10:00:00.000Z"
      (bootstrapEvent "agent:main:telegram:group:42" "/ws"
         [FileStr "memory/family/MEMORY.md"; FileObj None "memory"])
    = (Normal tt,
       bootstrapContext "/ws"
         [FileStr "memory/family/MEMORY.md"; FileObj None "memory"]).
Proof. by vm_compute. Qed.

End HookFacts.

(** ** The file utilities *)

Module FsFacts.
Import Js Fs.

Ltac run_io :=
  unfold Js.bind, Js.tryCatch, Js.ret, Js.throw, Js.lift, ENOENT; simpl.

Lemma tmp_path_differs (path : string) : path +:+ ".tmp" ≠ path.
Proof.
  intros H. apply (f_equal String.length) in H.
  rewrite JsFacts.app_length in H. simpl in H. lia.
Qed.

(** While a file is filled, every other file keeps its content. *)
Lemma fill_elsewhere (p q base content : string) (d : Disk) (s : gmap string string) :
  q ≠ p →
  s ∈ files (fill p base content d)
      :: reverse ((λ x, <[p := base +:+ x]> (files d)) <$> prefixes content) →
  s !! q = files d !! q.
Proof.
  intros Hne [->|Hin]%elem_of_cons.
  - simpl. by rewrite lookup_insert_ne.
  - apply elem_of_reverse, list_elem_of_fmap in Hin as [x [-> _]].
    by rewrite lookup_insert_ne.
Qed.

(** [safeReadFile] and [fileExists] read the store and leave it as it is. *)
Lemma safeReadFile_run (path : string) (d : Disk) :
  safeReadFile path d = (Normal (files d !! path), d).
Proof. unfold safeReadFile, readFile. run_io. by destruct (files d !! path). Qed.

Lemma fileExists_run (path : string) (d : Disk) :
  fileExists path d = (Normal (bool_decide (is_Some (files d !! path))), d).
Proof.
  unfold fileExists, stat. run_io. by destruct (files d !! path).
Qed.

Section WithHost.
Variable host : Host.
Variable now : string.

(** The temp file is written, then renamed over the target. *)
Lemma write_then_rename (path content : string) (d : Disk) :
  (writeFile (path +:+ ".tmp") content ;;; rename (path +:+ ".tmp") path) d
  = (Normal tt,
     {| files := <[path := content]>
                   (delete (path +:+ ".tmp") (<[path +:+ ".tmp" := content]> (files d)));
        history :=
          <[path +:+ ".tmp" := content]> (files d)
          :: reverse ((λ x, <[path +:+ ".tmp" := x]> (files d)) <$> prefixes content)
          ++ files d :: history d |}).
Proof.
  unfold writeFile, rename. run_io. by rewrite lookup_insert_eq.
Qed.

Lemma backupFile_run (path : string) (d : Disk) :
  backupFile host now path d
  = match files d !! path with
    | Some old => (Normal (Some (backupPathOf host now path)),
                   fill (backupPathOf host now path) "" old d)
    | None => (Normal None, d)
    end.
Proof.
  unfold backupFile, stat, copyFile, mkdir. run_io.
  destruct (files d !! path) as [old|] eqn:E; simpl; [|done].
  by rewrite E.
Qed.

(** What [atomicWrite] leaves on the disk. *)
Lemma atomicWrite_run (path content : string) (options : WriteOptions) (d : Disk) :
  atomicWrite host now path content options d
  = (writeFile (path +:+ ".tmp") content ;;; rename (path +:+ ".tmp") path)
      (if default false (backup options) then (backupFile host now path d).2 else d).
Proof.
  unfold atomicWrite, mkdir.
  destruct (default true (createDirs options));
    destruct (default false (backup options)); unfold Js.bind at 1 2; simpl;
    try reflexivity;
    unfold Js.bind at 1; destruct (backupFile host now path d) as [[o|e] d'] eqn:Hb;
    simpl; try reflexivity;
    rewrite backupFile_run in Hb; by destruct (files d !! path).
Qed.

(** Without options, [atomicWrite] is the write of the temp file and the
    rename. *)
Lemma atomicWrite_plain (path content : string) (d : Disk) :
  (atomicWrite host now path content noOptions d).1 = Normal tt
  ∧ files (atomicWrite host now path content noOptions d).2 !! path = Some content.
Proof.
  rewrite atomicWrite_run. simpl. rewrite write_then_rename. simpl.
  by rewrite lookup_insert_eq.
Qed.

(** C9. A write through [atomicWrite] first fills the temp file next to the
    target and then renames it over the target.  It succeeds, the target
    then holds the new content, and in every state of the disk that a
    reader can see before that, from the call on, the target is as it was
    before the call: a reader of the target sees the old file or the new
    one, while the partial contents (each proper prefix of the new content)
    show up in the temp file only. *)
Theorem atomicWrite_old_or_new (path content : string) (options : WriteOptions)
    (d : Disk) :
  (backup options = Some true → backupPathOf host now path ≠ path) →
  let r := atomicWrite host now path content options d in
  r.1 = Normal tt
  ∧ files r.2 !! path = Some content
  ∧ ∃ seen,
      history r.2 = seen ++ history d
      ∧ (∀ s, s ∈ seen → s !! path = files d !! path)
      ∧ (∀ p, p ∈ prefixes content →
              ∃ s, s ∈ seen ∧ s !! (path +:+ ".tmp") = Some p).
Proof.
  intros Hbackup r. subst r. rewrite atomicWrite_run.
  set (d1 := if default false (backup options)
             then (backupFile host now path d).2 else d).
  rewrite write_then_rename. simpl.
  assert (Hd1 : files d1 !! path = files d !! path
                ∧ ∃ seen1, history d1 = seen1 ++ history d
                           ∧ ∀ s, s ∈ seen1 → s !! path = files d !! path).
  { subst d1. destruct (backup options) as [[|]|] eqn:Hb; simpl;
      try (split; [done|]; exists []; split; [done|]; intros s Hs; by inversion Hs).
    rewrite backupFile_run.
    destruct (files d !! path) as [old|] eqn:Hold; simpl;
      [|split; [done|]; exists []; split; [done|]; intros s Hs; by inversion Hs].
    specialize (Hbackup eq_refl).
    split; [by rewrite lookup_insert_ne|].
    exists (reverse ((λ x, <[backupPathOf host now path := "" +:+ x]> (files d))
                         <$> prefixes old) ++ [files d]).
    split; [by rewrite <- app_assoc|].
    intros s [Hs|Hs%list_elem_of_singleton]%elem_of_app; [|by subst].
    apply elem_of_reverse, list_elem_of_fmap in Hs as [x [-> _]].
    rewrite lookup_insert_ne by done. done. }
  destruct Hd1 as [Hpath [seen1 [Hh1 Hseen1]]].
  pose proof (tmp_path_differs path) as Htmp.
  split; [done|]. split; [by rewrite lookup_insert_eq|].
  exists ((<[path +:+ ".tmp" := content]> (files d1)
           :: reverse ((λ x, <[path +:+ ".tmp" := x]> (files d1)) <$> prefixes content)
           ++ [files d1]) ++ seen1).
  split; [|split].
  - rewrite Hh1. simpl. by rewrite <- !app_assoc.
  - intros s [Hs|Hs]%elem_of_app; [|by apply Hseen1].
    rewrite <- Hpath.
    apply elem_of_cons in Hs as [->|[Hs|Hs%list_elem_of_singleton]%elem_of_app].
    + by rewrite lookup_insert_ne.
    + apply elem_of_reverse, list_elem_of_fmap in Hs as [x [-> _]].
      by rewrite lookup_insert_ne.
    + by subst.
  - intros p Hp. exists (<[path +:+ ".tmp" := p]> (files d1)). split.
    + apply elem_of_app. left. apply elem_of_cons. right.
      apply elem_of_app. left. apply elem_of_reverse, list_elem_of_fmap. eauto.
    + by rewrite lookup_insert_eq.
Qed.

(** For contrast, a plain [writeFile] on the target shows its readers every
    proper prefix of the new content. *)
Lemma writeFile_shows_prefixes (path content p : string) (d : Disk) :
  p ∈ prefixes content →
  ∃ s, s ∈ history (writeFile path content d).2 ∧ s !! path = Some p.
Proof.
  intros Hp. exists (<[path := p]> (files d)). split.
  - simpl. apply elem_of_app. left. apply elem_of_reverse, list_elem_of_fmap.
    exists p. by rewrite JsFacts.app_nil_l.
  - by rewrite lookup_insert_eq.
Qed.

End WithHost.

(** A write with a backup, over a file that exists. *)
Lemma atomicWrite_old_or_new_witness :
  files (atomicWrite Samples.posixHost "2026-02-05T10:00:00.000Z"
           "/ws/memory/state.json" "new content"
           {| backup := Some true; createDirs := None |}
           {| files := {[ "/ws/memory/state.json" := "old content" ]};
              history := [] |}).2
    !! "/ws/memory/state.json"
  = Some "new content".
Proof.
  refine (proj1 (proj2 (atomicWrite_old_or_new Samples.posixHost
            "2026-02-05T10:00:00.000Z" "/ws/memory/state.json" "new content"
            {| backup := Some true; createDirs := None |}
            {| files := {[ "/ws/memory/state.json" := "old content" ]};
               history := [] |} _))).
  intros _. vm_compute. discriminate.
Defined.

End FsFacts.

(** ** The task log *)

Module TaskFacts.
Import Js Fs TaskExecutor.

(** *** The replay *)

Lemma mapGet_mapSet_eq {V} (k : string) (v : V) (m : list (string * V)) :
  mapGet k (mapSet k v m) = Some v.
Proof.
  induction m as [|[k' v'] m IH]; simpl.
  - by rewrite bool_decide_eq_true_2.
  - case_bool_decide as Hk; simpl.
    + by rewrite bool_decide_eq_true_2.
    + by rewrite bool_decide_eq_false_2.
Qed.

Lemma mapGet_mapSet_ne {V} (k k0 : string) (v : V) (m : list (string * V)) :
  k ≠ k0 → mapGet k0 (mapSet k v m) = mapGet k0 m.
Proof.
  intros Hne. induction m as [|[k' v'] m IH]; simpl.
  - by rewrite bool_decide_eq_false_2.
  - case_bool_decide as Hk; simpl.
    + subst k'. by rewrite !bool_decide_eq_false_2.
    + case_bool_decide; [done|]. apply IH.
Qed.

Lemma mapSet_keys {V} (k k0 : string) (v : V) (m : list (string * V)) :
  k0 ∈ (mapSet k v m).*1 ↔ k0 = k ∨ k0 ∈ m.*1.
Proof.
  induction m as [|[k' v'] m IH]; simpl.
  - rewrite list_elem_of_singleton. split; [by left|].
    by intros [?|?%elem_of_nil].
  - case_bool_decide as Hk; simpl.
    + subst k'. rewrite !elem_of_cons. tauto.
    + rewrite !elem_of_cons, IH. tauto.
Qed.

Lemma mapSet_NoDup {V} (k : string) (v : V) (m : list (string * V)) :
  NoDup m.*1 → NoDup (mapSet k v m).*1.
Proof.
  induction m as [|[k' v'] m IH]; simpl.
  - intros _. apply NoDup_singleton.
  - intros [Hnot Hnd]%NoDup_cons. case_bool_decide as Hk; simpl.
    + by apply NoDup_cons.
    + apply NoDup_cons. split; [|auto].
      rewrite mapSet_keys. intros [->|?]; done.
Qed.

(** In a map without repeated keys, an entry is what [get] finds. *)
Lemma mapGet_Some {V} (k : string) (v : V) (m : list (string * V)) :
  NoDup m.*1 → (mapGet k m = Some v ↔ (k, v) ∈ m).
Proof.
  induction m as [|[k' v'] m IH]; simpl.
  - intros _. split; [done|]. by intros ?%elem_of_nil.
  - intros [Hnot Hnd]%NoDup_cons. rewrite elem_of_cons.
    case_bool_decide as Hk.
    + subst k'. split.
      * intros [= ->]. by left.
      * intros [[= ->]|Hin]; [done|].
        destruct Hnot. apply list_elem_of_fmap. by exists (k, v).
    + rewrite (IH Hnd). split; [by right|]. intros [[= -> ->]|?]; done.
Qed.

Lemma replay_snoc (tasks : list Task) (t : Task) :
  replay (tasks ++ [t]) = mapSet (id t) t (replay tasks).
Proof. unfold replay. by rewrite fold_left_app. Qed.

Lemma replay_NoDup (tasks : list Task) : NoDup (replay tasks).*1.
Proof.
  induction tasks as [|t tasks IH] using rev_ind.
  - apply NoDup_nil_2.
  - rewrite replay_snoc. by apply mapSet_NoDup.
Qed.

Lemma snoc_split {A} (l before after : list A) (x t : A) :
  l ++ [x] = before ++ t :: after →
  (after = [] ∧ l = before ∧ x = t)
  ∨ (∃ after', after = after' ++ [x] ∧ l = before ++ t :: after').
Proof.
  destruct after as [|a after _] using rev_ind.
  - intros H. left. by apply (app_inj_tail l before x t) in H as [-> ->].
  - intros H. right. exists after.
    rewrite app_comm_cons, app_assoc in H.
    by apply app_inj_tail in H as [-> ->].
Qed.

(** The entry the replay holds for an id is the record at the latest
    position among the records of the log with that id. *)
Lemma replay_latest (tasks : list Task) (i : string) (t : Task) :
  mapGet i (replay tasks) = Some t
  ↔ id t = i ∧ ∃ before after,
      tasks = before ++ t :: after ∧ Forall (λ t', id t' ≠ i) after.
Proof.
  induction tasks as [|x tasks IH] using rev_ind.
  - split; [done|]. intros [_ [before [after [H _]]]]. by destruct before.
  - rewrite replay_snoc. destruct (decide (id x = i)) as [Hx|Hx].
    + subst i. rewrite mapGet_mapSet_eq. split.
      * intros [= ->]. split; [done|]. exists tasks, []. by split.
      * intros [Hid [before [after [Hsplit Hafter]]]].
        apply snoc_split in Hsplit as [[_ [_ ->]]|[after' [-> _]]]; [done|].
        apply Forall_app in Hafter as [_ Hlast].
        rewrite Forall_singleton in Hlast. by destruct Hlast.
    + rewrite mapGet_mapSet_ne by done. rewrite IH. split.
      * intros [Hid [before [after [-> Hafter]]]]. split; [done|].
        exists before, (after ++ [x]). split; [by rewrite <- app_assoc|].
        apply Forall_app. split; [done|]. by apply Forall_singleton.
      * intros [Hid [before [after [Hsplit Hafter]]]]. split; [done|].
        apply snoc_split in Hsplit as [[_ [_ ->]]|[after' [-> ->]]]; [done|].
        exists before, after'. split; [done|].
        by apply Forall_app in Hafter as [? _].
Qed.

Lemma replay_key (tasks : list Task) (k : string) (t : Task) :
  (k, t) ∈ replay tasks → id t = k.
Proof.
  intros Hin. apply (mapGet_Some _ _ _ (replay_NoDup tasks)) in Hin.
  by apply replay_latest in Hin as [? _].
Qed.

Lemma getLatestTasks_elem (tasks : list Task) (t : Task) :
  t ∈ getLatestTasks tasks
  ↔ ∃ before after,
      tasks = before ++ t :: after ∧ Forall (λ t', id t' ≠ id t) after.
Proof.
  unfold getLatestTasks, mapValues. split.
  - intros [[k t'] [-> Hin]]%list_elem_of_fmap. simpl.
    pose proof (replay_key _ _ _ Hin) as <-.
    apply (mapGet_Some _ _ _ (replay_NoDup tasks)) in Hin.
    by apply replay_latest in Hin as [_ ?].
  - intros H. apply list_elem_of_fmap. exists (id t, t). split; [done|].
    apply (mapGet_Some _ _ _ (replay_NoDup tasks)). by apply replay_latest.
Qed.

Lemma getLatestTasks_NoDup (tasks : list Task) :
  NoDup (id <$> getLatestTasks tasks).
Proof.
  unfold getLatestTasks, mapValues.
  assert (H : id <$> (replay tasks).*2 = (replay tasks).*1).
  { rewrite <- list_fmap_compose. apply list_fmap_ext.
    intros n [k t] Hin%list_elem_of_lookup_2. simpl. by apply replay_key in Hin. }
  rewrite H. apply replay_NoDup.
Qed.

(** Of two records with one id at the end of a log, the listing holds the
    later one, and no other record with that id. *)
Lemma getLatestTasks_later (log : list Task) (u1 u2 : Task) :
  id u1 = id u2 →
  u2 ∈ getLatestTasks (log ++ [u1; u2])
  ∧ ∀ t, t ∈ getLatestTasks (log ++ [u1; u2]) → id t = id u2 → t = u2.
Proof.
  intros Hid. split.
  - apply getLatestTasks_elem. exists (log ++ [u1]), [].
    split; [by rewrite <- app_assoc|done].
  - intros t [before [after [Hsplit Hafter]]]%getLatestTasks_elem Ht.
    change (log ++ [u1; u2]) with (log ++ [u1] ++ [u2]) in Hsplit.
    rewrite app_assoc in Hsplit.
    apply snoc_split in Hsplit as [[_ [_ ->]]|[after' [-> _]]]; [done|].
    apply Forall_app in Hafter as [_ Hlast].
    rewrite Forall_singleton in Hlast. by destruct Hlast.
Qed.

(** *** Reading and updating the file *)

Section WithCodec.
Context `{JsonCodec Task}.
Variable now : string.

(** The loop of [readTasks] pushes the tasks of the lines that parse. *)
Lemma readTasks_loop (lines : list string) (acc : list Task) :
  fold_left (λ tasks line,
               match parse line with
               | Some task => tasks ++ [task]
               | None => tasks
               end) lines acc
  = acc ++ omap parse lines.
Proof.
  revert acc. induction lines as [|line lines IH]; intros acc; simpl.
  - by rewrite app_nil_r.
  - rewrite IH. destruct (parse line); [|done]. by rewrite <- app_assoc.
Qed.

Lemma readTasks_run (tasksPath : string) (d : Disk) :
  readTasks tasksPath d
  = (Normal match files d !! tasksPath with
            | Some content => omap parse (taskLines content)
            | None => []
            end, d).
Proof.
  unfold readTasks, readFile, Js.tryCatch, Js.bind, Js.ret, ENOENT, Js.throw.
  destruct (files d !! tasksPath) as [content|]; simpl; [|done].
  by rewrite readTasks_loop.
Qed.

Lemma updateTaskStatus_run (tasksPath taskId newStatus : string)
    (tasks : list Task) (d : Disk) :
  updateTaskStatus now tasksPath taskId newStatus tasks d
  = match List.find (λ t, bool_decide (id t = taskId)) tasks with
    | Some task =>
        (Normal tt,
         fill tasksPath (default "" (files d !! tasksPath))
              (stringify (withStatus now task newStatus) +:+ nl) d)
    | None => (Throw (Error ("Task not found: " +:+ taskId)), d)
    end.
Proof.
  unfold updateTaskStatus.
  by destruct (List.find (λ t, bool_decide (id t = taskId)) tasks).
Qed.

(** C3. The replay of a task log holds, for each id, the record at the
    latest position among the records with that id, once per id: a record
    is listed exactly when no record after it in the log shares its id.  A
    status update only appends one line, a copy of the task found under its
    id with the new status, so after two updates of one id both lines are in
    the file, in order, after what the file held, and the listing of a log
    that ends with two records of one id holds the later one.  On the log of
    a pending and then a completed record of id t1, the filter "pending"
    gives nothing and the filter "completed" gives the later record alone. *)
Theorem latest_by_position :
  (∀ tasks t,
     t ∈ getLatestTasks tasks
     ↔ ∃ before after,
         tasks = before ++ t :: after ∧ Forall (λ t', id t' ≠ id t) after)
  ∧ (∀ tasks, NoDup (id <$> getLatestTasks tasks))
  ∧ (∀ tasksPath taskId newStatus tasks d,
       match List.find (λ t, bool_decide (id t = taskId)) tasks with
       | Some task =>
           id (withStatus now task newStatus) = taskId
           ∧ status (withStatus now task newStatus) = newStatus
           ∧ updateTaskStatus now tasksPath taskId newStatus tasks d
             = (Normal tt,
                fill tasksPath (default "" (files d !! tasksPath))
                     (stringify (withStatus now task newStatus) +:+ nl) d)
       | None =>
           updateTaskStatus now tasksPath taskId newStatus tasks d
           = (Throw (Error ("Task not found: " +:+ taskId)), d)
       end)
  ∧ (∀ tasksPath taskId status1 status2 tasks task d,
       List.find (λ t, bool_decide (id t = taskId)) tasks = Some task →
       files ((updateTaskStatus now tasksPath taskId status1 tasks ;;;
               updateTaskStatus now tasksPath taskId status2 tasks) d).2
         !! tasksPath
       = Some ((default "" (files d !! tasksPath)
                +:+ (stringify (withStatus now task status1) +:+ nl))
               +:+ (stringify (withStatus now task status2) +:+ nl)))
  ∧ (∀ log u1 u2,
       id u1 = id u2 →
       u2 ∈ getLatestTasks (log ++ [u1; u2])
       ∧ ∀ t, t ∈ getLatestTasks (log ++ [u1; u2]) → id t = id u2 → t = u2)
  ∧ (∀ a b,
       id a = "t1" → id b = "t1" →
       status a = "pending" → status b = "completed" →
       filterByStatus (getLatestTasks [a; b]) (Some "pending") = []
       ∧ filterByStatus (getLatestTasks [a; b]) (Some "completed") = [b]).
Proof.
  split; [exact getLatestTasks_elem|].
  split; [exact getLatestTasks_NoDup|].
  split; [|split; [|split; [exact getLatestTasks_later|]]].
  - intros tasksPath taskId newStatus tasks d. rewrite updateTaskStatus_run.
    destruct (List.find _ tasks) as [task|] eqn:Hfind; [|done].
    apply find_some in Hfind as [_ Hid%bool_decide_eq_true]. done.
  - intros tasksPath taskId status1 status2 tasks task d Hfind.
    unfold Js.bind. rewrite updateTaskStatus_run, Hfind.
    rewrite updateTaskStatus_run, Hfind. simpl.
    by rewrite !lookup_insert_eq.
  - intros a b Ha Hb Hsa Hsb.
    assert (Hl : getLatestTasks [a; b] = [b]).
    { unfold getLatestTasks, replay. simpl.
      by rewrite bool_decide_eq_true_2 by congruence. }
    rewrite Hl. unfold filterByStatus. simpl. rewrite Hsb. done.
Qed.

End WithCodec.

(** The scenario on a disk: the log holds the pending and then the completed
    line of t1. *)
Example list_scenario :
  (@TaskExecutor.taskExecutor Samples.posixHost Samples.t1Codec (λ _, Js.ret "")
     "2026-02-05T10:00:00.000Z" (Samples.listing (Some "pending"))
     (Samples.diskWith "/ws/memory/tasks.jsonl" Samples.t1Log)).1
  = Normal {| TaskExecutor.success := true; TaskExecutor.tasks := Some [];
              TaskExecutor.executed := None; TaskExecutor.error := None |}
  ∧ (@TaskExecutor.taskExecutor Samples.posixHost Samples.t1Codec (λ _, Js.ret "")
       "2026-02-05T10:00:00.000Z" (Samples.listing (Some "completed"))
       (Samples.diskWith "/ws/memory/tasks.jsonl" Samples.t1Log)).1
    = Normal {| TaskExecutor.success := true;
                TaskExecutor.tasks := Some [Samples.completedT1];
                TaskExecutor.executed := None; TaskExecutor.error := None |}.
Proof. split; vm_compute; reflexivity. Qed.

End TaskFacts.

(** ** Reading a log with malformed lines *)

Module ReadFacts.
Import Js Fs.

Lemma omap_length_filter {A B} (f : A → option B) (l : list A) :
  List.length (omap f l)
  = List.length (List.filter (λ x, bool_decide (is_Some (f x))) l).
Proof.
  induction l as [|x l IH]; [done|]. simpl.
  destruct (f x) as [y|]; simpl; [f_equal|]; exact IH.
Qed.

Section WithCodecs.
Variable host : Host.
Context (taskJson : JsonCodec TaskExecutor.Task).
Context (diaryJson : JsonCodec Diary.DiaryEntry).
Variable sort : (Diary.DiaryEntry → Diary.DiaryEntry → option Z) →
                list Diary.DiaryEntry → list Diary.DiaryEntry.
Variable getTime : string → option Z.

(** The [map] of [diaryRead] throws as soon as a line does not parse. *)
Lemma mapC_parseLine_malformed (lines : list string) :
  Exists (λ line, @parse _ diaryJson line = None) lines →
  mapC Diary.parseLine lines = Throw SyntaxError.
Proof.
  induction 1 as [line lines Hl|line lines _ IH]; simpl; unfold Diary.parseLine at 1.
  - by rewrite Hl.
  - destruct (parse line); [|done]. simpl. by rewrite IH.
Qed.

Lemma mapC_parseLine_wellformed (lines : list string) :
  Forall (λ line, is_Some (@parse _ diaryJson line)) lines →
  mapC Diary.parseLine lines = Normal (omap parse lines).
Proof.
  induction 1 as [|line lines [e He] _ IH]; [done|]. simpl.
  unfold Diary.parseLine at 1. rewrite He. simpl. by rewrite IH.
Qed.

(** C4, as the code has it.  [readTasks] returns, in file order, the parsed
    values of the lines of the task log that parse, so as many tasks as the
    log has well-formed lines, and it throws on no content; a missing log
    reads as empty.  [diaryRead] skips nothing: it returns when every line
    of the diary parses, and one malformed line makes the whole read fail
    with the syntax error of the parser.  Neither touches the disk. *)
Theorem malformed_lines_tasks_skip_diary_throws :
  (∀ tasksPath d,
     TaskExecutor.readTasks tasksPath d
     = (Normal match files d !! tasksPath with
               | Some content => omap parse (TaskExecutor.taskLines content)
               | None => []
               end, d))
  ∧ (∀ content,
       List.length (omap (@parse _ taskJson) (TaskExecutor.taskLines content))
       = List.length (List.filter (λ line, bool_decide (is_Some (@parse _ taskJson line)))
                                  (TaskExecutor.taskLines content)))
  ∧ (∀ params d,
       files d !! Diary.DIARY_PATH host = None →
       Diary.diaryRead host sort getTime params d
       = (Normal {| Diary.entries := []; Diary.total := 0 |}, d))
  ∧ (∀ params d content,
       files d !! Diary.DIARY_PATH host = Some content →
       (Exists (λ line, @parse _ diaryJson line = None) (Diary.diaryLines content) →
        Diary.diaryRead host sort getTime params d = (Throw SyntaxError, d))
       ∧ (Forall (λ line, is_Some (@parse _ diaryJson line)) (Diary.diaryLines content) →
          ∃ result, Diary.diaryRead host sort getTime params d = (Normal result, d))).
Proof.
  split; [apply TaskFacts.readTasks_run|].
  split; [intros content; apply omap_length_filter|]. split.
  { intros params d Hfile. unfold Diary.diaryRead, Js.bind. rewrite Hfile.
    rewrite bool_decide_eq_false_2 by (by intros [? ?]). done. }
  intros params d content Hfile. unfold Diary.diaryRead, readFile.
  unfold Js.bind, Js.lift, Js.ret. rewrite Hfile.
  rewrite bool_decide_eq_true_2 by eauto. cbv beta iota zeta delta [negb].
  rewrite Hfile. cbv beta iota. split.
  - intros Hbad. by rewrite (mapC_parseLine_malformed _ Hbad).
  - intros Hok. rewrite (mapC_parseLine_wellformed _ Hok). eauto.
Qed.

End WithCodecs.

(** A diary of one well-formed line and one malformed line: the
    specification promises the one entry, the code throws. *)
Lemma diaryRead_throws_on_malformed_line :
  @parse _ Samples.entryCodec Samples.entryLine = Some Samples.sampleEntry
  ∧ @parse _ Samples.entryCodec "not json" = None
  ∧ @Diary.diaryRead Samples.posixHost Samples.entryCodec
      (λ _ l, l) (λ _, None) Samples.readAll
      (Samples.diskWith (Diary.DIARY_PATH Samples.posixHost)
         (Samples.entryLine +:+ nl +:+ "not json" +:+ nl))
    = (Throw SyntaxError,
       Samples.diskWith (Diary.DIARY_PATH Samples.posixHost)
         (Samples.entryLine +:+ nl +:+ "not json" +:+ nl)).
Proof. vm_compute. auto. Qed.

End ReadFacts.

(** ** Validation of empty content *)

Module ValidationFacts.
Import Js Fs.

Lemma blank_guard (s : string) :
  whitespaceOnly s = true → isEmpty s || (length (trim s) =? 0) = true.
Proof.
  intros Hs. apply JsFacts.trim_empty in Hs. rewrite Hs.
  apply orb_true_r.
Qed.

Section WithCodecs.
Variable host : Host.
Context (captureJson : JsonCodec QuickCapture.Task).
Context (diaryJson : JsonCodec Diary.DiaryEntry).
Context (noteJson : JsonCodec DashboardNote.DashboardNote).
Variables now dayAhead uuid : string.

(** C5, as the code has it.  On empty or white-space-only content each of
    the three tools stops at its validation, before any call that touches
    the disk, and leaves the disk exactly as it was.  [quickCapture]
    reports the failure as a result with [success] false and the error
    text; [diaryWrite] and [updateDashboardNote] throw an [Error] with the
    text instead. *)
Theorem blank_content_rejected_before_write (s : string) :
  whitespaceOnly s = true →
  (∀ params d,
     QuickCapture.content params = s →
     QuickCapture.quickCapture host now dayAhead uuid params d
     = (Normal {| QuickCapture.success := false;
                  QuickCapture.taskId := None;
                  QuickCapture.filePath := None;
                  QuickCapture.error := Some "Content cannot be empty" |}, d))
  ∧ (∀ params d,
       Diary.w_reflections params = s →
       Diary.diaryWrite host now uuid params d
       = (Throw (Error "Reflections cannot be empty"), d))
  ∧ (∀ noteFile emoji d,
       DashboardNote.updateDashboardNote host now noteFile s emoji d
       = (Throw (Error "Message cannot be empty"), d)).
Proof.
  intros Hs. pose proof (blank_guard _ Hs) as Hguard.
  split; [|split].
  - intros params d <-. unfold QuickCapture.quickCapture, QuickCapture.validateParams.
    by rewrite Hguard.
  - intros params d <-. unfold Diary.diaryWrite. by rewrite Hguard.
  - intros noteFile emoji d.
    unfold DashboardNote.updateDashboardNote, DashboardNote.validateNoteContent.
    apply JsFacts.trim_empty in Hs. by rewrite Hs.
Qed.

End WithCodecs.

(** White space only, for a task capture. *)
Lemma blank_content_rejected_before_write_witness :
  @QuickCapture.quickCapture Samples.posixHost Samples.captureCodec
    "2026-02-05T10:00:00.000Z" "2026-02-06T10:00:00.000Z" "uuid-1"
    (Samples.capturing Samples.blanks) Samples.emptyDisk
  = (Normal (QuickCapture.failure "Content cannot be empty"), Samples.emptyDisk).
Proof.
  refine (proj1 (blank_content_rejected_before_write Samples.posixHost
            Samples.captureCodec (Samples.diaryCodec []) Samples.noteCodec
            "2026-02-05T10:00:00.000Z" "2026-02-06T10:00:00.000Z" "uuid-1"
            Samples.blanks _) (Samples.capturing Samples.blanks)
            Samples.emptyDisk _); reflexivity.
Defined.

(** The specification has the three tools report the failure as a result;
    two of them throw. *)
Lemma diaryWrite_and_dashboard_throw_on_empty :
  (@Diary.diaryWrite Samples.posixHost (Samples.diaryCodec [])
     "2026-02-05T10:00:00.000Z" "uuid-1" (Samples.reflecting "") Samples.emptyDisk).1
  = Throw (Error "Reflections cannot be empty")
  ∧ (@DashboardNote.updateDashboardNote Samples.posixHost Samples.noteCodec
       "2026-02-05T10:00:00.000Z" "/ws/dashboard.json" "" "" Samples.emptyDisk).1
    = Throw (Error "Message cannot be empty").
Proof. split; reflexivity. Qed.

End ValidationFacts.

(** ** The usage log: reset and append *)

Module UsageFacts.
Import Js Fs.

(** *** Lines *)

Lemma split_cons_line (c : ascii) (l rest : string) :
  hasChar c l = false → split c (l +:+ String c rest) = l :: split c rest.
Proof.
  induction l as [|a l IH]; simpl.
  - intros _. change (split c (String c rest) = "" :: split c rest).
    simpl. by rewrite bool_decide_eq_true_2.
  - intros [Ha Hl]%orb_false_iff.
    change (split c (String a (l +:+ String c rest)) = String a l :: split c rest).
    simpl. rewrite Ha, (IH Hl). done.
Qed.

(** No piece of [split] holds the separator. *)
Lemma split_pieces (c : ascii) (s : string) :
  Forall (λ l, hasChar c l = false) (split c s).
Proof.
  induction s as [|a s IH]; simpl.
  - by apply Forall_singleton.
  - destruct (bool_decide (a = c)) eqn:Ha.
    + by apply Forall_cons.
    + destruct (split c s) as [|h t];
        [apply Forall_singleton; simpl; by rewrite Ha|].
      apply Forall_cons in IH as [Hh Ht]. apply Forall_cons. split; [|done].
      simpl. by rewrite Ha.
Qed.

Lemma split_unlines (ls : list string) :
  Forall (λ l, hasChar LF l = false) ls → split LF (unlines ls) = ls ++ [""].
Proof.
  induction 1 as [|l ls Hl _ IH]; [done|]. simpl.
  change (l +:+ nl +:+ unlines ls) with (l +:+ String LF (unlines ls)).
  by rewrite (split_cons_line _ _ _ Hl), IH.
Qed.

(** [join] with line feeds, plus the final line feed of a non-empty list,
    ends every line with a line feed. *)
Lemma join_unlines (ls : list string) :
  join nl ls +:+ (if Z.of_nat (List.length ls) >? 0 then nl else "") = unlines ls.
Proof.
  induction ls as [|x ls IH]; [done|].
  assert (Hpos : (Z.of_nat (List.length (x :: ls)) >? 0) = true).
  { apply Z.gtb_lt. simpl. lia. }
  rewrite Hpos. destruct ls as [|y ls].
  - simpl. by rewrite JsFacts.app_nil_r.
  - assert (Hpos' : (Z.of_nat (List.length (y :: ls)) >? 0) = true).
    { apply Z.gtb_lt. simpl. lia. }
    rewrite Hpos' in IH. unfold join in *.
    change (String.concat nl (x :: y :: ls))
      with (x +:+ nl +:+ String.concat nl (y :: ls)).
    rewrite !JsFacts.app_assoc. rewrite IH. done.
Qed.

Lemma usageLines_pieces (content : string) :
  Forall (λ l, hasChar LF l = false ∧ nonBlank l = true) (Research.usageLines content).
Proof.
  unfold Research.usageLines. apply Forall_forall. intros l Hin.
  apply list_elem_of_In, filter_In in Hin as [Hin Hnb]. split; [|done].
  pose proof (split_pieces LF content) as Hall.
  rewrite Forall_forall in Hall. by apply Hall, list_elem_of_In.
Qed.

Lemma Forall_filter_keep {A} (P : A → Prop) (f : A → bool) (l : list A) :
  Forall P l → Forall P (List.filter f l).
Proof.
  induction 1 as [|x l Hx _ IH]; simpl; [done|].
  destruct (f x); [by apply Forall_cons|done].
Qed.

(** Lines that hold no line feed and are not blank are the lines of the
    text that ends each of them with a line feed. *)
Lemma usageLines_unlines (ls : list string) :
  Forall (λ l, hasChar LF l = false ∧ nonBlank l = true) ls →
  Research.usageLines (unlines ls) = ls.
Proof.
  intros Hls. unfold Research.usageLines.
  rewrite split_unlines by (eapply Forall_impl; [exact Hls|]; by intros ? [? ?]).
  rewrite List.filter_app. simpl. rewrite app_nil_r.
  induction Hls as [|l ls [_ Hl] _ IH]; [done|]. simpl.
  rewrite Hl. by rewrite IH.
Qed.

(** *** Appending *)

Lemma appendFile_appendOnly (path content : string) : appendOnly (appendFile path content).
Proof.
  intros d p c Hp. unfold appendFile. simpl.
  destruct (decide (p = path)) as [->|Hne].
  - rewrite Hp. simpl. exists content. by rewrite lookup_insert_eq.
  - exists "". by rewrite lookup_insert_ne, JsFacts.app_nil_r.
Qed.

Lemma unchanged_appendOnly {A} (m : IO A) : (∀ d, (m d).2 = d) → appendOnly m.
Proof.
  intros Hm d p c Hp. exists "". by rewrite Hm, JsFacts.app_nil_r.
Qed.

Section WithCodecs.
Variable host : Host.
Context (usageJson : JsonCodec Research.UsageLogEntry).
Context (taskJson : JsonCodec TaskExecutor.Task).
Context (diaryJson : JsonCodec Diary.DiaryEntry).
Context (captureJson : JsonCodec QuickCapture.Task).
Variables now dayAhead uuid : string.

Lemma logUsage_run (logFile provider query : string) (d : Disk) :
  Research.logUsage host now logFile provider query d
  = appendFile logFile
      (stringify {| Research.date := isoDate now; Research.timestamp := now;
                    Research.provider := provider; Research.query := query |}
       +:+ nl) d.
Proof. reflexivity. Qed.

Lemma logUsage_appendOnly (logFile provider query : string) :
  appendOnly (Research.logUsage host now logFile provider query).
Proof.
  intros d p c Hp. rewrite logUsage_run. by apply appendFile_appendOnly.
Qed.

Lemma updateTaskStatus_appendOnly (tasksPath taskId newStatus : string)
    (tasks : list TaskExecutor.Task) :
  appendOnly (TaskExecutor.updateTaskStatus now tasksPath taskId newStatus tasks).
Proof.
  intros d p c Hp. rewrite TaskFacts.updateTaskStatus_run.
  destruct (List.find _ tasks).
  - by apply (appendFile_appendOnly tasksPath _ d).
  - exists "". by rewrite JsFacts.app_nil_r.
Qed.

Lemma diaryWrite_appendOnly (params : Diary.DiaryWriteParams) :
  appendOnly (Diary.diaryWrite host now uuid params).
Proof.
  intros d p c Hp. unfold Diary.diaryWrite.
  destruct (isEmpty _ || _); [exists ""; by rewrite JsFacts.app_nil_r|].
  destruct (length _ <? 50); [exists ""; by rewrite JsFacts.app_nil_r|].
  unfold Js.bind, Js.ret.
  set (line := stringify _ +:+ nl).
  destruct (appendFile_appendOnly (Diary.DIARY_PATH host) line d p c Hp) as [sfx Hs].
  exists sfx. exact Hs.
Qed.

Lemma captureTask_appendOnly (params : QuickCapture.QuickCaptureParams)
    (memoryDir : string) :
  appendOnly (QuickCapture.captureTask host now dayAhead uuid params memoryDir).
Proof.
  intros d p c Hp. unfold QuickCapture.captureTask, Js.tryCatch, Js.bind, Js.ret.
  set (line := stringify _ +:+ nl).
  destruct (appendFile_appendOnly (path_join host [memoryDir; "tasks.jsonl"]) line
              d p c Hp) as [sfx Hs].
  exists sfx. exact Hs.
Qed.

(** *** The reset *)

Lemma resetDailyQuota_run (logFile : string) (d : Disk) :
  Research.resetDailyQuota host now logFile d
  = match files d !! logFile with
    | None => (Normal tt, d)
    | Some content =>
        if isEmpty content then (Normal tt, d)
        else atomicWrite host now logFile
               (unlines (List.filter (Research.notFromToday (isoDate now))
                                     (Research.usageLines content)))
               noOptions d
    end.
Proof.
  unfold Research.resetDailyQuota, Js.bind.
  rewrite FsFacts.fileExists_run.
  destruct (files d !! logFile) as [content|] eqn:Hfile.
  - rewrite bool_decide_eq_true_2 by eauto. cbv beta iota zeta delta [negb].
    rewrite FsFacts.safeReadFile_run, Hfile. cbv beta iota.
    destruct content as [|a content]; [done|].
    cbv beta iota zeta delta [negb truthy isEmpty default from_option id].
    by rewrite join_unlines.
  - rewrite bool_decide_eq_false_2 by (by intros [? ?]). done.
Qed.

(** A usage log that is missing or empty is left alone. *)
Lemma reset_untouched (logFile : string) (d : Disk) :
  files d !! logFile = None ∨ files d !! logFile = Some "" →
  Research.resetDailyQuota host now logFile d = (Normal tt, d).
Proof. intros [Hf|Hf]; rewrite resetDailyQuota_run, Hf; done. Qed.

(** Any other usage log is rewritten to hold, in their order and each ended
    by a line feed, exactly those of its non-blank lines that do not parse
    to an entry dated today. *)
Lemma reset_kept (logFile : string) (d : Disk) (content : string) :
  files d !! logFile = Some content → content ≠ "" →
  let kept := List.filter (Research.notFromToday (isoDate now))
                          (Research.usageLines content) in
  (Research.resetDailyQuota host now logFile d).1 = Normal tt
  ∧ files (Research.resetDailyQuota host now logFile d).2 !! logFile
    = Some (unlines kept)
  ∧ Research.usageLines (unlines kept) = kept
  ∧ ∀ line, line ∈ kept ↔
            line ∈ Research.usageLines content
            ∧ ∀ entry, parse line = Some entry →
                       Research.date entry ≠ isoDate now.
Proof.
  intros Hf Hne kept.
  rewrite resetDailyQuota_run, Hf.
  destruct content as [|a content]; [done|]. cbv beta iota delta [isEmpty].
  fold kept.
  destruct (FsFacts.atomicWrite_plain host now logFile (unlines kept) d)
    as [Hok Hnew].
  split; [exact Hok|]. split; [exact Hnew|]. split.
  - apply usageLines_unlines. apply Forall_filter_keep, usageLines_pieces.
  - intros line. subst kept. rewrite !list_elem_of_In, filter_In.
    unfold Research.notFromToday. split.
    + intros [Hin Hkeep]. split; [done|]. intros entry Hentry.
      rewrite Hentry in Hkeep. by apply negb_true_iff, bool_decide_eq_false in Hkeep.
    + intros [Hin Hother]. split; [done|].
      destruct (parse line) as [entry|]; [|done].
      apply negb_true_iff, bool_decide_eq_false. by apply Hother.
Qed.

End WithCodecs.

(** On the 5th, a log of an entry of the 4th, an entry of the 5th and a
    malformed line keeps the first and the last. *)
Example reset_sample :
  files (@Research.resetDailyQuota Samples.posixHost Samples.febCodec
           "2026-02-05T10:00:00.000Z" "/ws/research-usage.jsonl"
           (Samples.diskWith "/ws/research-usage.jsonl"
              (@stringify _ Samples.febCodec Samples.usageOfThe4th +:+ nl
               +:+ @stringify _ Samples.febCodec Samples.usageOfThe5th +:+ nl
               +:+ "not json" +:+ nl))).2
    !! "/ws/research-usage.jsonl"
  = Some (@stringify _ Samples.febCodec Samples.usageOfThe4th +:+ nl
          +:+ "not json" +:+ nl).
Proof. vm_compute. reflexivity. Qed.

End UsageFacts.

(** ** Texts made of record lines *)

Module LineFacts.
Import Js.

Lemma recordLine_parts (l : string) :
  Lines.recordLine l = true →
  l ≠ "" ∧ trimStart l = l ∧ trimEnd l = l ∧ hasChar LF l = false.
Proof.
  unfold Lines.recordLine.
  intros [[[H1 H2%bool_decide_eq_true]%andb_true_iff H3%bool_decide_eq_true]%andb_true_iff
            H4%negb_true_iff]%andb_true_iff.
  split; [|done]. intros ->. done.
Qed.

Lemma trimStart_app (l r : string) :
  l ≠ "" → trimStart l = l → trimStart (l +:+ r) = l +:+ r.
Proof.
  destruct l as [|c l]; [done|]. intros _. rewrite JsFacts.app_cons. simpl.
  destruct (isWhiteSpace c) eqn:Hc; [|done].
  intros H. apply (f_equal String.length) in H. simpl in H.
  assert (Hle : ∀ s, (String.length (trimStart s) ≤ String.length s)%nat).
  { clear. induction s as [|a s IH]; simpl; [lia|].
    destruct (isWhiteSpace a); simpl; lia. }
  specialize (Hle l). lia.
Qed.

Lemma trimEnd_whitespaceOnly (b : string) : whitespaceOnly b = true → trimEnd b = "".
Proof.
  induction b as [|c b IH]; [done|]. simpl.
  intros [Hc Hb]%andb_true_iff. by rewrite Hc, (IH Hb).
Qed.

Lemma trimEnd_app_blank (a b : string) :
  whitespaceOnly b = true → trimEnd (a +:+ b) = trimEnd a.
Proof.
  intros Hb. induction a as [|c a IH].
  - rewrite JsFacts.app_nil_l. by apply trimEnd_whitespaceOnly.
  - rewrite JsFacts.app_cons. simpl. by rewrite IH.
Qed.

Lemma trimEnd_app_keep (a b : string) :
  trimEnd b ≠ "" → trimEnd (a +:+ b) = a +:+ trimEnd b.
Proof.
  intros Hb. induction a as [|c a IH].
  - by rewrite !JsFacts.app_nil_l.
  - rewrite !JsFacts.app_cons. simpl. rewrite IH.
    destruct (a +:+ trimEnd b) as [|x y] eqn:E.
    + destruct a; [by rewrite JsFacts.app_nil_l in E|].
      rewrite JsFacts.app_cons in E. discriminate.
    + simpl. by rewrite andb_false_r.
Qed.

Lemma unlines_snoc (ls : list string) (l : string) :
  unlines (ls ++ [l]) = unlines ls +:+ l +:+ nl.
Proof.
  induction ls as [|x ls IH]; simpl.
  - by rewrite JsFacts.app_nil_l, JsFacts.app_nil_r.
  - by rewrite IH, !JsFacts.app_assoc.
Qed.

Lemma join_cons2 (x y : string) (ls : list string) :
  join nl (x :: y :: ls) = x +:+ nl +:+ join nl (y :: ls).
Proof. reflexivity. Qed.

Lemma join_nonempty (x : string) (ls : list string) :
  x ≠ "" → join nl (x :: ls) ≠ "".
Proof.
  intros Hx. destruct ls as [|y ls]; [exact Hx|].
  rewrite join_cons2. destruct x; [done|]. by rewrite JsFacts.app_cons.
Qed.

(** [trim] takes the final line feed off a text of record lines, and
    nothing else. *)
Lemma trimEnd_unlines (x : string) (ls : list string) :
  forallb Lines.recordLine (x :: ls) = true →
  trimEnd (unlines (x :: ls)) = join nl (x :: ls).
Proof.
  revert x. induction ls as [|y ls IH]; intros x Hall.
  - simpl in Hall. rewrite andb_true_r in Hall.
    apply recordLine_parts in Hall as (_ & _ & Hend & _).
    simpl. rewrite JsFacts.app_nil_r.
    rewrite (trimEnd_app_blank x nl) by done. exact Hend.
  - change (forallb Lines.recordLine (x :: y :: ls))
      with (Lines.recordLine x && forallb Lines.recordLine (y :: ls)) in Hall.
    apply andb_true_iff in Hall as [Hx Hrest].
    pose proof (recordLine_parts _ (proj1 (proj1 (andb_true_iff _ _) Hrest)))
      as (Hy & _).
    rewrite join_cons2.
    change (unlines (x :: y :: ls)) with (x +:+ nl +:+ unlines (y :: ls)).
    assert (Hkeep : trimEnd (nl +:+ unlines (y :: ls)) = nl +:+ join nl (y :: ls)).
    { rewrite trimEnd_app_keep; rewrite (IH y Hrest); [done|].
      by apply join_nonempty. }
    rewrite trimEnd_app_keep; rewrite Hkeep; [done|]. done.
Qed.

Lemma trim_unlines (x : string) (ls : list string) :
  forallb Lines.recordLine (x :: ls) = true →
  trim (unlines (x :: ls)) = join nl (x :: ls).
Proof.
  intros Hall. unfold trim.
  assert (Hx : Lines.recordLine x = true)
    by (simpl in Hall; by apply andb_true_iff in Hall as [? _]).
  apply recordLine_parts in Hx as (Hne & Hstart & _).
  change (unlines (x :: ls)) with (x +:+ (nl +:+ unlines ls)).
  rewrite (trimStart_app _ _ Hne Hstart).
  by apply (trimEnd_unlines x ls).
Qed.

Lemma split_line (c : ascii) (l : string) : hasChar c l = false → split c l = [l].
Proof.
  induction l as [|a l IH]; simpl; [done|].
  intros [Ha Hl]%orb_false_iff. by rewrite Ha, (IH Hl).
Qed.

Lemma split_cons (c : ascii) (l rest : string) :
  hasChar c l = false → split c (l +:+ String c rest) = l :: split c rest.
Proof.
  induction l as [|a l IH]; simpl.
  - intros _. change (split c (String c rest) = "" :: split c rest).
    simpl. by rewrite bool_decide_eq_true_2.
  - intros [Ha Hl]%orb_false_iff.
    change (split c (String a (l +:+ String c rest)) = String a l :: split c rest).
    simpl. by rewrite Ha, (IH Hl).
Qed.

Lemma split_join (ls : list string) :
  ls ≠ [] → forallb Lines.recordLine ls = true → split LF (join nl ls) = ls.
Proof.
  induction ls as [|x ls IH]; [done|]. intros _ Hall.
  simpl in Hall. apply andb_true_iff in Hall as [Hx Hrest].
  apply recordLine_parts in Hx as (_ & _ & _ & Hlf).
  destruct ls as [|y ls]; [by apply split_line|].
  rewrite join_cons2.
  change (x +:+ nl +:+ join nl (y :: ls)) with (x +:+ String LF (join nl (y :: ls))).
  rewrite (split_cons _ _ _ Hlf). by rewrite IH.
Qed.

(** The lines of a text of record lines, as each reader takes them. *)
Lemma split_trim_unlines (ls : list string) :
  ls ≠ [] → forallb Lines.recordLine ls = true →
  split LF (trim (unlines ls)) = ls.
Proof.
  intros Hne Hall. destruct ls as [|x ls]; [done|].
  rewrite (trim_unlines _ _ Hall). by apply split_join.
Qed.

Lemma recordLine_nonBlank (l : string) :
  Lines.recordLine l = true → nonBlank l = true ∧ isEmpty l = false.
Proof.
  intros (Hne & Hs & He & _)%recordLine_parts. unfold nonBlank, trim.
  rewrite Hs, He. by destruct l.
Qed.

Lemma taskLines_unlines (ls : list string) :
  forallb Lines.recordLine ls = true → TaskExecutor.taskLines (unlines ls) = ls.
Proof.
  intros Hall. unfold TaskExecutor.taskLines.
  destruct ls as [|x ls]; [done|].
  rewrite split_trim_unlines by done.
  pose proof (proj1 (forallb_forall _ _) Hall) as Hall'. clear Hall.
  rename Hall' into Hall.
  assert (Hkeep : ∀ l, In l (x :: ls) → (length (trim l) >? 0) = true).
  { intros l Hl. apply Hall, recordLine_nonBlank in Hl as [Hl _].
    unfold nonBlank in Hl. unfold length. destruct (trim l); [done|].
    apply Z.gtb_lt. simpl. lia. }
  clear Hall. induction (x :: ls) as [|a l IH]; [done|]. simpl.
  rewrite Hkeep by (by left). rewrite IH; [done|].
  intros b Hb. apply Hkeep. by right.
Qed.

Lemma diaryLines_unlines (ls : list string) :
  forallb Lines.recordLine ls = true → Diary.diaryLines (unlines ls) = ls.
Proof.
  intros Hall. unfold Diary.diaryLines.
  destruct ls as [|x ls]; [done|].
  rewrite split_trim_unlines by done.
  pose proof (proj1 (forallb_forall _ _) Hall) as Hall'. clear Hall.
  rename Hall' into Hall.
  induction (x :: ls) as [|a l IH]; [done|]. simpl.
  destruct (recordLine_nonBlank a) as [_ ->]; [apply Hall; by left|]. simpl.
  rewrite IH; [done|]. intros b Hb. apply Hall. by right.
Qed.

Lemma usageLines_record_unlines (ls : list string) :
  forallb Lines.recordLine ls = true → Research.usageLines (unlines ls) = ls.
Proof.
  intros Hall. apply UsageFacts.usageLines_unlines.
  apply Forall_forall. intros l Hl%list_elem_of_In.
  pose proof (proj1 (forallb_forall _ _) Hall l Hl) as Hrec.
  split; [by apply recordLine_parts in Hrec as (_ & _ & _ & ?)|].
  by apply recordLine_nonBlank in Hrec as [? _].
Qed.

End LineFacts.

(** ** More on the file utilities *)

Module FsMoreFacts.
Import Js Fs.

Section WithHost.
Variable host : Host.
Variable now : string.

Lemma backupFile_files (path : string) (d : Disk) :
  files (backupFile host now path d).2
  = match files d !! path with
    | Some old => <[backupPathOf host now path := old]> (files d)
    | None => files d
    end.
Proof. rewrite FsFacts.backupFile_run. by destruct (files d !! path). Qed.

Lemma atomicWrite_files (path content : string) (options : WriteOptions) (d : Disk) :
  files (atomicWrite host now path content options d).2
  = <[path := content]>
      (delete (path +:+ ".tmp")
         (if default false (backup options)
          then files (backupFile host now path d).2 else files d)).
Proof.
  rewrite FsFacts.atomicWrite_run, FsFacts.write_then_rename. simpl.
  rewrite delete_insert_eq. by destruct (default false (backup options)).
Qed.

(** The footprint of [atomicWrite].  Afterwards the target holds the new
    content and there is no temp file, even if one was there before; with a
    backup requested, the backup path holds what the target held; every other
    file is as it was. *)
Theorem atomicWrite_footprint (path content : string) (options : WriteOptions)
    (d : Disk) :
  let tmp := path +:+ ".tmp" in
  let bp := backupPathOf host now path in
  let d' := (atomicWrite host now path content options d).2 in
  files d' !! path = Some content
  ∧ files d' !! tmp = None
  ∧ (∀ q, q ≠ path → q ≠ tmp → q ≠ bp → files d' !! q = files d !! q)
  ∧ (backup options = Some true → bp ≠ path → bp ≠ tmp →
     ∀ old, files d !! path = Some old → files d' !! bp = Some old)
  ∧ (backup options ≠ Some true →
     ∀ q, q ≠ path → q ≠ tmp → files d' !! q = files d !! q).
Proof.
  intros tmp bp d'. subst d'. rewrite atomicWrite_files.
  pose proof (FsFacts.tmp_path_differs path) as Htmp. fold tmp in Htmp |- *.
  split; [by rewrite lookup_insert_eq|].
  split; [by rewrite lookup_insert_ne, lookup_delete_eq|].
  split; [|split].
  - intros q H1 H2 H3. rewrite lookup_insert_ne, lookup_delete_ne by done.
    destruct (default false (backup options)); [|done].
    rewrite backupFile_files. destruct (files d !! path); [|done].
    by rewrite lookup_insert_ne.
  - intros Hb H1 H2 old Hold. rewrite Hb. simpl.
    rewrite lookup_insert_ne, lookup_delete_ne by done.
    rewrite backupFile_files, Hold. by rewrite lookup_insert_eq.
  - intros Hb q H1 H2. rewrite lookup_insert_ne, lookup_delete_ne by done.
    by destruct (backup options) as [[|]|].
Qed.

(** Two appends to one file are the append of the two texts, and an append
    creates the file when it is missing. *)
Theorem appendToFile_compose (path a b : string) (o1 o2 : WriteOptions) (d : Disk) :
  files ((appendToFile host path a o1 ;;; appendToFile host path b o2) d).2
  = files (appendToFile host path (a +:+ b) o1 d).2
  ∧ files (appendToFile host path a o1 d).2 !! path
    = Some (default "" (files d !! path) +:+ a)
  ∧ ∀ q, q ≠ path → files (appendToFile host path a o1 d).2 !! q = files d !! q.
Proof.
  assert (Hrun : ∀ x o d0, appendToFile host path x o d0 = appendFile path x d0).
  { intros x o d0. unfold appendToFile, mkdir.
    by destruct (default true (createDirs o)). }
  unfold Js.bind. rewrite (Hrun a o1 d). unfold appendFile at 1. cbv beta iota.
  rewrite !Hrun. unfold appendFile, fill. cbn [fst snd files].
  split; [|split].
  - rewrite lookup_insert_eq. cbn [default from_option id]. rewrite insert_insert_eq.
    by rewrite JsFacts.app_assoc.
  - by rewrite lookup_insert_eq.
  - intros q Hq. by rewrite lookup_insert_ne.
Qed.

Section Json.
Context {T : Type} `{JsonCodec T}.

(** What [writeJSON] wrote, [readJSON] reads back, for a value whose printed
    text parses to it.  A missing file reads as null, and a file whose
    content does not parse makes [readJSON] throw "Invalid JSON in" with the
    path; reading changes nothing on the disk. *)
Theorem writeJSON_readJSON (path : string) (data : T) (options : WriteOptions)
    (d : Disk) :
  parse (stringify_pretty data +:+ nl) = Some data →
  readJSON path (writeJSON host now path data options d).2
  = (Normal (Some data), (writeJSON host now path data options d).2)
  ∧ (∀ d0, files d0 !! path = None → readJSON (T:=T) path d0 = (Normal None, d0))
  ∧ (∀ d0 content,
       files d0 !! path = Some content → parse (A:=T) content = None →
       readJSON (T:=T) path d0 = (Throw (Error ("Invalid JSON in " +:+ path)), d0)).
Proof.
  intros Hparse.
  assert (Hread : ∀ d0, readJSON (T:=T) path d0
            = match files d0 !! path with
              | None => (Normal None, d0)
              | Some content =>
                  match parse content with
                  | Some v => (Normal (Some v), d0)
                  | None => (Throw (Error ("Invalid JSON in " +:+ path)), d0)
                  end
              end).
  { intros d0. unfold readJSON, Js.bind. rewrite FsFacts.safeReadFile_run.
    destruct (files d0 !! path) as [content|]; [|done].
    by destruct (parse content). }
  split; [|split].
  - rewrite Hread. unfold writeJSON.
    rewrite atomicWrite_files, lookup_insert_eq. by rewrite Hparse.
  - intros d0 Hf. by rewrite Hread, Hf.
  - intros d0 content Hf Hp. by rewrite Hread, Hf, Hp.
Qed.

End Json.

End WithHost.

(** The dashboard note of the examples. *)
Lemma writeJSON_readJSON_witness :
  (@readJSON _ Samples.helloCodec "/ws/dashboard.json"
     (@writeJSON Samples.posixHost "2026-02-05T10:00:00.000Z" _ Samples.helloCodec
        "/ws/dashboard.json" Samples.helloNote noOptions Samples.emptyDisk).2).1
  = Normal (Some Samples.helloNote).
Proof.
  refine (f_equal fst (proj1 (@writeJSON_readJSON Samples.posixHost
            "2026-02-05T10:00:00.000Z" _ Samples.helloCodec
            "/ws/dashboard.json" Samples.helloNote noOptions Samples.emptyDisk _))).
  vm_compute. reflexivity.
Defined.

End FsMoreFacts.

(** ** The memory update tool *)

Module MemoryUpdateFacts.
Import Js Fs MemoryUpdate.

Lemma blank_guard_eq (s : string) :
  isEmpty s || (length (trim s) =? 0) = whitespaceOnly s.
Proof.
  destruct (whitespaceOnly s) eqn:Hs.
  - by apply ValidationFacts.blank_guard.
  - apply orb_false_iff. split.
    + by destruct s.
    + apply Z.eqb_neq. unfold length. intros Hlen.
      assert (Ht : trim s = "") by (destruct (trim s); [done|simpl in Hlen; lia]).
      apply JsFacts.trim_empty in Ht. congruence.
Qed.

Section WithHost.
Variable host : Host.
Variable now : string.

Lemma memoryUpdate_run (filePath operation content : string) (d : Disk) :
  whitespaceOnly content = false →
  memoryUpdate host now filePath operation content d
  = if bool_decide (operation = "append") then
      appendFile filePath content (backupFile host now filePath d).2
    else if bool_decide (operation = "replace") then
      atomicWrite host now filePath content noOptions (backupFile host now filePath d).2
    else if bool_decide (operation = "create") then
      match files d !! filePath with
      | Some _ => (Throw (Error ("File already exists: " +:+ filePath)), d)
      | None => atomicWrite host now filePath content noOptions d
      end
    else (Throw (Error ("Unknown operation: " +:+ operation)), d).
Proof.
  intros Hc. unfold memoryUpdate. rewrite blank_guard_eq, Hc.
  unfold Js.bind at 1. unfold mkdir at 1, Js.ret at 1. cbv beta iota.
  repeat case_bool_decide; try done.
  - unfold Js.bind. rewrite FsFacts.fileExists_run.
    rewrite FsFacts.backupFile_run.
    destruct (files d !! filePath) as [old|] eqn:Hold.
    + rewrite bool_decide_eq_true_2 by eauto. cbv beta iota.
      rewrite FsFacts.backupFile_run, Hold. done.
    + rewrite bool_decide_eq_false_2 by (by intros [? ?]). done.
  - unfold Js.bind. rewrite FsFacts.backupFile_run.
    by destruct (files d !! filePath).
  - unfold Js.bind. rewrite FsFacts.fileExists_run.
    destruct (files d !! filePath) as [old|] eqn:Hold.
    + by rewrite bool_decide_eq_true_2 by eauto.
    + by rewrite bool_decide_eq_false_2 by (by intros [? ?]).
Qed.

(** No refusal of [memoryUpdate] creates or changes a file.  Content that
    is empty or white space only throws "Content cannot be empty" whatever
    the operation, before anything else is done.  An operation other than
    append, replace and create throws "Unknown operation", and create on a
    file that exists throws "File already exists": both after the [mkdir]
    of the directory of the path, so that the directory may have been made,
    and every file is as it was. *)
Theorem memoryUpdate_refusals (filePath operation content : string) (d : Disk) :
  (whitespaceOnly content = true →
   memoryUpdate host now filePath operation content d
   = (Throw (Error "Content cannot be empty"), d))
  ∧ (whitespaceOnly content = false →
     operation ∉ ["append"; "replace"; "create"] →
     (memoryUpdate host now filePath operation content d).1
     = Throw (Error ("Unknown operation: " +:+ operation))
     ∧ files (memoryUpdate host now filePath operation content d).2 = files d)
  ∧ (whitespaceOnly content = false →
     is_Some (files d !! filePath) →
     (memoryUpdate host now filePath "create" content d).1
     = Throw (Error ("File already exists: " +:+ filePath))
     ∧ files (memoryUpdate host now filePath "create" content d).2 = files d).
Proof.
  split; [|split].
  - intros Hc. unfold memoryUpdate. by rewrite blank_guard_eq, Hc.
  - intros Hc Hop. rewrite memoryUpdate_run by done.
    rewrite !bool_decide_eq_false_2; [done|..];
      intros ->; apply Hop; set_solver.
  - intros Hc [old Hold]. rewrite memoryUpdate_run by done. simpl. by rewrite Hold.
Qed.

(** With content that is not blank: replace leaves the new content, append
    leaves the old content followed by the new, and both keep what the file
    held in its backup; create on a missing file leaves the new content. *)
Theorem memoryUpdate_keeps_backup (filePath content : string) (d : Disk) :
  whitespaceOnly content = false →
  let bp := backupPathOf host now filePath in
  let tmp := filePath +:+ ".tmp" in
  ((memoryUpdate host now filePath "replace" content d).1 = Normal tt
   ∧ files (memoryUpdate host now filePath "replace" content d).2 !! filePath
     = Some content
   ∧ ∀ old, files d !! filePath = Some old → bp ≠ filePath → bp ≠ tmp →
            files (memoryUpdate host now filePath "replace" content d).2 !! bp
            = Some old)
  ∧ ((memoryUpdate host now filePath "append" content d).1 = Normal tt
     ∧ files (memoryUpdate host now filePath "append" content d).2 !! filePath
       = Some (default "" (files d !! filePath) +:+ content)
     ∧ ∀ old, files d !! filePath = Some old → bp ≠ filePath →
              files (memoryUpdate host now filePath "append" content d).2 !! bp
              = Some old)
  ∧ (files d !! filePath = None →
     (memoryUpdate host now filePath "create" content d).1 = Normal tt
     ∧ files (memoryUpdate host now filePath "create" content d).2 !! filePath
       = Some content).
Proof.
  intros Hc bp tmp. rewrite !memoryUpdate_run by done. simpl.
  pose proof (FsFacts.tmp_path_differs filePath) as Htmp. fold tmp in Htmp.
  split; [|split].
  - destruct (FsFacts.atomicWrite_plain host now filePath content
                (backupFile host now filePath d).2) as [Hok Hnew].
    split; [exact Hok|]. split; [exact Hnew|].
    intros old Hold H1 H2.
    rewrite FsMoreFacts.atomicWrite_files. simpl.
    rewrite lookup_insert_ne, lookup_delete_ne by done.
    rewrite FsMoreFacts.backupFile_files, Hold. by rewrite lookup_insert_eq.
  - unfold appendFile. simpl. rewrite FsMoreFacts.backupFile_files.
    split; [done|]. split.
    + rewrite lookup_insert_eq. f_equal. f_equal.
      destruct (files d !! filePath) as [old|] eqn:Hold; [|by rewrite Hold].
      rewrite lookup_insert. case_decide; [done|by rewrite Hold].
    + intros old Hold Hne. rewrite Hold.
      rewrite lookup_insert_ne by done. by rewrite lookup_insert_eq.
  - intros Hnone. rewrite Hnone.
    apply (FsFacts.atomicWrite_plain host now filePath content d).
Qed.

End WithHost.

(** Replacing a memory file that exists. *)
Lemma memoryUpdate_keeps_backup_witness :
  files (memoryUpdate Samples.posixHost "2026-02-05T10:00:00.000Z"
           "/ws/MEMORY.md" "replace" "new facts"
           (Samples.diskWith "/ws/MEMORY.md" "old facts")).2
    !! "/ws/.backups/MEMORY.md.2026-02-05T10-00-00-000Z"
  = Some "old facts".
Proof.
  refine (proj2 (proj2 (proj1 (memoryUpdate_keeps_backup Samples.posixHost
            "2026-02-05T10:00:00.000Z" "/ws/MEMORY.md" "new facts"
            (Samples.diskWith "/ws/MEMORY.md" "old facts") _)))
          "old facts" _ _ _).
  - reflexivity.
  - vm_compute. reflexivity.
  - vm_compute. discriminate.
  - vm_compute. discriminate.
Defined.

End MemoryUpdateFacts.

(** ** The paths the memory tool accepts *)

Module MemoryPathFacts.
Import Js MemoryUpdate.

Lemma stripPrefix_spec (pre s r : string) :
  stripPrefix pre s = Some r ↔ s = pre +:+ r.
Proof.
  revert s. induction pre as [|d pre IH]; intros s.
  - simpl. rewrite JsFacts.app_nil_l. split; congruence.
  - destruct s as [|c s]; simpl.
    + split; [done|]. rewrite JsFacts.app_cons. done.
    + rewrite JsFacts.app_cons. case_bool_decide as Hc.
      * subst d. rewrite IH. split; [by intros ->|]. by intros [= ->].
      * split; [done|]. intros [= -> _]. done.
Qed.

Lemma stripSuffix_spec (suf s m : string) :
  stripSuffix suf s = Some m ↔ s = m +:+ suf.
Proof.
  split.
  - revert m. induction s as [|c s IH]; intros m; simpl.
    + case_bool_decide as Hs; [|done]. intros [= <-]. by rewrite JsFacts.app_nil_l.
    + case_bool_decide as Hs.
      * intros [= <-]. by rewrite JsFacts.app_nil_l.
      * destruct (stripSuffix suf s) as [m'|]; [|done]. simpl.
        intros [= <-]. rewrite JsFacts.app_cons. by rewrite (IH m').
  - revert s. induction m as [|c m IH]; intros s ->.
    + rewrite JsFacts.app_nil_l. destruct suf; simpl;
        [done|by rewrite bool_decide_eq_true_2].
    + rewrite JsFacts.app_cons. simpl.
      rewrite bool_decide_eq_false_2.
      * by rewrite (IH (m +:+ suf)).
      * intros Heq. apply (f_equal String.length) in Heq.
        simpl in Heq. rewrite JsFacts.app_length in Heq. lia.
Qed.

Lemma isMemoryFile_spec (path : string) :
  isMemoryFile path = true
  ↔ ∃ mid ext, path = "memory/" +:+ mid +:+ ext
               ∧ (ext = ".md" ∨ ext = ".json")
               ∧ noLineTerminator mid = true.
Proof.
  unfold isMemoryFile. split.
  - destruct (stripPrefix "memory/" path) as [rest|] eqn:Hrest; [|done].
    apply stripPrefix_spec in Hrest. subst path.
    cbn [existsb]. rewrite orb_false_r, orb_true_iff.
    destruct (stripSuffix ".md" rest) as [mid|] eqn:Hmd.
    { intros [H|H].
      - apply stripSuffix_spec in Hmd. subst rest. exists mid, ".md". auto.
      - destruct (stripSuffix ".json" rest) as [mid'|] eqn:Hjs; [|done].
        apply stripSuffix_spec in Hjs. subst rest. exists mid', ".json". auto. }
    intros [H|H]; [done|].
    destruct (stripSuffix ".json" rest) as [mid'|] eqn:Hjs; [|done].
    apply stripSuffix_spec in Hjs. subst rest. exists mid', ".json". auto.
  - intros (mid & ext & -> & Hext & Hmid).
    rewrite (proj2 (stripPrefix_spec "memory/" _ (mid +:+ ext)) eq_refl).
    cbn [existsb]. destruct Hext as [-> | ->].
    + by rewrite (proj2 (stripSuffix_spec ".md" _ mid) eq_refl), Hmid.
    + rewrite (proj2 (stripSuffix_spec ".json" _ mid) eq_refl), Hmid.
      by rewrite orb_true_r.
Qed.

(** [validateMemoryPath] accepts exactly the paths that hold no "..", do
    not start with a slash, and are either MEMORY.md or "memory/" followed
    by code units other than line terminators and a final ".md" or ".json".
    So it accepts no absolute path and no path with a parent segment. *)
Theorem validateMemoryPath_accepts (path : string) :
  validateMemoryPath path = true
  ↔ includes path ".." = false
    ∧ startsWith path "/" = false
    ∧ (path = "MEMORY.md"
       ∨ ∃ mid ext, path = "memory/" +:+ mid +:+ ext
                    ∧ (ext = ".md" ∨ ext = ".json")
                    ∧ noLineTerminator mid = true).
Proof.
  unfold validateMemoryPath.
  destruct (includes path "..") eqn:H1; [split; [done|by intros [? _]]|].
  destruct (startsWith path "/") eqn:H2; [split; [done|by intros (_ & ? & _)]|].
  unfold ALLOWED_PATTERNS, isRootMemory. cbn [existsb].
  rewrite orb_false_r, orb_true_iff, bool_decide_eq_true, isMemoryFile_spec.
  tauto.
Qed.

End MemoryPathFacts.

(** ** The task executor as a whole *)

Module ExecutorFacts.
Import Js Fs TaskExecutor Requests.

Lemma find_absent (i : string) (tasks : list Task) :
  (∀ t, t ∈ tasks → id t ≠ i) →
  List.find (λ t, bool_decide (id t = i)) (getLatestTasks tasks) = None.
Proof.
  intros Hno.
  destruct (List.find _ (getLatestTasks tasks)) as [t|] eqn:E; [|done].
  apply find_some in E as [Hin Hid]. apply bool_decide_eq_true in Hid.
  apply list_elem_of_In, TaskFacts.getLatestTasks_elem in Hin
    as (before & after & -> & _).
  destruct (Hno t); [|done]. apply elem_of_app. right. by left.
Qed.

Lemma find_present (t : Task) (l : list Task) :
  NoDup (id <$> l) → t ∈ l →
  List.find (λ x, bool_decide (id x = id t)) l = Some t.
Proof.
  induction l as [|x l IH]; [by intros _ ?%elem_of_nil|].
  rewrite fmap_cons. intros [Hx Hnd]%NoDup_cons [->|Hin]%elem_of_cons; simpl.
  - by rewrite bool_decide_eq_true_2.
  - rewrite bool_decide_eq_false_2; [by apply IH|].
    intros Heq. apply Hx. rewrite Heq. apply list_elem_of_fmap. by exists t.
Qed.

(** The record at the end of a log is the one its id is listed with. *)
Lemma getLatestTasks_last (log : list Task) (new : Task) :
  new ∈ getLatestTasks (log ++ [new])
  ∧ ∀ t, t ∈ getLatestTasks (log ++ [new]) → id t = id new → t = new.
Proof.
  split.
  - apply TaskFacts.getLatestTasks_elem. by exists log, [].
  - intros t (before & after & Hsplit & Hafter)%TaskFacts.getLatestTasks_elem Hid.
    apply TaskFacts.snoc_split in Hsplit as [(_ & _ & ->)|(after' & -> & _)]; [done|].
    apply Forall_app in Hafter as [_ Hlast]. by inversion Hlast.
Qed.

Lemma filterByStatus_elem (l : list Task) (filter : option string) (t : Task) :
  t ∈ filterByStatus l filter → t ∈ l.
Proof.
  unfold filterByStatus.
  destruct (negb (truthy filter) || bool_decide (filter = Some "all")); [done|].
  by intros [?%list_elem_of_In _]%list_elem_of_In%filter_In.
Qed.

Lemma filterByStatus_keeps (l : list Task) (filter : option string) (t : Task) :
  t ∈ l → filter ∈ [None; Some "all"; Some (status t)] →
  t ∈ filterByStatus l filter.
Proof.
  intros Hin Hf. unfold filterByStatus.
  destruct (negb (truthy filter) || bool_decide (filter = Some "all")) eqn:E; [done|].
  apply list_elem_of_In, filter_In. split; [by apply list_elem_of_In|].
  apply bool_decide_eq_true.
  apply elem_of_cons in Hf as [->|Hf]; [done|].
  apply elem_of_cons in Hf as [->|Hf]; [done|].
  by apply list_elem_of_singleton in Hf as ->.
Qed.

Section WithCodec.
Variable host : Host.
Context `{JsonCodec Task}.
Variable execAsync : string → IO string.
Variable now : string.

(** The executor, once the log is read. *)
Lemma taskExecutor_run (params : TaskExecutorParams) (d : Disk) :
  taskExecutor host execAsync now params d
  = let tasksPath := tasksPathOf host params in
    let latestTasks := getLatestTasks (tasksOn tasksPath d) in
    Js.tryCatch
      (if bool_decide (action params = "list") then
         Js.ret (listed (filterByStatus latestTasks (filter params)))
       else if bool_decide (action params = "status") then
         if negb (truthy (taskId params)) || negb (truthy (newStatus params))
         then Js.ret (failure "taskId and newStatus required for status action")
         else
           updateTaskStatus now tasksPath (default "" (taskId params))
             (default "" (newStatus params)) latestTasks ;;;
           Js.ret updated
       else if bool_decide (action params = "execute") then
         executed <- executeAll execAsync now tasksPath latestTasks
                       (pendingDue now latestTasks) 0 ;;
         Js.ret (ran executed)
       else Js.ret (failure ("Unknown action: " +:+ action params)))
      (λ error, Js.ret (failure ("Task executor failed: " +:+ message host error)))
      d.
Proof.
  unfold taskExecutor, tasksPathOf, tasksOn, mkdir, Js.tryCatch.
  unfold Js.bind at 1. unfold Js.ret at 1. cbv beta iota.
  unfold Js.bind at 1. rewrite TaskFacts.readTasks_run. reflexivity.
Qed.

(** The requests the executor refuses, on a log whose lines all parse to
    tasks.  Each is answered with a failure, never with an exception, and
    no file is created or changed (the memory directory may have been
    made): a status update without a task id or without a status; a status
    update for an id that no record of the log has; an action other than
    list, status and execute. *)
Theorem executor_refusals (params : TaskExecutorParams) (d : Disk) :
  wellFormed (tasksPathOf host params) d →
  let result := taskExecutor host execAsync now params d in
  (action params = "status" →
   truthy (taskId params) = false ∨ truthy (newStatus params) = false →
   result.1 = Normal (failure "taskId and newStatus required for status action")
   ∧ files result.2 = files d)
  ∧ (action params = "status" →
     truthy (taskId params) = true → truthy (newStatus params) = true →
     (∀ t, t ∈ tasksOn (tasksPathOf host params) d →
           id t ≠ default "" (taskId params)) →
     result.1 = Normal (failure ("Task executor failed: Task not found: "
                                 +:+ default "" (taskId params)))
     ∧ files result.2 = files d)
  ∧ (action params ∉ ["list"; "status"; "execute"] →
     result.1 = Normal (failure ("Unknown action: " +:+ action params))
     ∧ files result.2 = files d).
Proof.
  intros _ result. subst result. rewrite taskExecutor_run. cbv zeta.
  split; [|split].
  - intros -> Hmissing. simpl bool_decide. cbv iota.
    by destruct Hmissing as [-> | ->]; rewrite ?orb_true_r.
  - intros -> Hti Hts Hno. simpl bool_decide. cbv iota.
    rewrite Hti, Hts. cbn [negb orb].
    unfold Js.tryCatch, Js.bind. rewrite TaskFacts.updateTaskStatus_run.
    by rewrite (find_absent _ _ Hno).
  - intros Hno.
    rewrite !bool_decide_eq_false_2; [done|..];
      intros Heq; apply Hno; rewrite Heq;
      repeat first [by left | right].
Qed.

(** The listing of a log of record lines whose last line parses. *)
Lemma list_after_append (root filter : option string) (ls : list string)
    (line : string) (new : Task) (d : Disk) :
  files d !! tasksPathOf host (listOf root filter) = Some (unlines (ls ++ [line])) →
  forallb Lines.recordLine (ls ++ [line]) = true →
  parse line = Some new →
  filter ∈ [None; Some "all"; Some (status new)] →
  ∃ l, taskExecutor host execAsync now (listOf root filter) d = (Normal (listed l), d)
       ∧ new ∈ l
       ∧ ∀ t, t ∈ l → id t = id new → t = new.
Proof.
  intros Hfile Hall Hparse Hfilter.
  exists (filterByStatus (getLatestTasks (omap parse ls ++ [new])) filter).
  destruct (getLatestTasks_last (omap parse ls) new) as [Hin Honly].
  split; [|split].
  - rewrite taskExecutor_run. cbv zeta.
    unfold tasksOn. rewrite Hfile, LineFacts.taskLines_unlines by done.
    rewrite omap_app.
    change (omap parse [line])
      with (match parse line with Some t => [t] | None => [] end).
    by rewrite Hparse.
  - by apply filterByStatus_keeps.
  - intros t Ht%filterByStatus_elem Hid. by apply Honly.
Qed.

(** A status update is what the next listing shows.  On a log of record
    lines that all parse to tasks, for a task of the listing and a new
    status whose record prints to a record line that parses back: the
    update succeeds and appends that one line; afterwards the listing
    without a filter, with the filter "all" and with the new status as
    filter each hold the updated record, and no other record with its
    id. *)
Theorem status_then_list (root : option string) (s : string) (ls : list string)
    (task : Task) (d : Disk) :
  let request := statusOf root (Some (id task)) (Some s) in
  let tasksPath := tasksPathOf host request in
  let new := withStatus now task s in
  id task ≠ "" → s ≠ "" →
  files d !! tasksPath = Some (unlines ls) →
  forallb Lines.recordLine ls = true →
  Forall (λ line, is_Some (parse (A:=Task) line)) ls →
  task ∈ getLatestTasks (omap parse ls) →
  Lines.recordLine (stringify new) = true →
  parse (stringify new) = Some new →
  let d' := (taskExecutor host execAsync now request d).2 in
  (taskExecutor host execAsync now request d).1 = Normal updated
  ∧ files d' !! tasksPath = Some (unlines (ls ++ [stringify new]))
  ∧ (∀ q, q ≠ tasksPath → files d' !! q = files d !! q)
  ∧ ∀ filter, filter ∈ [None; Some "all"; Some s] →
      ∃ l, (taskExecutor host execAsync now (listOf root filter) d').1
           = Normal (listed l)
           ∧ new ∈ l
           ∧ ∀ t, t ∈ l → id t = id task → t = new.
Proof.
  intros request tasksPath new Hi Hs Hfile Hls _ Htask Hline Hparse d'.
  assert (Hlatest : getLatestTasks (tasksOn tasksPath d)
                    = getLatestTasks (omap parse ls)).
  { unfold tasksOn. by rewrite Hfile, LineFacts.taskLines_unlines. }
  assert (Hrun : taskExecutor host execAsync now request d
                 = (Normal updated,
                    fill tasksPath (unlines ls) (stringify new +:+ nl) d)).
  { rewrite taskExecutor_run. cbv zeta. fold tasksPath. rewrite Hlatest.
    cbn [action request statusOf taskId newStatus].
    assert (Hti : truthy (Some (id task)) = true) by (by destruct (id task)).
    assert (Hts : truthy (Some s) = true) by (by destruct s).
    rewrite Hti, Hts. simpl bool_decide. cbv iota.
    cbn [negb orb default from_option Datatypes.id].
    unfold Js.tryCatch, Js.bind. rewrite TaskFacts.updateTaskStatus_run.
    rewrite (find_present task _ (TaskFacts.getLatestTasks_NoDup _) Htask).
    by rewrite Hfile. }
  assert (Hnew : files d' !! tasksPath = Some (unlines (ls ++ [stringify new]))).
  { subst d'. rewrite Hrun. unfold fill. cbn [snd files].
    by rewrite lookup_insert_eq, LineFacts.unlines_snoc. }
  split; [by rewrite Hrun|]. split; [exact Hnew|]. split.
  { intros q Hq. subst d'. rewrite Hrun. unfold fill. cbn [snd files].
    by rewrite lookup_insert_ne. }
  intros filter Hfilter.
  destruct (list_after_append root filter ls (stringify new) new d')
    as (l & Hlist & Hin & Honly); [done| |done|done|].
  { rewrite forallb_app, Hls. cbn [forallb]. by rewrite Hline. }
  exists l. by rewrite Hlist.
Qed.

(** Where [executeTask] succeeds: without a command, or with a command that
    succeeds. *)
Lemma executeTask_quiet (succeeds : string → bool) (task : Task) (d : Disk) :
  quiet execAsync succeeds →
  executeTask execAsync task d = (Normal (runs succeeds task), d).
Proof.
  intros Hquiet. unfold executeTask, runs.
  destruct (truthy (command task)); [|done]. simpl.
  unfold Js.tryCatch, Js.bind, Js.ret.
  destruct (Hquiet (default "" (command task)) d) as [Hd Hthrow].
  destruct (execAsync (default "" (command task)) d) as [[out|e] d0];
    simpl in *; subst d0; by destruct (succeeds _).
Qed.

(** The loop of the execute action, with quiet commands: it counts the
    tasks that run, and appends the line of each in turn. *)
Lemma executeAll_quiet (succeeds : string → bool) (tasksPath : string)
    (latestTasks pendingTasks : list Task) (executed : Z) (d : Disk) :
  quiet execAsync succeeds →
  NoDup (id <$> latestTasks) →
  (∀ t, t ∈ pendingTasks → t ∈ latestTasks) →
  let done := List.filter (runs succeeds) pendingTasks in
  let d' := (executeAll execAsync now tasksPath latestTasks pendingTasks executed d).2 in
  (executeAll execAsync now tasksPath latestTasks pendingTasks executed d).1
  = Normal (executed + Z.of_nat (List.length done))
  ∧ (files d' !! tasksPath
     = match done with
       | [] => files d !! tasksPath
       | _ => Some (default "" (files d !! tasksPath)
                    +:+ unlines (completedLine now <$> done))
       end)
  ∧ ∀ q, q ≠ tasksPath → files d' !! q = files d !! q.
Proof.
  intros Hquiet Hnd. revert executed d.
  induction pendingTasks as [|task rest IH]; intros executed d Hsub.
  - simpl. split; [f_equal; lia|done].
  - assert (Hrest : ∀ t, t ∈ rest → t ∈ latestTasks)
      by (intros t Ht; apply Hsub; by right).
    assert (Hstep :
      executeAll execAsync now tasksPath latestTasks (task :: rest) executed d
      = if runs succeeds task
        then executeAll execAsync now tasksPath latestTasks rest (executed + 1)
               (fill tasksPath (default "" (files d !! tasksPath))
                     (completedLine now task +:+ nl) d)
        else executeAll execAsync now tasksPath latestTasks rest executed d).
    { cbn [executeAll]. unfold Js.bind at 1.
      rewrite (executeTask_quiet succeeds) by done.
      destruct (runs succeeds task); [|done].
      unfold Js.bind at 1. rewrite TaskFacts.updateTaskStatus_run.
      by rewrite (find_present task latestTasks Hnd) by (apply Hsub; by left). }
    cbv zeta. rewrite Hstep. cbn [List.filter].
    destruct (runs succeeds task) eqn:Hruns.
    + set (d1 := fill tasksPath _ _ d).
      destruct (IH (executed + 1) d1 Hrest) as (Hn & Hfile & Hframe).
      split; [rewrite Hn; cbn [List.length]; f_equal; lia|].
      assert (H1 : files d1 !! tasksPath
                   = Some (default "" (files d !! tasksPath)
                           +:+ completedLine now task +:+ nl)).
      { subst d1. unfold fill. cbn [files]. by rewrite lookup_insert_eq. }
      split.
      * rewrite Hfile, H1. cbn [fmap list_fmap unlines].
        destruct (List.filter (runs succeeds) rest) as [|t0 done'].
        { cbn [fmap list_fmap unlines]. by rewrite JsFacts.app_nil_r. }
        cbn [default from_option Datatypes.id]. f_equal.
        by rewrite !JsFacts.app_assoc.
      * intros q Hq. rewrite (Hframe q Hq). subst d1. unfold fill. cbn [files].
        by rewrite lookup_insert_ne.
    + apply (IH executed d Hrest).
Qed.

(** The execute action, with commands that leave the disk alone, on a log
    whose lines all parse to tasks.  It answers with the number of pending
    due tasks that have no command or whose command succeeds, and appends
    to the log, in the order of the listing, one line for each of them: the
    task with the status "completed" and the time of completion.  A task
    whose command fails gets no line, and no other file changes. *)
Theorem execute_completes (succeeds : string → bool) (root : option string)
    (d : Disk) :
  quiet execAsync succeeds →
  wellFormed (tasksPathOf host (executeOf root)) d →
  let tasksPath := tasksPathOf host (executeOf root) in
  let done :=
    List.filter (runs succeeds)
                (pendingDue now (getLatestTasks (tasksOn tasksPath d))) in
  let d' := (taskExecutor host execAsync now (executeOf root) d).2 in
  (taskExecutor host execAsync now (executeOf root) d).1
  = Normal (ran (Z.of_nat (List.length done)))
  ∧ files d' !! tasksPath
    = (λ content, content +:+ unlines (completedLine now <$> done))
        <$> files d !! tasksPath
  ∧ ∀ q, q ≠ tasksPath → files d' !! q = files d !! q.
Proof.
  intros Hquiet _ tasksPath done d'. subst d'.
  rewrite taskExecutor_run. cbv zeta. fold tasksPath.
  cbn [action executeOf]. simpl bool_decide. cbv iota.
  destruct (executeAll_quiet succeeds tasksPath
              (getLatestTasks (tasksOn tasksPath d))
              (pendingDue now (getLatestTasks (tasksOn tasksPath d))) 0 d Hquiet
              (TaskFacts.getLatestTasks_NoDup _)) as (Hn & Hfile & Hframe).
  { unfold pendingDue. by intros t [?%list_elem_of_In _]%list_elem_of_In%filter_In. }
  fold done in Hn, Hfile.
  unfold Js.tryCatch, Js.bind.
  destruct (executeAll _ _ _ _ _ _ d) as [[n|e] d1]; [|done].
  cbv beta iota. unfold Js.ret. cbn [fst snd] in *. injection Hn as ->.
  split; [done|]. split; [|exact Hframe].
  rewrite Hfile. destruct (files d !! tasksPath) as [content|] eqn:Hcontent.
  - destruct done; [|done]. cbn [fmap list_fmap unlines option_fmap option_map].
    by rewrite JsFacts.app_nil_r.
  - assert (Hnil : done = []); [|by rewrite Hnil].
    subst done. unfold tasksOn. by rewrite Hcontent.
Qed.

End WithCodec.

(** The log of the pending task t1, updated to completed at ten o'clock. *)
Lemma status_then_list_witness :
  ∃ l, (@taskExecutor Samples.posixHost Samples.stampedCodec Samples.silentShell
          Samples.tenOClock (listOf (Some "/ws") (Some "completed"))
          (@taskExecutor Samples.posixHost Samples.stampedCodec
             Samples.silentShell Samples.tenOClock
             (statusOf (Some "/ws") (Some "t1") (Some "completed"))
             (Samples.diskWith "/ws/memory/tasks.jsonl"
                (unlines [@stringify _ Samples.stampedCodec Samples.pendingT1]))).2).1
       = Normal (listed l)
       ∧ Samples.stampedT1 ∈ l
       ∧ ∀ t, t ∈ l → id t = "t1" → t = Samples.stampedT1.
Proof.
  refine (proj2 (proj2 (proj2
    (@status_then_list Samples.posixHost Samples.stampedCodec Samples.silentShell
       Samples.tenOClock (Some "/ws") "completed"
       [@stringify _ Samples.stampedCodec Samples.pendingT1] Samples.pendingT1
       (Samples.diskWith "/ws/memory/tasks.jsonl"
          (unlines [@stringify _ Samples.stampedCodec Samples.pendingT1]))
       _ _ _ _ _ _ _ _))) (Some "completed") _).
  - done.
  - done.
  - reflexivity.
  - by vm_compute.
  - apply Forall_singleton. by eexists.
  - vm_compute. by left.
  - by vm_compute.
  - by vm_compute.
  - set_solver.
Defined.

(** The pending task t1, without a command, is completed by an execution. *)
Lemma execute_completes_witness :
  (@taskExecutor Samples.posixHost Samples.stampedCodec Samples.silentShell
     Samples.tenOClock (executeOf (Some "/ws"))
     (Samples.diskWith "/ws/memory/tasks.jsonl"
        (unlines [@stringify _ Samples.stampedCodec Samples.pendingT1]))).1
  = Normal (ran 1).
Proof.
  refine (proj1
    (@execute_completes Samples.posixHost Samples.stampedCodec Samples.silentShell
       Samples.tenOClock (λ _, true) (Some "/ws")
       (Samples.diskWith "/ws/memory/tasks.jsonl"
          (unlines [@stringify _ Samples.stampedCodec Samples.pendingT1]))
       _ _)).
  - intros c d0. by split.
  - apply Forall_singleton. by eexists.
Defined.

(** A status request without an id, in a workspace without a log. *)
Lemma executor_refusals_witness :
  (@taskExecutor Samples.posixHost Samples.stampedCodec Samples.silentShell
     Samples.tenOClock (statusOf (Some "/ws") None (Some "completed"))
     Samples.emptyDisk).1
  = Normal (failure "taskId and newStatus required for status action").
Proof.
  refine (proj1 (proj1
    (@executor_refusals Samples.posixHost Samples.stampedCodec Samples.silentShell
       Samples.tenOClock (statusOf (Some "/ws") None (Some "completed"))
       Samples.emptyDisk _) eq_refl _)).
  - apply Forall_nil_2.
  - by left.
Defined.

End ExecutorFacts.

(** ** The diary *)

Module DiaryFacts.
Import Js Fs Diary DiaryFilters.

Lemma filter_twice {A} (f g : A → bool) (l : list A) :
  List.filter g (List.filter f l) = List.filter (λ x, f x && g x) l.
Proof.
  induction l as [|x l IH]; [done|]. simpl.
  destruct (f x); simpl; [|done]. destruct (g x); by rewrite IH.
Qed.

Lemma filter_when {A} (b : bool) (f : A → bool) (l : list A) :
  (if b then List.filter f l else l) = List.filter (λ x, negb b || f x) l.
Proof.
  destruct b; simpl; [done|]. induction l as [|x l IH]; [done|].
  simpl. by rewrite <- IH.
Qed.

Lemma filter_elem {A} (f : A → bool) (l : list A) (x : A) :
  x ∈ List.filter f l ↔ x ∈ l ∧ f x = true.
Proof. by rewrite !list_elem_of_In, filter_In. Qed.

Lemma length_slice0 {A} (n : Z) (l : list A) :
  0 < n → Z.of_nat (List.length (slice0 n l)) = Z.min n (Z.of_nat (List.length l)).
Proof.
  intros Hn. unfold slice0. rewrite (proj2 (Z.ltb_ge n 0)) by lia.
  rewrite length_take. lia.
Qed.

Lemma slice0_elem {A} (n : Z) (l : list A) (x : A) : x ∈ slice0 n l → x ∈ l.
Proof. unfold slice0. destruct (n <? 0); apply subseteq_take. Qed.

Section WithCodec.
Variable host : Host.
Context `{JsonCodec DiaryEntry}.
Variable sort :
  (DiaryEntry → DiaryEntry → option Z) → list DiaryEntry → list DiaryEntry.
Variable getTime : string → option Z.

(** [diaryRead] on a diary whose lines all parse. *)
Lemma diaryRead_run (params : DiaryReadParams) (d : Disk) (content : string) :
  files d !! DIARY_PATH host = Some content →
  wellFormed content →
  diaryRead host sort getTime params d
  = (Normal
       (let found :=
          sort (newestFirst getTime)
               (List.filter (wanted params) (entriesOf content)) in
        {| entries := match limit params with
                      | Some n => if n =? 0 then found else slice0 n found
                      | None => found
                      end;
           total := Z.of_nat (List.length found) |}), d).
Proof.
  intros Hfile Hok. unfold diaryRead, readFile.
  unfold Js.bind, Js.lift, Js.ret. rewrite Hfile.
  rewrite bool_decide_eq_true_2 by eauto. cbv beta iota zeta delta [negb].
  rewrite Hfile. cbv beta iota.
  rewrite (ReadFacts.mapC_parseLine_wellformed _ _ Hok). cbv beta iota.
  rewrite !filter_when, !filter_twice.
  rewrite (filter_ext _ (wanted params)); [done|].
  intros e. unfold wanted. by rewrite !andb_assoc.
Qed.

(** What [diaryRead] selects, on a diary whose lines all parse and with a
    sort that permutes its array.  The entries returned are entries of the
    diary that pass every filter given; [total] counts the entries that
    pass, before the limit; without a limit, or with the limit 0, all of
    them are returned; a limit above 0 returns that many, or all when there
    are fewer. *)
Theorem diaryRead_selects (params : DiaryReadParams) (d : Disk) (content : string) :
  (∀ cmp l, sort cmp l ≡ₚ l) →
  files d !! DIARY_PATH host = Some content →
  wellFormed content →
  ∃ result,
    diaryRead host sort getTime params d = (Normal result, d)
    ∧ total result
      = Z.of_nat (List.length (List.filter (wanted params) (entriesOf content)))
    ∧ (∀ e, e ∈ entries result → e ∈ entriesOf content ∧ wanted params e = true)
    ∧ (limit params = None ∨ limit params = Some 0 →
       entries result ≡ₚ List.filter (wanted params) (entriesOf content))
    ∧ (∀ n, limit params = Some n → 0 < n →
       Z.of_nat (List.length (entries result)) = Z.min n (total result)).
Proof.
  intros Hsort Hfile Hok. eexists. split; [by apply diaryRead_run|].
  cbv zeta. cbn [entries total].
  set (found := sort _ _).
  assert (Hperm : found ≡ₚ List.filter (wanted params) (entriesOf content))
    by apply Hsort.
  split; [by rewrite Hperm|]. split; [|split].
  - intros e He. apply filter_elem. rewrite <- Hperm.
    destruct (limit params) as [n|]; [|done].
    destruct (n =? 0); [done|]. by apply slice0_elem in He.
  - by intros [-> | ->].
  - intros n -> Hn. rewrite (proj2 (Z.eqb_neq n 0)) by lia.
    by apply length_slice0.
Qed.

(** What an accepted [diaryWrite] leaves. *)
Lemma diaryWrite_wrote (now uuid : string) (params : DiaryWriteParams) (d : Disk)
    (w : DiaryWriteResult) :
  (diaryWrite host now uuid params d).1 = Normal w →
  (diaryWrite host now uuid params d).2
  = fill (DIARY_PATH host) (default "" (files d !! DIARY_PATH host))
         (stringify (entry w) +:+ nl) d.
Proof.
  unfold diaryWrite.
  destruct (isEmpty _ || _); [done|]. destruct (_ <? 50); [done|].
  unfold Js.bind, appendFile, Js.ret. simpl. by intros [= <-].
Qed.


(** What [diaryWrite] wrote, [diaryRead] reads.  On a diary of record lines
    that all parse (or no diary yet), after a write whose entry prints to a
    record line that parses back, a read without a limit returns, up to the
    order, the entries of the old lines and the new entry that pass the
    filters; so the new entry is returned exactly when it passes them. *)
Theorem diaryWrite_then_read (now uuid : string) (wparams : DiaryWriteParams)
    (rparams : DiaryReadParams) (ls : list string) (w : DiaryWriteResult)
    (d : Disk) :
  (∀ cmp l, sort cmp l ≡ₚ l) →
  (diaryWrite host now uuid wparams d).1 = Normal w →
  default "" (files d !! DIARY_PATH host) = unlines ls →
  forallb Lines.recordLine ls = true →
  Forall (λ line, is_Some (parse (A:=DiaryEntry) line)) ls →
  Lines.recordLine (stringify (entry w)) = true →
  parse (stringify (entry w)) = Some (entry w) →
  limit rparams = None →
  let d' := (diaryWrite host now uuid wparams d).2 in
  ∃ result,
    diaryRead host sort getTime rparams d' = (Normal result, d')
    ∧ entries result ≡ₚ List.filter (wanted rparams) (omap parse ls ++ [entry w])
    ∧ total result = Z.of_nat (List.length (entries result))
    ∧ (entry w ∈ entries result ↔ wanted rparams (entry w) = true).
Proof.
  intros Hsort Hw Hold Hls Hparse Hline Hback Hlimit d'.
  pose proof (diaryWrite_wrote now uuid wparams d w Hw) as Hd.
  assert (Hfile : files d' !! DIARY_PATH host
                  = Some (unlines (ls ++ [stringify (entry w)]))).
  { subst d'. rewrite Hd. unfold fill. cbn [files].
    by rewrite lookup_insert_eq, Hold, LineFacts.unlines_snoc. }
  assert (Hall : forallb Lines.recordLine (ls ++ [stringify (entry w)]) = true).
  { rewrite forallb_app, Hls. cbn [forallb]. by rewrite Hline. }
  assert (Hlines : diaryLines (unlines (ls ++ [stringify (entry w)]))
                   = ls ++ [stringify (entry w)])
    by (by apply LineFacts.diaryLines_unlines).
  assert (Hok : wellFormed (unlines (ls ++ [stringify (entry w)]))).
  { unfold wellFormed. rewrite Hlines. apply Forall_app. split; [done|].
    apply Forall_singleton. by rewrite Hback. }
  assert (Hentries : entriesOf (unlines (ls ++ [stringify (entry w)]))
                     = omap parse ls ++ [entry w]).
  { unfold entriesOf. rewrite Hlines, omap_app.
    change (omap parse [stringify (entry w)])
      with (match parse (stringify (entry w)) with Some e => [e] | None => [] end).
    by rewrite Hback. }
  eexists. split; [by apply diaryRead_run|].
  cbv zeta. cbn [entries total]. rewrite Hlimit, Hentries.
  set (found := sort _ _).
  assert (Hperm : found ≡ₚ List.filter (wanted rparams) (omap parse ls ++ [entry w]))
    by apply Hsort.
  split; [done|]. split; [done|].
  rewrite Hperm, filter_elem. split; [by intros [_ ?]|].
  intros Hwanted. split; [|done]. apply elem_of_app. right. by left.
Qed.

(** [diaryToday], on a diary whose lines all parse: it returns an entry of
    the diary dated today or later, and null exactly when the diary has no
    such entry. *)
Theorem diaryToday_from_today (now : string) (d : Disk) (content : string) :
  (∀ cmp l, sort cmp l ≡ₚ l) →
  isoDate now ≠ "" →
  files d !! DIARY_PATH host = Some content →
  wellFormed content →
  ∃ r,
    diaryToday host sort getTime now d = (Normal r, d)
    ∧ (∀ e, r = Some e →
            e ∈ entriesOf content ∧ str_ge (date e) (isoDate now) = true)
    ∧ (r = None ↔
       ∀ e, e ∈ entriesOf content → str_ge (date e) (isoDate now) = false).
Proof.
  intros Hsort Htoday Hfile Hok. unfold diaryToday. unfold Js.bind at 1.
  rewrite (diaryRead_run _ d content Hfile Hok). cbv beta iota zeta.
  cbn [entries limit]. simpl (1 =? 0). cbv iota.
  set (params := {| limit := Some 1; after := Some (isoDate now) |}).
  assert (Hwanted : ∀ e, wanted params e = str_ge (date e) (isoDate now)).
  { intros e. unfold wanted. cbn [after before r_mood tag params truthy].
    destruct (isoDate now) eqn:E; [done|]. simpl.
    by rewrite !andb_true_r. }
  set (found := sort _ _).
  assert (Hperm : found ≡ₚ List.filter (wanted params) (entriesOf content))
    by apply Hsort.
  assert (Hhead : (if Z.of_nat (List.length (slice0 1 found)) >? 0
                   then head (slice0 1 found) else None) = head found).
  { unfold slice0. simpl. by destruct found. }
  unfold Js.ret. rewrite Hhead. eexists. split; [done|]. split.
  - intros e He.
    assert (Hin : e ∈ found) by (destruct found; [done|]; injection He as ->; by left).
    rewrite Hperm, filter_elem, Hwanted in Hin. done.
  - split.
    + intros Hnone e He.
      destruct (str_ge (date e) (isoDate now)) eqn:E; [|done].
      assert (Hin : e ∈ found) by (by rewrite Hperm, filter_elem, Hwanted).
      destruct found; [by apply elem_of_nil in Hin|done].
    + intros Hno. destruct found as [|e found'] eqn:E; [done|].
      assert (Hin : e ∈ List.filter (wanted params) (entriesOf content))
        by (rewrite <- Hperm; by left).
      apply filter_elem in Hin as [Hin Hw]. rewrite Hwanted in Hw.
      by rewrite (Hno e Hin) in Hw.
Qed.

End WithCodec.

(** A diary of the one sample entry, read without filters. *)
Lemma diaryRead_selects_witness :
  ∃ result,
    @diaryRead Samples.posixHost Samples.entryCodec (λ _ l, l) (λ _, None)
      Samples.readAll
      (Samples.diskWith (DIARY_PATH Samples.posixHost) (Samples.entryLine +:+ nl))
    = (Normal result,
       Samples.diskWith (DIARY_PATH Samples.posixHost) (Samples.entryLine +:+ nl))
    ∧ total result = 1.
Proof.
  destruct (@diaryRead_selects Samples.posixHost Samples.entryCodec (λ _ l, l)
              (λ _, None) Samples.readAll
              (Samples.diskWith (DIARY_PATH Samples.posixHost)
                 (Samples.entryLine +:+ nl))
              (Samples.entryLine +:+ nl))
    as (result & Hrun & Htotal & _).
  - done.
  - reflexivity.
  - apply Forall_singleton. by eexists.
  - exists result. split; [exact Hrun|]. by rewrite Htotal.
Defined.

(** The first entry of a diary, written at ten o'clock and read back. *)
Lemma diaryWrite_then_read_witness :
  ∃ result,
    (@diaryRead Samples.posixHost Samples.longCodec (λ _ l, l) (λ _, None)
       Samples.readAll
       (@diaryWrite Samples.posixHost Samples.longCodec Samples.tenOClock "e2"
          (Samples.reflecting Samples.longReflections) Samples.emptyDisk).2).1
    = Normal result
    ∧ Samples.longEntry ∈ entries result.
Proof.
  destruct (@diaryWrite_then_read Samples.posixHost Samples.longCodec (λ _ l, l)
              (λ _, None) Samples.tenOClock "e2"
              (Samples.reflecting Samples.longReflections) Samples.readAll []
              {| success := true; entry := Samples.longEntry |}
              Samples.emptyDisk)
    as (result & Hrun & _ & _ & Hin).
  - done.
  - reflexivity.
  - reflexivity.
  - reflexivity.
  - done.
  - by vm_compute.
  - by vm_compute.
  - reflexivity.
  - exists result. split; [by rewrite Hrun|]. by apply Hin.
Defined.


(** The diary of the sample entry, on its day. *)
Lemma diaryToday_from_today_witness :
  ∃ r,
    @diaryToday Samples.posixHost Samples.entryCodec (λ _ l, l) (λ _, None)
      Samples.tenOClock
      (Samples.diskWith (DIARY_PATH Samples.posixHost) (Samples.entryLine +:+ nl))
    = (Normal r,
       Samples.diskWith (DIARY_PATH Samples.posixHost) (Samples.entryLine +:+ nl))
    ∧ r ≠ None.
Proof.
  destruct (@diaryToday_from_today Samples.posixHost Samples.entryCodec (λ _ l, l)
              (λ _, None) Samples.tenOClock
              (Samples.diskWith (DIARY_PATH Samples.posixHost)
                 (Samples.entryLine +:+ nl))
              (Samples.entryLine +:+ nl))
    as (r & Hrun & _ & Hnone).
  - done.
  - done.
  - reflexivity.
  - apply Forall_singleton. by eexists.
  - exists r. split; [exact Hrun|]. intros Hr.
    pose proof (proj1 Hnone Hr Samples.sampleEntry) as Hno.
    by specialize (Hno ltac:(by left)).
Defined.

End DiaryFacts.

(** ** The captures *)

Module CaptureFacts.
Import Js Fs QuickCapture Captures.

(** Decide the comparisons of two literals in the goal. *)
Ltac decide_literals :=
  repeat match goal with
         | |- context [@bool_decide (?a = ?b) ?dec] =>
             let v := eval vm_compute in (@bool_decide (a = b) dec) in
             match v with
             | true => idtac
             | false => idtac
             end;
             change (@bool_decide (a = b) dec) with v
         end;
  cbv iota.

Lemma includes_app_l (a b x : string) :
  includes a x = true → includes (a +:+ b) x = true.
Proof.
  intros (l & r & ->)%JsFacts.includes_spec. apply JsFacts.includes_spec.
  exists l, (r +:+ b). by rewrite !JsFacts.app_assoc.
Qed.

Section WithCodec.
Variable host : Host.
Context `{JsonCodec Task}.
Variables now dayAhead uuid : string.

Lemma validateParams_accepted (params : QuickCaptureParams) :
  validateParams params = None ↔ accepted params.
Proof.
  unfold validateParams, accepted. rewrite MemoryUpdateFacts.blank_guard_eq.
  destruct (whitespaceOnly (content params)); [by split; [|intros [? _]]|].
  destruct (decide (type params ∈ VALID_TYPES)) as [Hty|Hty].
  - rewrite (bool_decide_eq_true_2 _ Hty). cbn [negb].
    destruct (truthy (priority params)); cbn [andb].
    + destruct (decide (default "" (priority params) ∈ VALID_PRIORITIES)) as [Hp|Hp].
      * rewrite (bool_decide_eq_true_2 _ Hp). by cbn [negb].
      * rewrite (bool_decide_eq_false_2 _ Hp). cbn [negb].
        split; [done|]. intros (_ & _ & Hpr). by destruct Hp; apply Hpr.
    + split; [|done]. intros _. by repeat split.
  - rewrite (bool_decide_eq_false_2 _ Hty). cbn [negb].
    split; [done|]. by intros (_ & ? & _).
Qed.

(** [quickCapture] once the parameters are validated. *)
Lemma quickCapture_run (params : QuickCaptureParams) (d : Disk) :
  accepted params →
  quickCapture host now dayAhead uuid params d
  = (let memoryDir := memoryDirOf host params in
     if bool_decide (type params = "task")
     then captureTask host now dayAhead uuid params memoryDir
     else if bool_decide (type params = "uncertainty")
     then captureUncertainty host now params memoryDir
     else if bool_decide (type params = "note")
     then captureNote host now params memoryDir
     else Js.ret (failure
            "Thread capture not yet implemented - use thread-marker tool")) d.
Proof.
  intros Hok. pose proof Hok as (_ & Hty & _).
  apply validateParams_accepted in Hok.
  unfold quickCapture. rewrite Hok. unfold memoryDirOf, mkdir, Js.tryCatch, Js.bind, Js.ret.
  cbv beta iota zeta.
  repeat case_bool_decide; try done.
  exfalso. unfold VALID_TYPES in Hty.
  repeat (apply elem_of_cons in Hty as [Hty|Hty]; [congruence|]).
  by apply elem_of_nil in Hty.
Qed.

(** What the body of the daily captures leaves. *)
Lemma captureInDaily_run (heading failed : string) (params : QuickCaptureParams)
    (memoryDir : string) (d : Disk) :
  captureInDaily host now heading failed params memoryDir d
  = (Normal (wroteDaily
               (path_join host [memoryDir; "private"; isoDate now +:+ "-daily.md"])),
     fill (path_join host [memoryDir; "private"; isoDate now +:+ "-daily.md"]) ""
          (default (dailyHeader now)
             (files d !! path_join host
                           [memoryDir; "private"; isoDate now +:+ "-daily.md"])
           +:+ (if includes
                     (default (dailyHeader now)
                        (files d !! path_join host
                           [memoryDir; "private"; isoDate now +:+ "-daily.md"]))
                     heading
                then "" else sectionOf heading)
           +:+ itemOf (content params)) d).
Proof.
  set (dailyPath := path_join host [memoryDir; "private"; isoDate now +:+ "-daily.md"]).
  unfold captureInDaily, mkdir, readFile, writeFile.
  unfold Js.tryCatch, Js.bind, Js.ret, ENOENT, Js.throw. cbv beta iota zeta.
  fold dailyPath. unfold dailyHeader, sectionOf, itemOf.
  destruct (files d !! dailyPath) as [content|]; cbn [default from_option Datatypes.id];
    cbv beta iota; (destruct (includes _ heading); cbn [negb]; cbv beta iota;
                    unfold wroteDaily; rewrite ?JsFacts.app_nil_l, ?JsFacts.app_assoc;
                    reflexivity).
Qed.

(** The outcome of [quickCapture].  It always answers with a result, never
    with an exception.  The result is a success exactly when the content is
    not blank, the type is task, uncertainty or note, and the priority, when
    given, is low, medium or high; the type thread passes the validation and
    is then refused.  A failure carries an error text and creates or changes
    no file; the refusal of the type thread comes after the [mkdir] of the
    memory directories, which may have been made. *)
Theorem quickCapture_outcome (params : QuickCaptureParams) (d : Disk) :
  ∃ result,
    (quickCapture host now dayAhead uuid params d).1 = Normal result
    ∧ (success result = true ↔ accepted params ∧ type params ≠ "thread")
    ∧ (success result = false →
       files (quickCapture host now dayAhead uuid params d).2 = files d
       ∧ is_Some (error result)).
Proof.
  destruct (validateParams params) as [msg|] eqn:Hvalid.
  - exists (failure msg). unfold quickCapture. rewrite Hvalid.
    split; [done|]. split; [|by eauto].
    split; [done|]. intros [Hok%validateParams_accepted _]. congruence.
  - apply validateParams_accepted in Hvalid as Hok.
    rewrite (quickCapture_run _ _ Hok). cbv zeta.
    destruct Hok as (_ & Hty & _). unfold VALID_TYPES in Hty.
    assert (Hcases : type params = "task" ∨ type params = "uncertainty"
                     ∨ type params = "thread" ∨ type params = "note").
    { repeat (apply elem_of_cons in Hty as [Hty|Hty]; [tauto|]).
      by apply elem_of_nil in Hty. }
    clear Hty.
    destruct Hcases as [Hty|[Hty|[Hty|Hty]]]; rewrite Hty; decide_literals.
    + eexists. unfold captureTask, Js.tryCatch, Js.bind, Js.ret, appendFile.
      cbv beta iota zeta. split; [reflexivity|]. cbn [success].
      split; [|done]. split; [|done]. intros _.
      split; [by apply validateParams_accepted|done].
    + eexists. unfold captureUncertainty. rewrite captureInDaily_run.
      split; [reflexivity|]. cbn [success wroteDaily].
      split; [|done]. split; [|done]. intros _.
      split; [by apply validateParams_accepted|done].
    + eexists. unfold Js.ret. split; [reflexivity|]. cbn [success failure].
      split; [|by eauto]. split; [done|]. by intros [_ ?].
    + eexists. unfold captureNote. rewrite captureInDaily_run.
      split; [reflexivity|]. cbn [success wroteDaily].
      split; [|done]. split; [|done]. intros _.
      split; [by apply validateParams_accepted|done].
Qed.

(** [quickCapture] of a note or of an uncertainty. *)
Lemma quickCapture_daily (params : QuickCaptureParams) (d : Disk) :
  accepted params → type params ∈ ["note"; "uncertainty"] →
  let dailyPath := dailyPathOf host now params in
  let base := default (dailyHeader now) (files d !! dailyPath) in
  quickCapture host now dayAhead uuid params d
  = (Normal (wroteDaily dailyPath),
     fill dailyPath ""
          (base +:+ (if includes base (headingOf (type params)) then ""
                     else sectionOf (headingOf (type params)))
           +:+ itemOf (content params)) d).
Proof.
  intros Hok Hty dailyPath base. subst base dailyPath.
  rewrite (quickCapture_run _ _ Hok). cbv zeta. unfold dailyPathOf.
  assert (Hcases : type params = "note" ∨ type params = "uncertainty").
  { repeat (apply elem_of_cons in Hty as [Hty|Hty]; [tauto|]).
    by apply elem_of_nil in Hty. }
  destruct Hcases as [Hcase|Hcase]; rewrite Hcase; decide_literals;
    [unfold captureNote|unfold captureUncertainty]; by rewrite captureInDaily_run.
Qed.

(** A note or an uncertainty goes to the end of the daily file of the day.
    The capture keeps what the file held, or starts it with the title of the
    day; it opens the section of its type when the file does not hold that
    heading yet, and puts the item, the trimmed content, last.  No other
    file changes.  A second capture of the type, the same day, appends its
    item and nothing else: the heading is written once. *)
Theorem daily_capture_appends (params : QuickCaptureParams) (d : Disk) :
  accepted params → type params ∈ ["note"; "uncertainty"] →
  let dailyPath := dailyPathOf host now params in
  let heading := headingOf (type params) in
  let base := default (dailyHeader now) (files d !! dailyPath) in
  let new := base +:+ (if includes base heading then "" else sectionOf heading)
             +:+ itemOf (content params) in
  let d' := (quickCapture host now dayAhead uuid params d).2 in
  (quickCapture host now dayAhead uuid params d).1 = Normal (wroteDaily dailyPath)
  ∧ files d' !! dailyPath = Some new
  ∧ (∀ q, q ≠ dailyPath → files d' !! q = files d !! q)
  ∧ ∀ params',
      accepted params' → type params' = type params →
      workspaceRoot params' = workspaceRoot params →
      files (quickCapture host now dayAhead uuid params' d').2 !! dailyPath
      = Some (new +:+ itemOf (content params')).
Proof.
  intros Hok Hty dailyPath heading base new d'. subst d'.
  rewrite (quickCapture_daily _ _ Hok Hty). fold dailyPath heading base new.
  cbn [fst snd]. unfold fill at 1 2. cbn [files].
  split; [done|]. split; [by rewrite lookup_insert_eq|].
  split; [intros q Hq; by rewrite lookup_insert_ne|].
  intros params' Hok' Hty' Hroot.
  assert (Hpath : dailyPathOf host now params' = dailyPath)
    by (unfold dailyPath, dailyPathOf, memoryDirOf; by rewrite Hroot).
  rewrite quickCapture_daily; [|done|by rewrite Hty'].
  rewrite Hpath, Hty'. fold heading. unfold fill. cbn [snd files].
  rewrite !lookup_insert_eq. cbn [default from_option Datatypes.id].
  assert (Hhas : includes new heading = true).
  { subst new. destruct (includes base heading) eqn:Hbase.
    - by apply includes_app_l.
    - apply JsFacts.includes_spec.
      exists (base +:+ nl), (nl +:+ nl +:+ itemOf (content params)).
      unfold sectionOf. by rewrite !JsFacts.app_assoc. }
  by rewrite !JsFacts.app_nil_l, Hhas, JsFacts.app_nil_l.
Qed.

Lemma captureTask_run (params : QuickCaptureParams) (memoryDir : string) (d : Disk) :
  captureTask host now dayAhead uuid params memoryDir d
  = (Normal (wroteTask uuid (path_join host [memoryDir; "tasks.jsonl"])),
     fill (path_join host [memoryDir; "tasks.jsonl"])
          (default "" (files d !! path_join host [memoryDir; "tasks.jsonl"]))
          (stringify (capturedTask now dayAhead uuid params) +:+ nl) d).
Proof. reflexivity. Qed.

(** A captured task is in the next listing of the executor.  On a task log
    of record lines that all parse to tasks (or no log yet), when the
    captured task prints to a record line and [task] is what the executor
    parses that line to, the capture answers with the new id and the path
    of the log and appends that one line; the executor then lists [task],
    and no other record with its id, without a filter, with the filter
    "all" and with the status of [task] as filter. *)
Theorem capture_then_list (taskJson : JsonCodec TaskExecutor.Task)
    (execAsync : string → IO string) (params : QuickCaptureParams)
    (ls : list string) (task : TaskExecutor.Task) (d : Disk) :
  accepted params → type params = "task" →
  let tasksPath := tasksPathOf host params in
  let line := stringify (capturedTask now dayAhead uuid params) in
  default "" (files d !! tasksPath) = unlines ls →
  forallb Lines.recordLine ls = true →
  Forall (λ l, is_Some (parse (A:=TaskExecutor.Task) l)) ls →
  Lines.recordLine line = true →
  parse line = Some task →
  let d' := (quickCapture host now dayAhead uuid params d).2 in
  (quickCapture host now dayAhead uuid params d).1 = Normal (wroteTask uuid tasksPath)
  ∧ files d' !! tasksPath = Some (unlines (ls ++ [line]))
  ∧ ∀ filter, filter ∈ [None; Some "all"; Some (TaskExecutor.status task)] →
      ∃ l, (TaskExecutor.taskExecutor host execAsync now
              (Requests.listOf (workspaceRoot params) filter) d').1
           = Normal (Requests.listed l)
           ∧ task ∈ l
           ∧ ∀ t, t ∈ l → TaskExecutor.id t = TaskExecutor.id task → t = task.
Proof.
  intros Hok Hty tasksPath line Hold Hls _ Hline Hparse d'. subst d'.
  rewrite (quickCapture_run _ _ Hok). cbv zeta. rewrite Hty. decide_literals.
  rewrite captureTask_run. fold (tasksPathOf host params). fold tasksPath line.
  cbn [fst snd].
  assert (Hfile : files (fill tasksPath (default "" (files d !! tasksPath))
                              (line +:+ nl) d) !! tasksPath
                  = Some (unlines (ls ++ [line]))).
  { unfold fill. cbn [files].
    by rewrite lookup_insert_eq, Hold, LineFacts.unlines_snoc. }
  split; [done|]. split; [exact Hfile|].
  intros filter Hfilter.
  destruct (ExecutorFacts.list_after_append host execAsync now
              (workspaceRoot params) filter ls line task _ Hfile)
    as (l & Hrun & Hl); [|done|done|].
  { rewrite forallb_app, Hls. cbn [forallb]. by rewrite Hline. }
  exists l. split; [exact (f_equal fst Hrun)|exact Hl].
Qed.

End WithCodec.

(** The first note of the 5th of February. *)
Lemma daily_capture_appends_witness :
  files (@quickCapture Samples.posixHost Samples.captureCodec
           "2026-02-05T10:00:00.000Z" "2026-02-06T10:00:00.000Z" "n1"
           (Samples.noting "Call home") Samples.emptyDisk).2
    !! "/ws/memory/private/2026-02-05-daily.md"
  = Some (dailyHeader "2026-02-05T10:00:00.000Z" +:+ sectionOf "## Notes"
          +:+ itemOf "Call home").
Proof.
  refine (proj1 (proj2
    (@daily_capture_appends Samples.posixHost Samples.captureCodec
       "2026-02-05T10:00:00.000Z" "2026-02-06T10:00:00.000Z" "n1"
       (Samples.noting "Call home") Samples.emptyDisk _ _))).
  - split; [done|]. split; [|done]. unfold VALID_TYPES.
    right. right. right. by left.
  - by left.
Defined.

(** "Buy milk", captured at ten o'clock, is listed as pending. *)
Lemma capture_then_list_witness :
  ∃ l, (@TaskExecutor.taskExecutor Samples.posixHost Samples.interopCodec
          Samples.silentShell "2026-02-05T10:00:00.000Z"
          (Requests.listOf (Some "/ws") (Some "pending"))
          (@quickCapture Samples.posixHost Samples.captureCodec
             "2026-02-05T10:00:00.000Z" "2026-02-06T10:00:00.000Z" "t2"
             (Samples.capturing "Buy milk") Samples.emptyDisk).2).1
       = Normal (Requests.listed l)
       ∧ Samples.boughtMilk ∈ l.
Proof.
  destruct (proj2 (proj2
    (@capture_then_list Samples.posixHost Samples.captureCodec
       "2026-02-05T10:00:00.000Z" "2026-02-06T10:00:00.000Z" "t2"
       Samples.interopCodec Samples.silentShell
       (Samples.capturing "Buy milk") [] Samples.boughtMilk Samples.emptyDisk
       ltac:(split; [done|]; split; [by left|done]) eq_refl eq_refl eq_refl
       (Forall_nil_2 _) ltac:(by vm_compute) ltac:(by vm_compute)))
    (Some "pending") ltac:(right; right; by left))
    as (l & Hrun & Hin & _).
  exists l. split; [exact Hrun|exact Hin].
Defined.

End CaptureFacts.

(** ** The research quota *)

Module QuotaFacts.
Import Js Fs Research Usage.

Section WithCodecs.
Variable host : Host.
Context (usageJson : JsonCodec UsageLogEntry) (configJson : JsonCodec ResearchConfig).
Variable now : string.

(** The loop of [countTodayUsage] counts the entries of today that are Deep
    Research uses. *)
Lemma count_loop (todayStr : string) (lines : list string) (n : Z) :
  fold_left
    (λ count line,
       match parse line with
       | Some entry =>
           if bool_decide (date entry = todayStr)
              && bool_decide (provider entry = "deep-research")
           then count + 1 else count
       | None => count
       end) lines n
  = n + Z.of_nat (List.length (List.filter (isDeepOn todayStr) (omap parse lines))).
Proof.
  revert n. induction lines as [|line lines IH]; intros n; [simpl; lia|].
  cbn [fold_left]. rewrite IH.
  change (omap (@parse _ usageJson) (line :: lines))
    with (match @parse _ usageJson line with
          | Some e => e :: omap parse lines
          | None => omap parse lines
          end).
  destruct (@parse _ usageJson line) as [entry|]; [|done].
  cbn [List.filter]. unfold isDeepOn at 2.
  destruct (_ && _); cbn [List.length]; lia.
Qed.

Lemma countTodayUsage_run (logFile todayStr : string) (d : Disk) :
  countTodayUsage logFile todayStr d = (Normal (deepUses todayStr d logFile), d).
Proof.
  unfold countTodayUsage, Js.bind. rewrite FsFacts.safeReadFile_run.
  unfold deepUses, entriesOf.
  destruct (files d !! logFile) as [content|]; [|done].
  cbn [truthy default from_option Datatypes.id].
  destruct content as [|c content]; [done|].
  cbn [isEmpty negb]. unfold Js.ret. by rewrite count_loop.
Qed.

Lemma checkQuota_run (configFile logFile : string) (d : Disk) :
  checkQuota now configFile logFile d
  = match limitOn d configFile with
    | Some lim =>
        let used := deepUses (isoDate now) d logFile in
        (Normal {| limit := lim; used := used;
                   remaining := Z.max 0 (lim - used);
                   canUseDeepResearch := Z.max 0 (lim - used) >? 0 |}, d)
    | None => (Throw (Error ("Invalid JSON in " +:+ configFile)), d)
    end.
Proof.
  unfold checkQuota, readJSON, limitOn. unfold Js.bind at 1. unfold Js.bind at 1.
  rewrite FsFacts.safeReadFile_run.
  destruct (files d !! configFile) as [content|].
  - destruct (parse content) as [config|]; [|done].
    cbv beta iota. unfold Js.ret at 1. cbv beta iota.
    unfold Js.bind. by rewrite countTodayUsage_run.
  - unfold Js.ret at 1. cbv beta iota.
    unfold Js.bind. by rewrite countTodayUsage_run.
Qed.

Lemma routeResearch_unforced (configFile logFile : string) (d : Disk) :
  routeResearch now configFile logFile unforced d
  = match limitOn d configFile with
    | Some lim =>
        (Normal (if bool_decide (deepUses (isoDate now) d logFile < lim)
                 then {| r_provider := "deep-research"; reason := "under quota" |}
                 else {| r_provider := "perplexity"; reason := "quota exceeded" |}),
         d)
    | None => (Throw (Error ("Invalid JSON in " +:+ configFile)), d)
    end.
Proof.
  unfold routeResearch.
  cbn [unforced forceDeep forcePerplexity default from_option Datatypes.id].
  cbv iota. unfold Js.bind. rewrite checkQuota_run.
  destruct (limitOn d configFile) as [lim|]; [|done].
  cbv beta iota zeta. cbn [canUseDeepResearch].
  case_bool_decide as Hused.
  - by rewrite (proj2 (Z.gtb_lt _ _)) by lia.
  - by rewrite Z.gtb_ltb, (proj2 (Z.ltb_ge _ _)) by lia.
Qed.

(** How [routeResearch] decides.  A forced choice is returned without
    reading a file, Deep Research first when both are forced.  Without a
    forced choice the provider is Deep Research exactly when the number of
    Deep Research entries of today in the log is below the limit, that of
    the configuration or 15 without a configuration file; nothing else of
    the configuration is read.  A configuration that does not parse makes
    the routing throw.  The disk is never changed. *)
Theorem route_decision (configFile logFile : string) (d : Disk) :
  (∀ options,
     forceDeep options = Some true →
     routeResearch now configFile logFile options d
     = (Normal {| r_provider := "deep-research"; reason := "forced" |}, d))
  ∧ (∀ options,
       default false (forceDeep options) = false →
       forcePerplexity options = Some true →
       routeResearch now configFile logFile options d
       = (Normal {| r_provider := "perplexity"; reason := "forced" |}, d))
  ∧ (∀ lim,
       limitOn d configFile = Some lim →
       routeResearch now configFile logFile unforced d
       = (Normal (if bool_decide (deepUses (isoDate now) d logFile < lim)
                  then {| r_provider := "deep-research"; reason := "under quota" |}
                  else {| r_provider := "perplexity"; reason := "quota exceeded" |}),
          d))
  ∧ (limitOn d configFile = None →
     routeResearch now configFile logFile unforced d
     = (Throw (Error ("Invalid JSON in " +:+ configFile)), d)).
Proof.
  split; [|split; [|split]].
  - intros options Hdeep. unfold routeResearch. by rewrite Hdeep.
  - intros options Hdeep Hperplexity. unfold routeResearch.
    by rewrite Hdeep, Hperplexity.
  - intros lim Hlim. by rewrite routeResearch_unforced, Hlim.
  - intros Hlim. by rewrite routeResearch_unforced, Hlim.
Qed.

(** The entries that the reset keeps are none of today. *)
Lemma kept_not_today (lines : list string) :
  List.filter (isDeepOn (isoDate now))
    (omap parse (List.filter (notFromToday (isoDate now)) lines)) = [].
Proof.
  induction lines as [|line lines IH]; [done|].
  cbn [List.filter]. unfold notFromToday at 1.
  destruct (@parse _ usageJson line) as [entry|] eqn:Hparse.
  - case_bool_decide as Hdate; cbn [negb]; [exact IH|].
    change (omap (@parse _ usageJson) (line :: ?l))
      with (match @parse _ usageJson line with
            | Some e => e :: omap parse l
            | None => omap parse l
            end).
    rewrite Hparse. cbn [List.filter]. unfold isDeepOn at 1.
    by rewrite (bool_decide_eq_false_2 _ Hdate).
  - change (omap (@parse _ usageJson) (line :: ?l))
      with (match @parse _ usageJson line with
            | Some e => e :: omap parse l
            | None => omap parse l
            end).
    by rewrite Hparse.
Qed.

(** After a reset the count of today is zero, whatever the log held: so
    the next routing without a forced choice, under a limit above zero,
    is Deep Research. *)
Theorem reset_clears_today (logFile : string) (d : Disk) :
  let d' := (resetDailyQuota host now logFile d).2 in
  countTodayUsage logFile (isoDate now) d' = (Normal 0, d')
  ∧ ∀ configFile lim,
      configFile ≠ logFile → configFile ≠ logFile +:+ ".tmp" →
      limitOn d configFile = Some lim → 0 < lim →
      routeResearch now configFile logFile unforced d'
      = (Normal {| r_provider := "deep-research"; reason := "under quota" |}, d').
Proof.
  intros d'.
  assert (Hzero : deepUses (isoDate now) d' logFile = 0).
  { subst d'. rewrite UsageFacts.resetDailyQuota_run. unfold deepUses, entriesOf.
    destruct (files d !! logFile) as [content|] eqn:Hfile.
    - destruct content as [|c content]; cbn [isEmpty snd]; [by rewrite Hfile|].
      rewrite FsMoreFacts.atomicWrite_files, lookup_insert_eq.
      cbn [default from_option Datatypes.id].
      rewrite UsageFacts.usageLines_unlines
        by apply UsageFacts.Forall_filter_keep, UsageFacts.usageLines_pieces.
      by rewrite kept_not_today.
    - cbn [snd]. by rewrite Hfile. }
  split; [by rewrite countTodayUsage_run, Hzero|].
  intros configFile lim Hne Htmp Hlim Hpos.
  assert (Hconfig : files d' !! configFile = files d !! configFile).
  { subst d'. rewrite UsageFacts.resetDailyQuota_run.
    destruct (files d !! logFile) as [content|]; [|done].
    destruct (isEmpty content); [done|].
    rewrite FsMoreFacts.atomicWrite_files. cbn [noOptions backup default from_option].
    by rewrite lookup_insert_ne, lookup_delete_ne. }
  rewrite routeResearch_unforced. unfold limitOn in *. rewrite Hconfig, Hlim, Hzero.
  by rewrite bool_decide_eq_true_2.
Qed.

(** Logging a use counts it.  On a log of record lines (or no log yet),
    when the entry prints to a record line that parses back, [logUsage]
    raises the count of today by one for the provider "deep-research" and
    leaves it for any other provider.  So the use that reaches the limit
    turns the routing from Deep Research to Perplexity. *)
Theorem logUsage_counts (logFile provider query : string) (ls : list string)
    (d : Disk) :
  let entry := entryOf now provider query in
  let today := isoDate now in
  let d' := (logUsage host now logFile provider query d).2 in
  default "" (files d !! logFile) = unlines ls →
  forallb Lines.recordLine ls = true →
  Lines.recordLine (stringify entry) = true →
  parse (stringify entry) = Some entry →
  deepUses today d' logFile
  = deepUses today d logFile
    + (if bool_decide (provider = "deep-research") then 1 else 0)
  ∧ ∀ configFile lim,
      configFile ≠ logFile → limitOn d configFile = Some lim →
      provider = "deep-research" → deepUses today d logFile + 1 = lim →
      routeResearch now configFile logFile unforced d
      = (Normal {| r_provider := "deep-research"; reason := "under quota" |}, d)
      ∧ routeResearch now configFile logFile unforced d'
        = (Normal {| r_provider := "perplexity"; reason := "quota exceeded" |}, d').
Proof.
  intros entry today d' Hold Hls Hline Hparse.
  assert (Hfile : files d' !! logFile = Some (unlines (ls ++ [stringify entry]))).
  { subst d'. rewrite UsageFacts.logUsage_run. unfold appendFile, fill. cbn [snd files].
    by rewrite lookup_insert_eq, Hold, LineFacts.unlines_snoc. }
  assert (Hcount : deepUses today d' logFile
                   = deepUses today d logFile
                     + (if bool_decide (provider = "deep-research") then 1 else 0)).
  { unfold deepUses, entriesOf. rewrite Hfile, Hold.
    cbn [default from_option Datatypes.id].
    rewrite !LineFacts.usageLines_record_unlines; [|done|].
    2:{ rewrite forallb_app, Hls. cbn [forallb]. by rewrite Hline. }
    rewrite omap_app.
    change (omap (@parse _ usageJson) [stringify entry])
      with (match @parse _ usageJson (stringify entry) with
            | Some e => [e]
            | None => []
            end).
    rewrite Hparse, List.filter_app, length_app. cbn [List.filter].
    unfold isDeepOn at 2. subst entry. unfold entryOf.
    cbn [Research.date Research.provider].
    rewrite (bool_decide_eq_true_2 (isoDate now = today)) by done. cbn [andb].
    destruct (bool_decide (provider = "deep-research")); cbn [List.length]; lia. }
  split; [exact Hcount|].
  intros configFile lim Hne Hlim Hdeep Hlast.
  assert (Hconfig : limitOn d' configFile = Some lim).
  { unfold limitOn in *. subst d'. rewrite UsageFacts.logUsage_run.
    unfold appendFile, fill. cbn [snd files]. by rewrite lookup_insert_ne. }
  rewrite !routeResearch_unforced, Hlim, Hconfig. fold today. rewrite Hcount.
  rewrite (bool_decide_eq_true_2 (provider = "deep-research") Hdeep).
  rewrite bool_decide_eq_true_2 by lia. by rewrite bool_decide_eq_false_2 by lia.
Qed.

End WithCodecs.

(** The first Deep Research use of the 5th of February. *)
Lemma logUsage_counts_witness :
  @deepUses Samples.febCodec "2026-02-05"
    (@logUsage Samples.posixHost Samples.febCodec "2026-02-05T08:00:00.000Z"
       "/ws/research-usage.jsonl" "deep-research" "new" Samples.emptyDisk).2
    "/ws/research-usage.jsonl"
  = 1.
Proof.
  refine (proj1
    (@logUsage_counts Samples.posixHost Samples.febCodec (Samples.tableCodec (λ _, []) [])
       "2026-02-05T08:00:00.000Z" "/ws/research-usage.jsonl" "deep-research" "new"
       [] Samples.emptyDisk _ _ _ _)).
  - reflexivity.
  - reflexivity.
  - by vm_compute.
  - by vm_compute.
Defined.

End QuotaFacts.

(** ** The dashboard note *)

Module NoteFacts.
Import Js Fs DashboardNote.

Section WithCodec.
Variable host : Host.
Context `{JsonCodec DashboardNote}.
Variable now : string.

Lemma validateNoteContent_valid (message emoji : string) :
  valid (validateNoteContent message emoji) = true
  ↔ 0 < length (trim message) ≤ 500.
Proof.
  unfold validateNoteContent, MAX_MESSAGE_LENGTH.
  assert (0 ≤ length (trim message)) by (unfold length; lia).
  destruct (length (trim message) =? 0) eqn:Hzero.
  - apply Z.eqb_eq in Hzero. cbn [valid]. split; [done|lia].
  - apply Z.eqb_neq in Hzero.
    destruct (length (trim message) >? 500) eqn:Hlong; cbn [valid].
    + apply Z.gtb_lt in Hlong. split; [done|lia].
    + rewrite Z.gtb_ltb in Hlong. apply Z.ltb_ge in Hlong. split; [lia|done].
Qed.

(** [updateDashboardNote] accepts exactly the messages that hold, once
    trimmed, between 1 and 500 code units.  A message that is empty once
    trimmed, or longer, makes it throw with the text of the validation,
    and the disk is as it was. *)
Theorem updateDashboardNote_accepts (noteFile message emoji : string) (d : Disk) :
  let result := updateDashboardNote host now noteFile message emoji d in
  (isThrow result.1 = false ↔ 0 < length (trim message) ≤ 500)
  ∧ (length (trim message) = 0 →
     result = (Throw (Error "Message cannot be empty"), d))
  ∧ (500 < length (trim message) →
     result = (Throw (Error "Message too long (max 500 characters)"), d)).
Proof.
  intros result. subst result.
  pose proof (validateNoteContent_valid message emoji) as Hvalid.
  unfold updateDashboardNote. revert Hvalid.
  unfold validateNoteContent, MAX_MESSAGE_LENGTH.
  destruct (length (trim message) =? 0) eqn:Hzero.
  { apply Z.eqb_eq in Hzero. cbn [valid negb error default from_option Datatypes.id].
    intros _. split; [split; [done|lia]|]. split; [done|lia]. }
  apply Z.eqb_neq in Hzero.
  destruct (length (trim message) >? 500) eqn:Hlong;
    cbn [valid negb error default from_option Datatypes.id]; intros Hvalid.
  { apply Z.gtb_lt in Hlong. split; [split; [done|lia]|]. split; [lia|done]. }
  rewrite Z.gtb_ltb in Hlong. apply Z.ltb_ge in Hlong.
  split; [|split; intros; lia].
  split; [intros _; by apply Hvalid|]. intros _.
  unfold Js.bind, Js.ret.
  by destruct (writeJSON host now noteFile _ noOptions d) as [[[]|e] d1] eqn:E;
    [|unfold writeJSON in E;
      destruct (FsFacts.atomicWrite_plain host now noteFile
                  (stringify_pretty {| message := trim message; emoji := emoji;
                                       timestamp := now |} +:+ nl) d) as [Hok _];
      rewrite E in Hok].
Qed.

(** The note written is the note read.  For a message of 1 to 500 code
    units once trimmed, whose note prints to a text that parses back:
    [updateDashboardNote] returns the note of the trimmed message, the emoji
    and the time; the file then holds the printed note and nothing of what
    it held before; [readCurrentNote] returns the note; no temp file is
    left and no other file changes. *)
Theorem update_then_read (noteFile message emoji : string) (d : Disk) :
  let note := {| message := trim message; emoji := emoji; timestamp := now |} in
  let d' := (updateDashboardNote host now noteFile message emoji d).2 in
  0 < length (trim message) ≤ 500 →
  parse (stringify_pretty note +:+ nl) = Some note →
  (updateDashboardNote host now noteFile message emoji d).1 = Normal note
  ∧ files d' !! noteFile = Some (stringify_pretty note +:+ nl)
  ∧ readCurrentNote noteFile d' = (Normal (Some note), d')
  ∧ files d' !! (noteFile +:+ ".tmp") = None
  ∧ ∀ q, q ≠ noteFile → q ≠ noteFile +:+ ".tmp" → files d' !! q = files d !! q.
Proof.
  intros note d' Hlen Hparse.
  assert (Hrun : updateDashboardNote host now noteFile message emoji d
                 = (Normal note,
                    (atomicWrite host now noteFile (stringify_pretty note +:+ nl)
                       noOptions d).2)).
  { unfold updateDashboardNote.
    rewrite (proj2 (validateNoteContent_valid message emoji) Hlen). cbn [negb].
    unfold Js.bind, Js.ret, writeJSON. fold note.
    destruct (FsFacts.atomicWrite_plain host now noteFile
                (stringify_pretty note +:+ nl) d) as [Hok _].
    by destruct (atomicWrite host now noteFile _ noOptions d) as [[[]|e] d1]. }
  assert (Hfiles : files d' = <[noteFile := stringify_pretty note +:+ nl]>
                                (delete (noteFile +:+ ".tmp") (files d))).
  { subst d'. rewrite Hrun. cbn [snd]. by rewrite FsMoreFacts.atomicWrite_files. }
  pose proof (FsFacts.tmp_path_differs noteFile) as Htmp.
  split; [by rewrite Hrun|].
  split; [by rewrite Hfiles, lookup_insert_eq|]. split; [|split].
  - unfold readCurrentNote, readJSON, Js.bind. rewrite FsFacts.safeReadFile_run.
    by rewrite Hfiles, lookup_insert_eq, Hparse.
  - by rewrite Hfiles, lookup_insert_ne, lookup_delete_eq.
  - intros q H1 H2. by rewrite Hfiles, lookup_insert_ne, lookup_delete_ne.
Qed.

End WithCodec.

(** The note "Hello", with white space around the message. *)
Lemma update_then_read_witness :
  (@readCurrentNote Samples.helloCodec "/ws/dashboard.json"
     (@updateDashboardNote Samples.posixHost Samples.helloCodec
        "2026-02-05T10:00:00.000Z" "/ws/dashboard.json" "  Hello " "*"
        Samples.emptyDisk).2).1
  = Normal (Some Samples.helloNote).
Proof.
  refine (f_equal fst (proj1 (proj2 (proj2
    (@update_then_read Samples.posixHost Samples.helloCodec
       "2026-02-05T10:00:00.000Z" "/ws/dashboard.json" "  Hello " "*"
       Samples.emptyDisk _ _))))).
  - by vm_compute.
  - by vm_compute.
Defined.

End NoteFacts.

(** ** The emotional state *)

Module FeelingFacts.
Import Js Fs EmotionalState Feelings.

Lemma length_slice0_cons {A} (x : A) (l : list A) :
  slice0 MAX_RECENT_WAKES (x :: l) = x :: take 9 l.
Proof. reflexivity. Qed.

Section WithCodec.
Variable host : Host.
Context `{JsonCodec EmotionalState}.
Variable now : string.

Lemma readJSON_run (stateFile : string) (w : World) :
  onDisk (readJSON stateFile) w
  = match files (disk w) !! stateFile with
    | None => (Normal None, w)
    | Some content =>
        match parse content with
        | Some st => (Normal (Some st), w)
        | None => (Throw (Error ("Invalid JSON in " +:+ stateFile)), w)
        end
    end.
Proof.
  unfold onDisk, readJSON, Js.bind. rewrite FsFacts.safeReadFile_run.
  destruct w as [d c]. cbn [disk default_current_state].
  destruct (files d !! stateFile) as [content|]; [|done].
  by destruct (parse content).
Qed.

Lemma writeJSON_run (stateFile : string) (st : EmotionalState) (w : World) :
  ∃ d1,
    onDisk (writeJSON host now stateFile st noOptions) w
    = (Normal tt, {| disk := d1; default_current_state := default_current_state w |})
    ∧ files d1
      = <[stateFile := stringify_pretty st +:+ nl]>
          (delete (stateFile +:+ ".tmp") (files (disk w))).
Proof.
  unfold onDisk, writeJSON.
  pose proof (FsFacts.atomicWrite_plain host now stateFile
                (stringify_pretty st +:+ nl) (disk w)) as [Hok _].
  pose proof (FsMoreFacts.atomicWrite_files host now stateFile
                (stringify_pretty st +:+ nl) noOptions (disk w)) as Hfiles.
  destruct (atomicWrite host now stateFile _ noOptions (disk w)) as [c d1].
  cbn [fst snd] in *. subst c. by exists d1.
Qed.

(** An update of a state that the file holds. *)
Lemma update_stored_run (stateFile : string) (update : EmotionalStateUpdate)
    (st : EmotionalState) (w : World) :
  stored w stateFile = Some st →
  ∃ d1,
    updateEmotionalState host now stateFile update w
    = (Normal {| current_state := applied update (current_state st);
                 recent_wakes := wakesAfter now update (recent_wakes st);
                 decay_hours := decay_hours st; notes := notes st |},
       {| disk := d1; default_current_state := default_current_state w |})
    ∧ files d1
      = <[stateFile := stringify_pretty
                         {| current_state := applied update (current_state st);
                            recent_wakes := wakesAfter now update (recent_wakes st);
                            decay_hours := decay_hours st; notes := notes st |}
                       +:+ nl]>
          (delete (stateFile +:+ ".tmp") (files (disk w))).
Proof.
  intros Hstored. unfold stored in Hstored.
  destruct (files (disk w) !! stateFile) as [content|] eqn:Hfile; [|done].
  cbn in Hstored.
  set (st' := {| current_state := applied update (current_state st);
                 recent_wakes := wakesAfter now update (recent_wakes st);
                 decay_hours := decay_hours st; notes := notes st |}).
  destruct (writeJSON_run stateFile st' w) as (d1 & Hwrite & Hfiles).
  exists d1. split; [|exact Hfiles].
  unfold updateEmotionalState. unfold Js.bind at 1.
  rewrite readJSON_run, Hfile, Hstored. cbv beta iota.
  unfold assign, deref, DEFAULT_STATE.
  unfold Js.bind, Js.get, Js.ret, Js.modify.
  destruct update as [p s b t q], st as [[p0 s0 b0] wakes decay note].
  unfold st', applied, wakesAfter, addsWake in Hwrite |- *.
  cbn [u_primary u_secondary u_background u_threads u_question current_state
       recent_wakes decay_hours notes primary secondary background] in Hwrite |- *.
  destruct p as [p|], s as [s|], b as [b|];
    cbn [default from_option Datatypes.id fst snd] in Hwrite |- *.
  all: destruct (truthy t || truthy q).
  all: cbv beta iota; cbn [primary secondary background].
  all: rewrite ?length_slice0_cons; by rewrite Hwrite.
Qed.

(** An update without a state file. *)
Lemma update_missing_run (stateFile : string) (update : EmotionalStateUpdate)
    (w : World) :
  files (disk w) !! stateFile = None →
  ∃ d1,
    updateEmotionalState host now stateFile update w
    = (Normal {| current_state := applied update (default_current_state w);
                 recent_wakes := wakesAfter now update [];
                 decay_hours := 24; notes := notes (DEFAULT_STATE_of (default_current_state w)) |},
       {| disk := d1;
          default_current_state := applied update (default_current_state w) |})
    ∧ files d1
      = <[stateFile := stringify_pretty
                         {| current_state := applied update (default_current_state w);
                            recent_wakes := wakesAfter now update [];
                            decay_hours := 24;
                            notes := notes (DEFAULT_STATE_of (default_current_state w)) |}
                       +:+ nl]>
          (delete (stateFile +:+ ".tmp") (files (disk w))).
Proof.
  intros Hfile.
  set (st' := {| current_state := applied update (default_current_state w);
                 recent_wakes := wakesAfter now update [];
                 decay_hours := 24;
                 notes := notes (DEFAULT_STATE_of (default_current_state w)) |}).
  destruct (writeJSON_run stateFile st'
              {| disk := disk w;
                 default_current_state := applied update (default_current_state w) |})
    as (d1 & Hwrite & Hfiles).
  exists d1. split; [|exact Hfiles].
  unfold updateEmotionalState. unfold Js.bind at 1.
  rewrite readJSON_run, Hfile. cbv beta iota.
  unfold assign, deref, DEFAULT_STATE.
  unfold Js.bind, Js.get, Js.ret, Js.modify.
  destruct update as [p s b t q], w as [d [p0 s0 b0]].
  unfold st', applied, wakesAfter, addsWake in Hwrite |- *.
  cbn [u_primary u_secondary u_background u_threads u_question current_state
       recent_wakes decay_hours notes primary secondary background disk
       default_current_state DEFAULT_STATE_of] in Hwrite |- *.
  destruct p as [p|], s as [s|], b as [b|];
    cbn [default from_option Datatypes.id fst snd] in Hwrite |- *.
  all: destruct (truthy t || truthy q).
  all: cbv beta iota;
    cbn [primary secondary background disk default_current_state].
  all: rewrite ?length_slice0_cons; cbn [take] in Hwrite |- *; by rewrite Hwrite.
Qed.

Lemma initEmotionalState_stored (stateFile : string) (st : EmotionalState) (w : World) :
  stored w stateFile = Some st →
  initEmotionalState host now stateFile w = (Normal st, w).
Proof.
  unfold stored. intros Hstored.
  destruct (files (disk w) !! stateFile) as [content|] eqn:Hfile; [|done].
  cbn in Hstored. unfold initEmotionalState, Js.bind.
  by rewrite readJSON_run, Hfile, Hstored.
Qed.

(** An update of the state a file holds.  The fields of the current state
    that the update provides are replaced and the others kept.  With
    threads or a question the update puts one wake entry, stamped with the
    time, before the old ones and keeps the nine newest of those, so that
    at most ten are held; without, the wakes are as they were.  The new
    state is returned and written in place of the old, the defaults of the
    module are not touched, and when the written text parses back, reading
    and initialising the file both return the new state. *)
Theorem update_keeps_ten_wakes (stateFile : string) (update : EmotionalStateUpdate)
    (st : EmotionalState) (w : World) :
  stored w stateFile = Some st →
  let w' := (updateEmotionalState host now stateFile update w).2 in
  ∃ st',
    (updateEmotionalState host now stateFile update w).1 = Normal st'
    ∧ current_state st' = applied update (current_state st)
    ∧ recent_wakes st' = wakesAfter now update (recent_wakes st)
    ∧ (addsWake update = true →
       Z.of_nat (List.length (recent_wakes st')) ≤ MAX_RECENT_WAKES
       ∧ ∃ entry, recent_wakes st' = entry :: take 9 (recent_wakes st)
                  ∧ timestamp entry = now)
    ∧ (addsWake update = false → recent_wakes st' = recent_wakes st)
    ∧ decay_hours st' = decay_hours st ∧ notes st' = notes st
    ∧ default_current_state w' = default_current_state w
    ∧ files (disk w') !! stateFile = Some (stringify_pretty st' +:+ nl)
    ∧ (parse (stringify_pretty st' +:+ nl) = Some st' →
       readEmotionalState stateFile w' = (Normal (Some st'), w')
       ∧ initEmotionalState host now stateFile w' = (Normal st', w')).
Proof.
  intros Hstored w'.
  destruct (update_stored_run stateFile update st w Hstored) as (d1 & Hrun & Hfiles).
  subst w'. rewrite Hrun. cbn [fst snd]. eexists. split; [reflexivity|].
  cbn [current_state recent_wakes decay_hours notes disk default_current_state].
  split; [done|]. split; [done|]. split.
  { intros Hadds. unfold wakesAfter. rewrite Hadds. split; [|by eexists].
    cbn [List.length]. rewrite length_take. unfold MAX_RECENT_WAKES. lia. }
  split; [intros Hadds; unfold wakesAfter; by rewrite Hadds|].
  split; [done|]. split; [done|]. split; [done|].
  assert (Hfile : files d1 !! stateFile
                  = Some (stringify_pretty
                            {| current_state := applied update (current_state st);
                               recent_wakes := wakesAfter now update (recent_wakes st);
                               decay_hours := decay_hours st; notes := notes st |}
                          +:+ nl))
    by (by rewrite Hfiles, lookup_insert_eq).
  split; [exact Hfile|]. intros Hparse.
  split.
  - unfold readEmotionalState. rewrite readJSON_run. cbn [disk].
    by rewrite Hfile, Hparse.
  - apply initEmotionalState_stored. unfold stored. cbn [disk].
    by rewrite Hfile.
Qed.

(** The defaults are one object.  An update without a state file starts
    from the defaults and returns them with the fields it provides; it
    writes those fields into the defaults of the module as well.  So an
    initialisation of another missing file, later, writes and returns the
    current state the update left, not the one the module was loaded
    with. *)
Theorem update_without_file_changes_defaults (stateFile : string)
    (update : EmotionalStateUpdate) (w : World) :
  files (disk w) !! stateFile = None →
  let w' := (updateEmotionalState host now stateFile update w).2 in
  let changed := applied update (default_current_state w) in
  (∃ st', (updateEmotionalState host now stateFile update w).1 = Normal st'
          ∧ current_state st' = changed
          ∧ recent_wakes st' = wakesAfter now update []
          ∧ files (disk w') !! stateFile = Some (stringify_pretty st' +:+ nl))
  ∧ default_current_state w' = changed
  ∧ ∀ other,
      files (disk w') !! other = None →
      (initEmotionalState host now other w').1 = Normal (DEFAULT_STATE_of changed)
      ∧ files (disk (initEmotionalState host now other w').2) !! other
        = Some (stringify_pretty (DEFAULT_STATE_of changed) +:+ nl).
Proof.
  intros Hfile w' changed.
  destruct (update_missing_run stateFile update w Hfile) as (d1 & Hrun & Hfiles).
  subst w'. fold changed in Hrun, Hfiles. rewrite Hrun. cbn [fst snd disk default_current_state].
  split; [|split; [done|]].
  - eexists. split; [reflexivity|].
    cbn [current_state recent_wakes]. split; [done|]. split; [done|].
    by rewrite Hfiles, lookup_insert_eq.
  - intros other Hother.
    set (w1 := {| disk := d1; default_current_state := changed |}).
    destruct (writeJSON_run other (DEFAULT_STATE_of changed) w1)
      as (d2 & Hwrite & Hfiles2).
    assert (Hinit : initEmotionalState host now other w1
                    = (Normal (DEFAULT_STATE_of changed),
                       {| disk := d2; default_current_state := changed |})).
    { unfold initEmotionalState. unfold Js.bind at 1.
      rewrite readJSON_run. cbn [disk w1]. rewrite Hother. cbv beta iota.
      unfold DEFAULT_STATE. unfold Js.bind, Js.get, Js.ret.
      cbn [default_current_state w1]. fold w1. by rewrite Hwrite. }
    rewrite Hinit. cbn [fst snd disk]. split; [done|].
    by rewrite Hfiles2, lookup_insert_eq.
Qed.

End WithCodec.

(** The state of the examples, updated with nothing. *)
Lemma update_keeps_ten_wakes_witness :
  (@updateEmotionalState Samples.posixHost Samples.stateCodec
     "2026-02-05T11:00:00.000Z" "/ws/emotional-state.json" Samples.quietUpdate
     (loaded (Samples.diskWith "/ws/emotional-state.json"
                (@stringify_pretty _ Samples.stateCodec Samples.calmState)))).1
  = Normal Samples.calmState.
Proof.
  destruct (@update_keeps_ten_wakes Samples.posixHost Samples.stateCodec
              "2026-02-05T11:00:00.000Z" "/ws/emotional-state.json"
              Samples.quietUpdate Samples.calmState
              (loaded (Samples.diskWith "/ws/emotional-state.json"
                         (@stringify_pretty _ Samples.stateCodec Samples.calmState)))
              eq_refl)
    as (st' & Hrun & Hcurrent & Hwakes & _ & _ & Hdecay & Hnotes & _).
  rewrite Hrun. f_equal. destruct st' as [c r dh n].
  cbn [current_state recent_wakes decay_hours notes] in *. by subst.
Defined.

(** In the module as loaded, an update that names the primary feeling
    "calm", for a state file that is missing: the state initialised in
    another file afterwards is calm too. *)
Lemma update_without_file_changes_defaults_witness :
  (@initEmotionalState Samples.posixHost Samples.stateCodec
     "2026-02-05T10:00:00.000Z" "/ws/other.json"
     (@updateEmotionalState Samples.posixHost Samples.stateCodec
        "2026-02-05T10:00:00.000Z" "/ws/emotional-state.json" Samples.calmUpdate
        (loaded Samples.emptyDisk)).2).1
  = Normal (DEFAULT_STATE_of Samples.calmCurrent).
Proof.
  pose proof (@update_without_file_changes_defaults Samples.posixHost
                Samples.stateCodec "2026-02-05T10:00:00.000Z"
                "/ws/emotional-state.json" Samples.calmUpdate
                (loaded Samples.emptyDisk) eq_refl) as (_ & _ & Hinit).
  cbv zeta in Hinit.
  exact (proj1 (Hinit "/ws/other.json" ltac:(by vm_compute))).
Defined.

End FeelingFacts.

(** ** The thread marker *)

Module ThreadFacts.
Import Js Fs ThreadMarker Threads.

Section WithCodec.
Variable host : Host.
Context `{JsonCodec (option ThreadsFile)}.
Variables now dayAhead weekAhead uuid : string.

Lemma threadParams_accepted (params : ThreadMarkerParams) :
  validateParams params = None ↔ accepted params.
Proof.
  unfold validateParams, accepted. rewrite !MemoryUpdateFacts.blank_guard_eq.
  destruct (whitespaceOnly (topic params)); [by split; [|intros [? _]]|].
  destruct (whitespaceOnly (question params)); [by split; [|intros (_ & ? & _)]|].
  destruct (truthy (importance params)); cbn [andb].
  - destruct (decide (default "" (importance params) ∈ VALID_IMPORTANCE)) as [Hi|Hi].
    + rewrite (bool_decide_eq_true_2 _ Hi). by cbn [negb].
    + rewrite (bool_decide_eq_false_2 _ Hi). cbn [negb].
      split; [done|]. intros (_ & _ & Himp). by destruct Hi; apply Himp.
  - split; [|done]. intros _. by repeat split.
Qed.

(** [readThreadsFile] changes nothing, and returns the threads of the file
    unless the file parses to a value without an array of threads. *)
Lemma readThreadsFile_run (threadsPath : string) (d : Disk) :
  (noThreadList d threadsPath ∧ readThreadsFile threadsPath d = (Normal None, d))
  ∨ (¬ noThreadList d threadsPath
     ∧ readThreadsFile threadsPath d
       = (Normal (Some {| threads := threadsOn d threadsPath |}), d)).
Proof.
  unfold readThreadsFile, threadsOn, noThreadList, readFile, Js.tryCatch, Js.bind,
    ENOENT, Js.throw, Js.ret.
  destruct (files d !! threadsPath) as [content|]; cbn [mbind option_bind];
    [|by right].
  destruct (parse content) as [[[l]|]|]; [by right|by left|by right].
Qed.

(** [threadMarker] on a file without an array of threads. *)
Lemma threadMarker_unmarked (params : ThreadMarkerParams) (d : Disk) :
  accepted params → noThreadList d (threadsPathOf host params) →
  threadMarker host now dayAhead weekAhead uuid params d
  = (Normal (unmarked host), d).
Proof.
  intros Hok%threadParams_accepted Hno. unfold threadMarker. rewrite Hok.
  cbv zeta. fold (threadsPathOf host params).
  destruct (readThreadsFile_run (threadsPathOf host params) d)
    as [[_ Hread]|[Hyes _]]; [|done].
  unfold mkdir, Js.tryCatch.
  unfold Js.bind at 1. unfold Js.ret at 1. cbv beta iota.
  unfold Js.bind at 1. rewrite Hread. by cbv beta iota.
Qed.

(** [threadMarker] once the parameters are validated, on any other file. *)
Lemma threadMarker_run (params : ThreadMarkerParams) (d : Disk) :
  accepted params → ¬ noThreadList d (threadsPathOf host params) →
  ∃ thread,
    threadMarker host now dayAhead weekAhead uuid params d
    = (Normal (marked uuid),
       fill (threadsPathOf host params) ""
            (printed (threadsOn d (threadsPathOf host params) ++ [thread])) d)
    ∧ id thread = uuid ∧ timestamp thread = now
    ∧ t_topic thread = trim (topic params)
    ∧ t_question thread = trim (question params)
    ∧ status thread = "open"
    ∧ t_importance thread = (if truthy (importance params)
                             then default "" (importance params) else "medium")
    ∧ revisit thread
      = (if truthy (parseWhen now dayAhead weekAhead (when params))
         then parseWhen now dayAhead weekAhead (when params) else None).
Proof.
  intros Hok%threadParams_accepted Hyes. unfold threadMarker. rewrite Hok.
  cbv zeta. fold (threadsPathOf host params).
  destruct (readThreadsFile_run (threadsPathOf host params) d)
    as [[Hno _]|[_ Hread]]; [done|].
  unfold mkdir, writeThreadsFile, writeFile, Js.tryCatch.
  unfold Js.bind at 1. unfold Js.ret at 1. cbv beta iota.
  unfold Js.bind at 1. rewrite Hread. cbv beta iota.
  unfold Js.bind, Js.ret. cbn [threads].
  eexists. split; [reflexivity|]. by repeat split.
Qed.

(** The outcome of [threadMarker].  It always answers with a result, never
    with an exception.  The result is a success exactly when topic and
    question are not blank, the importance, when given, is low, medium or
    high, and the threads file is not one that parses to a value without an
    array of threads: on such a file the request fails at the [push] of the
    new thread.  A failure carries an error text and creates or changes no
    file; the memory directory may have been made. *)
Theorem threadMarker_outcome (params : ThreadMarkerParams) (d : Disk) :
  ∃ result,
    (threadMarker host now dayAhead weekAhead uuid params d).1 = Normal result
    ∧ (success result = true
       ↔ accepted params ∧ ¬ noThreadList d (threadsPathOf host params))
    ∧ (success result = false →
       files (threadMarker host now dayAhead weekAhead uuid params d).2 = files d
       ∧ is_Some (error result))
    ∧ (accepted params → noThreadList d (threadsPathOf host params) →
       result = unmarked host).
Proof.
  destruct (validateParams params) as [msg|] eqn:Hvalid.
  - exists (failure msg). unfold threadMarker. rewrite Hvalid.
    split; [done|]. split; [|split; [by eauto|]].
    + split; [done|]. intros [Hok%threadParams_accepted _]. congruence.
    + intros Hok%threadParams_accepted. congruence.
  - apply threadParams_accepted in Hvalid as Hok.
    destruct (readThreadsFile_run (threadsPathOf host params) d)
      as [[Hno _]|[Hyes _]].
    + exists (unmarked host). rewrite (threadMarker_unmarked params d Hok Hno).
      split; [done|]. split; [|split; [by eauto|done]].
      split; [done|]. by intros [_ ?].
    + destruct (threadMarker_run params d Hok Hyes) as (thread & Hrun & _).
      exists (marked uuid). rewrite Hrun. split; [done|].
      split; [by split|]. by split.
Qed.

(** Marks accumulate.  A valid request, on a threads file that does not
    parse to a value without an array of threads, answers with the new id
    and rewrites the file as the threads it held, in their order, followed
    by the new thread: open, with the trimmed topic and question, the given
    time and id, the importance medium when none is given, and the date to
    revisit that [parseWhen] makes of [when].  A file that is missing or
    does not parse counts as holding no thread, so the new thread is then
    the only one written, and the text that did not parse is gone.  No
    other file changes; and when the written text parses back, the file
    holds the old threads and the new one for the next request. *)
Theorem marks_accumulate (params : ThreadMarkerParams) (d : Disk) :
  accepted params →
  ¬ noThreadList d (threadsPathOf host params) →
  let threadsPath := threadsPathOf host params in
  let d' := (threadMarker host now dayAhead weekAhead uuid params d).2 in
  ∃ thread,
    (threadMarker host now dayAhead weekAhead uuid params d).1 = Normal (marked uuid)
    ∧ files d' !! threadsPath
      = Some (printed (threadsOn d threadsPath ++ [thread]))
    ∧ id thread = uuid ∧ timestamp thread = now
    ∧ t_topic thread = trim (topic params)
    ∧ t_question thread = trim (question params)
    ∧ status thread = "open"
    ∧ t_importance thread = (if truthy (importance params)
                             then default "" (importance params) else "medium")
    ∧ revisit thread
      = (if truthy (parseWhen now dayAhead weekAhead (when params))
         then parseWhen now dayAhead weekAhead (when params) else None)
    ∧ (∀ q, q ≠ threadsPath → files d' !! q = files d !! q)
    ∧ (parse (printed (threadsOn d threadsPath ++ [thread]))
       = Some (Some {| threads := threadsOn d threadsPath ++ [thread] |}) →
       threadsOn d' threadsPath = threadsOn d threadsPath ++ [thread]).
Proof.
  intros Hok Hyes threadsPath d'.
  destruct (threadMarker_run params d Hok Hyes)
    as (thread & Hrun & Hid & Htime & Htopic & Hquestion & Hstatus & Himportance
        & Hrevisit).
  exists thread. subst d'. rewrite Hrun. fold threadsPath.
  cbn [fst snd]. unfold fill. cbn [files].
  split; [done|]. split; [by rewrite lookup_insert_eq|].
  do 7 (split; [done|]).
  split; [intros q Hq; by rewrite lookup_insert_ne|].
  intros Hparse. unfold threadsOn at 1. cbn [files].
  rewrite lookup_insert_eq. cbn [mbind option_bind].
  rewrite JsFacts.app_nil_l. by rewrite Hparse.
Qed.

End WithCodec.

(** The first thread of a workspace. *)
Lemma marks_accumulate_witness :
  @threadsOn Samples.threadsCodec
    (@threadMarker Samples.posixHost Samples.threadsCodec
       "2026-02-05T10:00:00.000Z" "2026-02-06T10:00:00.000Z"
       "2026-02-12T10:00:00.000Z" "th1" Samples.gardenThread Samples.emptyDisk).2
    "/ws/memory/threads.json"
  = [Samples.gardenMarked].
Proof.
  destruct (@marks_accumulate Samples.posixHost Samples.threadsCodec
              "2026-02-05T10:00:00.000Z" "2026-02-06T10:00:00.000Z"
              "2026-02-12T10:00:00.000Z" "th1" Samples.gardenThread
              Samples.emptyDisk)
    as (thread & _ & _ & Hid & Htime & Htopic & Hquestion & Hstatus & Himportance
        & Hrevisit & _ & Hback).
  { by repeat split. }
  { done. }
  assert (Hthread : thread = Samples.gardenMarked).
  { clear Hback. destruct thread as [i ts tt tq rv ti st].
    cbn [id timestamp t_topic t_question status t_importance revisit] in *.
    by subst. }
  subst thread. by apply Hback.
Defined.

End ThreadFacts.

(** ** The levels of the bootstrap hook, compared *)

Module LevelFacts.
Import Js AccessLevelBootstrap.

Lemma keepPath_level (l : AccessLevel) (path : string) :
  l ≠ private →
  keepPath (Level l) path
  = negb (endsWith path "MEMORY.md")
    && negb (includes path "memory/private/")
    && (negb (includes path "memory/family/") || bool_decide (l = family)).
Proof.
  intros Hl. unfold keepPath.
  destruct (endsWith path "MEMORY.md") eqn:Hend; cbn [orb negb andb]; [done|].
  destruct (includes path "memory/private/MEMORY.md") eqn:Hroot.
  { apply JsFacts.includes_spec in Hroot as (pre & post & ->).
    assert (Hdir : includes (pre +:+ "memory/private/MEMORY.md" +:+ post)
                            "memory/private/" = true).
    { apply JsFacts.includes_spec. by exists pre, ("MEMORY.md" +:+ post). }
    by rewrite Hdir. }
  rewrite (bool_decide_eq_true_2 (Level l ≠ Level private)) by congruence.
  rewrite andb_true_r.
  destruct (includes path "memory/private/"); cbn [negb andb]; [done|].
  destruct (includes path "memory/family/"); cbn [negb andb orb]; [|done].
  by destruct l.
Qed.

Lemma retained_elem (l : AccessLevel) (files : list BootstrapFile)
    (file : BootstrapFile) :
  file ∈ retained (Level l) files
  ↔ file ∈ files ∧ (l = private ∨ keepPath (Level l) (pathOf file) = true).
Proof.
  unfold retained. destruct (decide (l = private)) as [->|Hl].
  - rewrite bool_decide_eq_false_2 by (by intros []). split; [by auto|by intros [? _]].
  - rewrite bool_decide_eq_true_2 by congruence.
    rewrite !list_elem_of_In, filter_In. split; [by intros [? ?]; auto|].
    by intros [? [?|?]].
Qed.

Section WithHost.
Variable host : Host.
Variables now dayAgo : string.

(** The levels compared.  A level keeps every candidate that a lower level
    keeps.  The three levels below family keep the same candidates: the
    hook has no rule for a household or a trusted directory.  Below
    private, no candidate is kept whose path holds memory/private/, and one
    whose path holds memory/family/ is kept by the family level only.  The
    candidates kept stay in their order, and on entries that all carry a
    path the hook leaves them followed by at most two daily files. *)
Theorem levels_keep_more (files : list BootstrapFile) :
  (∀ l1 l2 file,
     (rank l2 ≤ rank l1)%nat →
     file ∈ retained (Level l2) files → file ∈ retained (Level l1) files)
  ∧ (∀ l1 l2,
       (rank l1 < rank family)%nat → (rank l2 < rank family)%nat →
       retained (Level l1) files = retained (Level l2) files)
  ∧ (∀ l file,
       l ≠ private → file ∈ retained (Level l) files →
       includes (pathOf file) "memory/private/" = false
       ∧ (includes (pathOf file) "memory/family/" = true → l = family))
  ∧ (∀ l, retained (Level l) files `sublist_of` files)
  ∧ (∀ sessionKey workspaceDir,
       workspaceDir ≠ "" → forallb wellTyped files = true →
       ∃ dailies,
         ctx_bootstrapFiles
           (handler host now dayAgo (bootstrapEvent sessionKey workspaceDir files)).2
         = Some (retained (deriveAccessLevel sessionKey) files ++ dailies)
         ∧ (List.length dailies ≤ 2)%nat).
Proof.
  split; [|split; [|split; [|split]]].
  - intros l1 l2 file Hrank [Hin Hkeep]%retained_elem. apply retained_elem.
    split; [done|]. destruct (decide (l1 = private)) as [|H1]; [by left|]. right.
    assert (H2 : l2 ≠ private) by (intros ->; destruct l1; simpl in *; done || lia).
    destruct Hkeep as [|Hkeep]; [done|].
    rewrite keepPath_level in Hkeep |- * by done.
    apply andb_true_iff in Hkeep as [Hfirst Hfamily]. rewrite Hfirst. cbn [andb].
    apply orb_true_iff in Hfamily as [->|Hfam%bool_decide_eq_true]; [done|].
    subst l2. apply orb_true_iff. right. apply bool_decide_eq_true.
    destruct l1; simpl in *; done || lia.
  - intros l1 l2 H1 H2. unfold retained.
    rewrite !bool_decide_eq_true_2 by (destruct l1, l2; simpl in *; done || lia).
    apply filter_ext. intros file.
    rewrite !keepPath_level by (destruct l1, l2; simpl in *; done || lia).
    rewrite !(bool_decide_eq_false_2 (_ = family))
      by (destruct l1, l2; simpl in *; done || lia).
    done.
  - intros l file Hl [_ [?|Hkeep]]%retained_elem; [done|].
    rewrite keepPath_level in Hkeep by done.
    apply andb_true_iff in Hkeep as [[_ Hprivate%negb_true_iff]%andb_true_iff Hfamily].
    split; [done|]. intros Hfam. rewrite Hfam in Hfamily.
    by apply bool_decide_eq_true in Hfamily.
  - intros l. unfold retained. destruct (bool_decide _); [|done].
    induction files as [|file rest IH]; [done|]. cbn [List.filter].
    destruct (keepPath _ _); [by apply sublist_skip|by apply sublist_cons].
  - intros sessionKey workspaceDir Hws Hty.
    rewrite HookFacts.handler_bootstrapEvent by done.
    rewrite (HookFacts.tryBlock_typed host now dayAgo _ _ _ Hty). cbv zeta.
    cbn [snd ctx_bootstrapFiles bootstrapContext].
    eexists. split; [reflexivity|].
    rewrite length_app. unfold dailyIfAbsent.
    do 2 destruct (existsb _ _); cbn [List.length]; lia.
Qed.

Lemma retained_twice (level : LevelValue) (files : list BootstrapFile) :
  retained level (retained level files) = retained level files.
Proof.
  unfold retained. destruct (bool_decide (level ≠ Level private)); [|done].
  induction files as [|file rest IH]; [done|]. cbn [List.filter].
  destruct (keepPath level (pathOf file)) eqn:Hkeep; [|done].
  cbn [List.filter]. by rewrite Hkeep, IH.
Qed.

Lemma retained_app (level : LevelValue) (l1 l2 : list BootstrapFile) :
  retained level (l1 ++ l2) = retained level l1 ++ retained level l2.
Proof.
  unfold retained. destruct (bool_decide (level ≠ Level private)); [|done].
  apply List.filter_app.
Qed.

Lemma retained_wellTyped (level : LevelValue) (files : list BootstrapFile) :
  forallb wellTyped files = true → forallb wellTyped (retained level files) = true.
Proof.
  unfold retained. destruct (bool_decide (level ≠ Level private)); [|done].
  induction files as [|file rest IH]; [done|]. cbn [forallb List.filter].
  intros [Hfile Hrest]%andb_true_iff. destruct (keepPath _ _); [|by apply IH].
  cbn [forallb]. by rewrite Hfile, IH.
Qed.

(** The hook run twice.  On entries that all carry a path, when the joined
    path of each of the two daily files holds its relative path and passes
    the filter of the level, a second run of the hook on the files the
    first run left changes nothing. *)
Theorem handler_twice (sessionKey workspaceDir : string) (files : list BootstrapFile) :
  let level := deriveAccessLevel sessionKey in
  let once :=
    default [] (ctx_bootstrapFiles
                  (handler host now dayAgo
                     (bootstrapEvent sessionKey workspaceDir files)).2) in
  workspaceDir ≠ "" →
  forallb wellTyped files = true →
  (∀ iso, iso ∈ [now; dayAgo] →
          includes (path_join host [workspaceDir; dailyPath host level iso])
                   (dailyPath host level iso) = true) →
  (∀ iso, iso ∈ [now; dayAgo] →
          retained level [dailyEntry host workspaceDir (dailyPath host level iso)]
          = [dailyEntry host workspaceDir (dailyPath host level iso)]) →
  handler host now dayAgo (bootstrapEvent sessionKey workspaceDir once)
  = (Normal tt, bootstrapContext workspaceDir once).
Proof.
  intros level once Hws Hty Hjoin Hdaily.
  assert (Honce : once
                  = retained level files
                    ++ dailyIfAbsent host workspaceDir level now (retained level files)
                    ++ dailyIfAbsent host workspaceDir level dayAgo
                         (retained level files)).
  { subst once. rewrite HookFacts.handler_bootstrapEvent by done.
    by rewrite (HookFacts.tryBlock_typed host now dayAgo _ _ _ Hty). }
  set (kept := retained level files) in *.
  assert (Hfound : ∀ iso rest,
            iso ∈ [now; dayAgo] →
            dailyIfAbsent host workspaceDir level iso
              (kept ++ dailyIfAbsent host workspaceDir level iso kept ++ rest) = []
            ∧ ∀ rest', dailyIfAbsent host workspaceDir level iso
                         (kept ++ rest' ++ dailyIfAbsent host workspaceDir level iso kept)
                       = []).
  { intros iso rest Hiso. unfold dailyIfAbsent.
    destruct (existsb _ kept) eqn:Hkept.
    - split; [|intros rest']; by rewrite !existsb_app, Hkept.
    - split; [|intros rest']; rewrite !existsb_app; cbn [existsb pathOf dailyEntry];
        by rewrite (Hjoin iso Hiso), ?orb_true_r. }
  assert (Htyped : forallb wellTyped once = true).
  { rewrite Honce, !forallb_app. subst kept. rewrite retained_wellTyped by done.
    unfold dailyIfAbsent. by do 2 destruct (existsb _ _). }
  assert (Hkept : retained level once = once).
  { assert (Hsame : ∀ iso existing,
              iso ∈ [now; dayAgo] →
              retained level (dailyIfAbsent host workspaceDir level iso existing)
              = dailyIfAbsent host workspaceDir level iso existing).
    { intros iso existing Hiso. unfold dailyIfAbsent.
      destruct (existsb _ existing); [|by apply Hdaily].
      unfold retained. by destruct (bool_decide _). }
    rewrite Honce, !retained_app. subst kept.
    rewrite retained_twice, !Hsame; [done|..].
    - right. by left.
    - by left. }
  rewrite HookFacts.handler_bootstrapEvent by done.
  rewrite (HookFacts.tryBlock_typed host now dayAgo _ _ _ Htyped). cbv zeta.
  fold level. rewrite Hkept. cbn [snd]. f_equal. f_equal.
  rewrite Honce at 2 3.
  rewrite (proj1 (Hfound now (dailyIfAbsent host workspaceDir level dayAgo kept)
                    ltac:(by left))).
  rewrite (proj2 (Hfound dayAgo [] ltac:(right; by left))
             (dailyIfAbsent host workspaceDir level now kept)).
  by rewrite !app_nil_r.
Qed.

End WithHost.

(** A group session, run twice. *)
Lemma handler_twice_witness :
  handler Samples.posixHost "2026-02-05T10:00:00.000Z" "2026-02-04T10:00:00.000Z"
    (bootstrapEvent "agent:main:telegram:group:42" "/ws"
       [FileStr "memory/public/info.md";
        FileObj (Some "/ws/memory/trusted/2026-02-05-daily.md") "memory";
        FileObj (Some "/ws/memory/trusted/2026-02-04-daily.md") "memory"])
  = (Normal tt,
     bootstrapContext "/ws"
       [FileStr "memory/public/info.md";
        FileObj (Some "/ws/memory/trusted/2026-02-05-daily.md") "memory";
        FileObj (Some "/ws/memory/trusted/2026-02-04-daily.md") "memory"]).
Proof.
  refine (@handler_twice Samples.posixHost "2026-02-05T10:00:00.000Z"
            "2026-02-04T10:00:00.000Z" "agent:main:telegram:group:42" "/ws"
            [FileStr "memory/private/MEMORY.md"; FileStr "memory/family/notes.md";
             FileStr "memory/public/info.md"] _ _ _ _).
  - done.
  - done.
  - intros iso [->|[->|[]%elem_of_nil]%elem_of_cons]%elem_of_cons; reflexivity.
  - intros iso [->|[->|[]%elem_of_nil]%elem_of_cons]%elem_of_cons; reflexivity.
Defined.

End LevelFacts.

(** ** The knowledge extraction hook *)

Module ExtractionFacts.
Import Js Fs KnowledgeExtraction Extraction.

Lemma extractTopics_sublist (messages : list Message) :
  extractTopics messages `sublist_of` ALL_TOPICS.
Proof.
  unfold extractTopics, ALL_TOPICS. cbv zeta.
  repeat match goal with
         | |- context [if ?b then _ else _] => destruct b
         end;
    cbn [app];
    repeat first [apply sublist_nil | apply sublist_skip | apply sublist_cons].
Qed.

Section WithHost.
Variable host : Host.
Context `{JsonCodec (option Message)}.
Variables now localTime : string.

(** An empty transcript holds fewer than five messages. *)
Lemma no_messages : (Z.of_nat (List.length (messagesOf "")) <? 5) = true.
Proof.
  unfold messagesOf. change (split LF (trim "")) with [""].
  cbv [sliceLast List.length drop Nat.sub fmap list_fmap].
  destruct (parse "") as [[m|]|]; cbn [default from_option Datatypes.id omap list_omap
                                         List.filter]; [|done|done].
  by destruct (_ || _).
Qed.

(** The hook, on a /new command with a workspace. *)
Lemma handler_run (event : HookEvent) (d : Disk) :
  type event = "command" → action event = "new" →
  truthy (workspaceDir (context event)) = true →
  handler host now localTime event d
  = let messages := messagesOf (transcriptOf event d) in
    let topics := extractTopics messages in
    if (Z.of_nat (List.length messages) <? 5) || (Z.of_nat (List.length topics) =? 0)
    then (Normal tt, d)
    else appendFile (dailyFileOf host now event) (entryOf localTime topics) d.
Proof.
  intros Htype Haction Hws. unfold handler, transcriptOf.
  rewrite Htype, Haction, Hws. rewrite !bool_decide_eq_true_2 by done.
  cbn [negb orb]. cbv zeta. fold (dailyFileOf host now event).
  fold (entryOf localTime).
  unfold mkdir, readFile, ENOENT.
  unfold Js.tryCatch, Js.bind, Js.ret, Js.throw.
  pose proof no_messages as Hempty.
  destruct (truthy (sessionFile (context event))); cbn [negb];
    [|by rewrite Hempty].
  destruct (files d !! default "" (sessionFile (context event))) as [content|] eqn:Hfile;
    cbn [default from_option Datatypes.id] in *; [|by rewrite Hempty].
  destruct content as [|c content]; cbn [isEmpty]; [by rewrite Hempty|].
  clear Hempty.
  destruct (_ <? 5); cbn [orb]; [reflexivity|].
  destruct (_ =? 0); reflexivity.
Qed.

(** What the hook does.  It never throws.  It changes nothing unless the
    event is the command /new with a workspace and a session file whose
    transcript holds, in its last 100 lines, at least five messages of the
    user or the assistant, and a topic is found in the last 50 of them.  It
    then appends one entry to the daily file of the day, under the time
    given: the topics found, which are some of the five fixed lines, in
    their order.  What the daily file held stays before the entry, and no
    other file changes. *)
Theorem extraction_appends_topics (event : HookEvent) (d : Disk) :
  let d' := (handler host now localTime event d).2 in
  let dailyFile := dailyFileOf host now event in
  let messages := messagesOf (transcriptOf event d) in
  (handler host now localTime event d).1 = Normal tt
  ∧ (∀ q, q ≠ dailyFile → files d' !! q = files d !! q)
  ∧ (d' = d
     ∨ extractTopics messages ≠ []
       ∧ files d' !! dailyFile
         = Some (default "" (files d !! dailyFile)
                 +:+ entryOf localTime (extractTopics messages)))
  ∧ extractTopics messages `sublist_of` ALL_TOPICS
  ∧ (type event ≠ "command" ∨ action event ≠ "new"
     ∨ truthy (workspaceDir (context event)) = false
     ∨ truthy (sessionFile (context event)) = false
     ∨ Z.of_nat (List.length messages) < 5
     ∨ extractTopics messages = [] →
     d' = d)
  ∧ (type event = "command" → action event = "new" →
     truthy (workspaceDir (context event)) = true →
     5 ≤ Z.of_nat (List.length messages) → extractTopics messages ≠ [] →
     files d' !! dailyFile
     = Some (default "" (files d !! dailyFile)
             +:+ entryOf localTime (extractTopics messages))).
Proof.
  intros d' dailyFile messages.
  assert (Hsub := extractTopics_sublist messages).
  destruct (decide (type event = "command" ∧ action event = "new"
                    ∧ truthy (workspaceDir (context event)) = true))
    as [(Htype & Haction & Hws)|Hskip].
  - pose proof (handler_run event d Htype Haction Hws) as Hrun.
    cbv zeta in Hrun. fold messages in Hrun. subst d'. rewrite Hrun.
    destruct (Z.of_nat (List.length messages) <? 5) eqn:Hfew; cbn [orb].
    { apply Z.ltb_lt in Hfew. cbn [fst snd].
      split; [done|]. split; [done|]. split; [by left|]. split; [done|].
      split; [done|]. intros; lia. }
    apply Z.ltb_ge in Hfew.
    destruct (Z.of_nat (List.length (extractTopics messages)) =? 0) eqn:Hnone.
    { apply Z.eqb_eq in Hnone. cbn [fst snd].
      assert (extractTopics messages = [])
        by (destruct (extractTopics messages); [done|simpl in Hnone; lia]).
      split; [done|]. split; [done|]. split; [by left|]. split; [done|].
      split; [done|]. by intros. }
    apply Z.eqb_neq in Hnone.
    assert (Hsome : extractTopics messages ≠ [])
      by (intros Heq; rewrite Heq in Hnone; simpl in Hnone; lia).
    unfold appendFile, fill. cbn [fst snd files].
    split; [done|]. split; [intros q Hq; by rewrite lookup_insert_ne|].
    split; [right; split; [done|by rewrite lookup_insert_eq]|].
    split; [done|]. split.
    + intros [?|[?|[Hw|[Hs|[?|?]]]]]; try done; try lia; try congruence.
      exfalso. clear Hrun. subst messages. unfold transcriptOf in Hfew.
      rewrite Hs in Hfew. pose proof no_messages as Hempty.
      apply Z.ltb_lt in Hempty. lia.
    + intros _ _ _ _ _. by rewrite lookup_insert_eq.
  - assert (Hrun : handler host now localTime event d = (Normal tt, d)).
    { unfold handler.
      destruct (decide (type event = "command")) as [Htype|Htype];
        [rewrite (bool_decide_eq_true_2 _ Htype)
        |by rewrite (bool_decide_eq_false_2 _ Htype)].
      destruct (decide (action event = "new")) as [Haction|Haction];
        [rewrite (bool_decide_eq_true_2 _ Haction)
        |by rewrite (bool_decide_eq_false_2 _ Haction)].
      cbn [negb orb].
      destruct (truthy (workspaceDir (context event))) eqn:Hws; [|done].
      by destruct Hskip. }
    subst d'. rewrite Hrun. cbn [fst snd].
    split; [done|]. split; [done|]. split; [by left|]. split; [done|].
    split; [done|]. intros Htype Haction Hws. by destruct Hskip.
Qed.

End WithHost.

(** A session of five messages of thanks. *)
Lemma extraction_appends_topics_witness :
  files (@handler Samples.posixHost Samples.messageCodec "2026-02-05T10:00:00.000Z"
           "05:00" (newCommand "/ws" "/ws/session.jsonl")
           (Samples.diskWith "/ws/session.jsonl" Samples.sessionTranscript)).2
    !! "/ws/memory/private/2026-02-05-daily.md"
  = Some (entryOf "05:00" ["- Meaningful exchange"]).
Proof.
  refine (proj2 (proj2 (proj2 (proj2 (proj2
    (@extraction_appends_topics Samples.posixHost Samples.messageCodec
       "2026-02-05T10:00:00.000Z" "05:00" (newCommand "/ws" "/ws/session.jsonl")
       (Samples.diskWith "/ws/session.jsonl" Samples.sessionTranscript))))))
    eq_refl eq_refl eq_refl _ _).
  - by vm_compute.
  - by vm_compute.
Defined.

End ExtractionFacts.

(** ** The logs *)

Module LogFacts.
Import Js Fs.

(** *** Computations that only append *)

Lemma appendOnly_ret {A} (a : A) : appendOnly (Js.ret (S:=Disk) a).
Proof. intros d p c Hp. exists "". by rewrite JsFacts.app_nil_r. Qed.

Lemma appendOnly_bind {A B} (m : IO A) (k : A → IO B) :
  appendOnly m → (∀ a, appendOnly (k a)) → appendOnly (Js.bind m k).
Proof.
  intros Hm Hk d p c Hp. destruct (Hm d p c Hp) as [s1 H1].
  unfold Js.bind. destruct (m d) as [[a|e] d']; cbn [snd] in *.
  - destruct (Hk a d' p _ H1) as [s2 H2]. exists (s1 +:+ s2).
    by rewrite <- JsFacts.app_assoc.
  - by exists s1.
Qed.

Lemma appendOnly_tryCatch {A} (m : IO A) (h : JsError → IO A) :
  appendOnly m → (∀ e, appendOnly (h e)) → appendOnly (Js.tryCatch m h).
Proof.
  intros Hm Hh d p c Hp. destruct (Hm d p c Hp) as [s1 H1].
  unfold Js.tryCatch. destruct (m d) as [[a|e] d']; cbn [snd] in *.
  - by exists s1.
  - destruct (Hh e d' p _ H1) as [s2 H2]. exists (s1 +:+ s2).
    by rewrite <- JsFacts.app_assoc.
Qed.

Section WithCodecs.
Variable host : Host.
Context (usageJson : JsonCodec Research.UsageLogEntry).
Context (taskJson : JsonCodec TaskExecutor.Task).
Context (diaryJson : JsonCodec Diary.DiaryEntry).
Context (captureJson : JsonCodec QuickCapture.Task).
Context (threadsJson : JsonCodec (option ThreadMarker.ThreadsFile)).
Variables now dayAhead weekAhead uuid : string.

(** *** The task log *)

Lemma executeTask_appendOnly (execAsync : string → IO string)
    (task : TaskExecutor.Task) :
  (∀ c, appendOnly (execAsync c)) →
  appendOnly (TaskExecutor.executeTask execAsync task).
Proof.
  intros Hexec. unfold TaskExecutor.executeTask.
  destruct (negb _); [apply appendOnly_ret|].
  apply appendOnly_tryCatch; [|intros; apply appendOnly_ret].
  apply appendOnly_bind; [apply Hexec|intros; apply appendOnly_ret].
Qed.

Lemma executeAll_appendOnly (execAsync : string → IO string) (tasksPath : string)
    (latestTasks pendingTasks : list TaskExecutor.Task) (executed : Z) :
  (∀ c, appendOnly (execAsync c)) →
  appendOnly (TaskExecutor.executeAll execAsync now tasksPath latestTasks
                pendingTasks executed).
Proof.
  intros Hexec. revert executed.
  induction pendingTasks as [|task rest IH]; intros executed;
    cbn [TaskExecutor.executeAll]; [apply appendOnly_ret|].
  apply appendOnly_bind; [by apply executeTask_appendOnly|].
  intros [|]; [|apply IH].
  apply appendOnly_bind; [apply UsageFacts.updateTaskStatus_appendOnly|].
  intros _. apply IH.
Qed.

Lemma taskExecutor_appendOnly (execAsync : string → IO string)
    (params : TaskExecutor.TaskExecutorParams) :
  (∀ c, appendOnly (execAsync c)) →
  appendOnly (TaskExecutor.taskExecutor host execAsync now params).
Proof.
  intros Hexec d p c Hp. rewrite ExecutorFacts.taskExecutor_run. cbv zeta.
  generalize (TaskExecutor.getLatestTasks
                (Requests.tasksOn (Requests.tasksPathOf host params) d)).
  intros latestTasks. revert d p c Hp.
  apply appendOnly_tryCatch; [|intros; apply appendOnly_ret].
  destruct (bool_decide (_ = "list")); [apply appendOnly_ret|].
  destruct (bool_decide (_ = "status")).
  { destruct (_ || _); [apply appendOnly_ret|].
    apply appendOnly_bind; [apply UsageFacts.updateTaskStatus_appendOnly|].
    intros; apply appendOnly_ret. }
  destruct (bool_decide (_ = "execute")); [|apply appendOnly_ret].
  apply appendOnly_bind; [by apply executeAll_appendOnly|].
  intros; apply appendOnly_ret.
Qed.

Lemma captureInDaily_appendOnly (heading failed : string)
    (params : QuickCapture.QuickCaptureParams) (memoryDir : string) :
  appendOnly (QuickCapture.captureInDaily host now heading failed params memoryDir).
Proof.
  intros d p c Hp. rewrite CaptureFacts.captureInDaily_run.
  cbn [snd]. unfold fill. cbn [files].
  set (dailyPath := path_join host [memoryDir; "private"; isoDate now +:+ "-daily.md"]).
  destruct (decide (p = dailyPath)) as [->|Hne].
  - rewrite lookup_insert_eq, Hp. cbn [default from_option Datatypes.id].
    rewrite JsFacts.app_nil_l. by eexists.
  - exists "". by rewrite lookup_insert_ne, JsFacts.app_nil_r.
Qed.

Lemma quickCapture_appendOnly (params : QuickCapture.QuickCaptureParams) :
  appendOnly (QuickCapture.quickCapture host now dayAhead uuid params).
Proof.
  intros d p c Hp.
  destruct (QuickCapture.validateParams params) as [msg|] eqn:Hvalid.
  - unfold QuickCapture.quickCapture. rewrite Hvalid.
    exists "". by rewrite JsFacts.app_nil_r.
  - apply CaptureFacts.validateParams_accepted in Hvalid.
    rewrite CaptureFacts.quickCapture_run by done. cbv zeta.
    destruct (bool_decide (_ = "task"));
      [by apply UsageFacts.captureTask_appendOnly|].
    destruct (bool_decide (_ = "uncertainty"));
      [by apply captureInDaily_appendOnly|].
    destruct (bool_decide (_ = "note")); [by apply captureInDaily_appendOnly|].
    by apply appendOnly_ret.
Qed.

(** *** The readers *)

Lemma readTasks_readOnly (tasksPath : string) :
  readOnly (TaskExecutor.readTasks tasksPath).
Proof. intros d. by rewrite TaskFacts.readTasks_run. Qed.

Lemma diaryRead_readOnly sort getTime (params : Diary.DiaryReadParams) :
  readOnly (Diary.diaryRead host sort getTime params).
Proof.
  intros d. unfold Diary.diaryRead, readFile, Js.bind, Js.lift, Js.ret, ENOENT, Js.throw.
  destruct (files d !! Diary.DIARY_PATH host) as [content|] eqn:Hfile.
  - rewrite bool_decide_eq_true_2 by eauto. cbv beta iota zeta delta [negb].
    rewrite Hfile. cbv beta iota.
    by destruct (mapC Diary.parseLine (Diary.diaryLines content)).
  - by rewrite bool_decide_eq_false_2 by (by intros [? ?]).
Qed.

Lemma diaryToday_readOnly sort getTime :
  readOnly (Diary.diaryToday host sort getTime now).
Proof.
  intros d. unfold Diary.diaryToday, Js.bind. cbv zeta.
  pose proof (diaryRead_readOnly sort getTime
                {| Diary.limit := Some 1; Diary.after := Some (isoDate now);
                   Diary.before := None; Diary.r_mood := None; Diary.tag := None |} d)
    as Hread.
  by destruct (Diary.diaryRead _ _ _ _ d) as [[r|e] d'].
Qed.

Lemma countTodayUsage_readOnly (logFile todayStr : string) :
  readOnly (Research.countTodayUsage logFile todayStr).
Proof. intros d. by rewrite QuotaFacts.countTodayUsage_run. Qed.

(** *** The thread store *)

Lemma threadMarker_rewrites (params : ThreadMarker.ThreadMarkerParams) (d : Disk) :
  Threads.accepted params →
  ¬ Threads.noThreadList d (Threads.threadsPathOf host params) →
  ∃ thread,
    ThreadMarker.id thread = uuid
    ∧ files (ThreadMarker.threadMarker host now dayAhead weekAhead uuid params d).2
        !! Threads.threadsPathOf host params
      = Some (Threads.printed
                (Threads.threadsOn d (Threads.threadsPathOf host params) ++ [thread]))
    ∧ ∀ content,
        files d !! Threads.threadsPathOf host params = Some content →
        parse (A:=option ThreadMarker.ThreadsFile) content = None →
        files (ThreadMarker.threadMarker host now dayAhead weekAhead uuid params d).2
          !! Threads.threadsPathOf host params
        = Some (Threads.printed [thread]).
Proof.
  intros Hok Hyes.
  destruct (ThreadFacts.threadMarker_run host now dayAhead weekAhead uuid params d
              Hok Hyes) as (thread & Hrun & Hid & _).
  exists thread. rewrite Hrun. cbn [snd]. unfold fill. cbn [files].
  rewrite lookup_insert_eq, JsFacts.app_nil_l.
  split; [done|]. split; [done|].
  intros content Hfile Hparse. unfold Threads.threadsOn.
  by rewrite Hfile; cbn [mbind option_bind]; rewrite Hparse.
Qed.

(** C8, as the code has it.  A usage log that is missing or empty is left
    alone.  Otherwise [resetDailyQuota] rewrites it to hold, in their
    order and each ended by a line feed, exactly those of its non-blank
    lines that do not parse to an entry dated today: the entries of other
    days and the malformed non-blank lines.  Blank lines are dropped.

    Every other operation on the usage log, the task log and the diary
    only appends: after [logUsage], [updateTaskStatus], [diaryWrite], the
    task capture, a whole [quickCapture], and a whole [taskExecutor] whose
    commands only append, every file still starts with what it held; and
    the readers [readTasks], [diaryRead], [diaryToday] and
    [countTodayUsage] leave the disk as it is.

    The thread store is no such log.  Every accepted [threadMarker], on a
    file that does not parse to a value without an array of threads,
    writes the whole file anew: the threads it parsed from the file,
    printed again, and the new thread.  What the file held and did not
    parse is gone. *)
Theorem append_only_logs :
  (∀ logFile d,
     files d !! logFile = None ∨ files d !! logFile = Some "" →
     Research.resetDailyQuota host now logFile d = (Normal tt, d))
  ∧ (∀ logFile d content,
       files d !! logFile = Some content → content ≠ "" →
       let kept := List.filter (Research.notFromToday (isoDate now))
                               (Research.usageLines content) in
       (Research.resetDailyQuota host now logFile d).1 = Normal tt
       ∧ files (Research.resetDailyQuota host now logFile d).2 !! logFile
         = Some (unlines kept)
       ∧ Research.usageLines (unlines kept) = kept
       ∧ ∀ line, line ∈ kept ↔
                 line ∈ Research.usageLines content
                 ∧ ∀ entry, parse line = Some entry →
                            Research.date entry ≠ isoDate now)
  ∧ (∀ logFile provider query,
       appendOnly (Research.logUsage host now logFile provider query))
  ∧ (∀ tasksPath taskId newStatus tasks,
       appendOnly (TaskExecutor.updateTaskStatus now tasksPath taskId newStatus tasks))
  ∧ (∀ params, appendOnly (Diary.diaryWrite host now uuid params))
  ∧ (∀ params memoryDir,
       appendOnly (QuickCapture.captureTask host now dayAhead uuid params memoryDir))
  ∧ (∀ params, appendOnly (QuickCapture.quickCapture host now dayAhead uuid params))
  ∧ (∀ execAsync params,
       (∀ c, appendOnly (execAsync c)) →
       appendOnly (TaskExecutor.taskExecutor host execAsync now params))
  ∧ (∀ tasksPath, readOnly (TaskExecutor.readTasks tasksPath))
  ∧ (∀ sort getTime params, readOnly (Diary.diaryRead host sort getTime params))
  ∧ (∀ sort getTime, readOnly (Diary.diaryToday host sort getTime now))
  ∧ (∀ logFile todayStr, readOnly (Research.countTodayUsage logFile todayStr))
  ∧ (∀ params d,
       Threads.accepted params →
       ¬ Threads.noThreadList d (Threads.threadsPathOf host params) →
       ∃ thread,
         ThreadMarker.id thread = uuid
         ∧ files (ThreadMarker.threadMarker host now dayAhead weekAhead uuid params d).2
             !! Threads.threadsPathOf host params
           = Some (Threads.printed
                     (Threads.threadsOn d (Threads.threadsPathOf host params)
                      ++ [thread]))
         ∧ ∀ content,
             files d !! Threads.threadsPathOf host params = Some content →
             parse (A:=option ThreadMarker.ThreadsFile) content = None →
             files (ThreadMarker.threadMarker host now dayAhead weekAhead uuid
                      params d).2
               !! Threads.threadsPathOf host params
             = Some (Threads.printed [thread])).
Proof.
  split; [exact (UsageFacts.reset_untouched host usageJson now)|].
  split; [exact (UsageFacts.reset_kept host usageJson now)|].
  split; [exact (UsageFacts.logUsage_appendOnly host usageJson now)|].
  split; [exact (UsageFacts.updateTaskStatus_appendOnly taskJson now)|].
  split; [exact (UsageFacts.diaryWrite_appendOnly host diaryJson now uuid)|].
  split; [exact (UsageFacts.captureTask_appendOnly host captureJson now dayAhead uuid)|].
  split; [exact quickCapture_appendOnly|].
  split; [exact taskExecutor_appendOnly|].
  split; [exact readTasks_readOnly|].
  split; [exact diaryRead_readOnly|].
  split; [exact diaryToday_readOnly|].
  split; [exact countTodayUsage_readOnly|].
  exact threadMarker_rewrites.
Qed.

End WithCodecs.

(** Two logs that lose what they held.  A usage log of a blank line and a
    malformed line: neither parses to an entry of today, and the
    specification keeps both; the reset keeps the malformed line and drops
    the blank one.  A threads file whose text does not parse: the next
    mark writes the file of the new thread alone, which does not start
    with what the file held, so [threadMarker] does not only append. *)
Lemma rewritten_logs :
  (bool_decide ("   " ∈ split LF ("   " +:+ nl +:+ "not json" +:+ nl)) = true
   ∧ @parse _ (Samples.usageCodec []) "   " = None
   ∧ files (@Research.resetDailyQuota Samples.posixHost (Samples.usageCodec [])
              "2026-02-05T10:00:00.000Z" "/ws/research-usage.jsonl"
              (Samples.diskWith "/ws/research-usage.jsonl"
                 ("   " +:+ nl +:+ "not json" +:+ nl))).2
       !! "/ws/research-usage.jsonl"
     = Some ("not json" +:+ nl)
   ∧ bool_decide ("   " ∈ split LF ("not json" +:+ nl)) = false)
  ∧ (Threads.accepted Samples.gardenThread
     ∧ files (@ThreadMarker.threadMarker Samples.posixHost Samples.threadsCodec
                "2026-02-05T10:00:00.000Z" "2026-02-06T10:00:00.000Z"
                "2026-02-12T10:00:00.000Z" "th1" Samples.gardenThread
                (Samples.diskWith "/ws/memory/threads.json" "not json")).2
         !! "/ws/memory/threads.json"
       = Some (@Threads.printed Samples.threadsCodec [Samples.gardenMarked])
     ∧ ¬ appendOnly (@ThreadMarker.threadMarker Samples.posixHost Samples.threadsCodec
                       "2026-02-05T10:00:00.000Z" "2026-02-06T10:00:00.000Z"
                       "2026-02-12T10:00:00.000Z" "th1" Samples.gardenThread)).
Proof.
  split; [vm_compute; auto|].
  split; [by repeat split|]. split; [by vm_compute|].
  intros Happend.
  destruct (Happend (Samples.diskWith "/ws/memory/threads.json" "not json")
              "/ws/memory/threads.json" "not json" eq_refl) as [suffix Hfile].
  vm_compute in Hfile. discriminate Hfile.
Qed.

End LogFacts.
